(** * cluster-api-provider-vsphere: the machine reconciliation core

    A shallow embedding of
    - package [util]        (identifier codec, preferred IP address),
    - package [govmomi]     (task tracker, completion notifier),
    - package [controllers] (the VSphereMachine reconciler),
    followed by the properties established about them.

    Go strings are byte sequences; they are modelled by [string]
    (a list of [ascii], one per byte).  Pointers to strings ([*string])
    are [option string].  A Go [error] result is an [option] of an error
    value, [None] being [nil]. *)

From Stdlib Require Import Bool Arith NArith Lia List.
From Stdlib Require Import Ascii String.
Import ListNotations.
Open Scope string_scope.

(* ================================================================== *)
(** * Strings *)

Module Str.

(** [s[n:]] for [n <= len(s)]. *)
Fixpoint skip (n : nat) (s : string) : string :=
  match n, s with
  | O, _ => s
  | S _, EmptyString => EmptyString
  | S n', String _ s' => skip n' s'
  end.

(** [s] starts with [e]. *)
Fixpoint starts_with (e s : string) : bool :=
  match e with
  | EmptyString => true
  | String a e' =>
      match s with
      | EmptyString => false
      | String b s' => Ascii.eqb a b && starts_with e' s'
      end
  end.

(** A one-byte string. *)
Definition byte (c : ascii) : string := String c EmptyString.

Definition bytes_of (s : string) : list ascii := list_ascii_of_string s.

(** The byte [c] lies in the range [lo..hi]. *)
Definition between (lo hi : nat) (c : ascii) : bool :=
  ((lo <=? nat_of_ascii c)%nat && (nat_of_ascii c <=? hi)%nat)%bool.

End Str.

(* ================================================================== *)
(** * The fragment of Go's [regexp] used by package [util]

    Both patterns of the package are anchored ([^ ... $], no [m] flag, so
    [$] is the end of the text) and are built from literal runes,
    character classes, counted repetitions [{n}] and one capturing
    group.  There is neither alternation nor an unbounded repetition, so
    matching follows a single path.

    [regexp] reads its input rune by rune (UTF-8); a set of runes is
    given here by the byte encodings of its members.  Encodings of
    distinct runes are never prefixes of one another, so at most one
    member of a set matches at a position. *)

Module Regexp.

Inductive re : Type :=
| Runes (encs : list string)      (* one rune out of a set            *)
| Rep   (n : nat) (r : re)        (* r{n}                              *)
| Cat   (r1 r2 : re)              (* r1 r2                             *)
| Group (r : re).                 (* ( r )                             *)

(** The result of running a pattern at the start of a text: the bytes
    consumed, the rest of the text, and the texts of the groups closed
    on the way (leftmost first). *)
Definition outcome : Type := (string * string * list string)%type.

Definition run_runes (encs : list string) (s : string) : option outcome :=
  match find (fun e => Str.starts_with e s) encs with
  | Some e => Some (e, Str.skip (String.length e) s, [])
  | None => None
  end.

Fixpoint run (r : re) (s : string) : option outcome :=
  match r with
  | Runes encs => run_runes encs s
  | Rep n r' =>
      (fix rep (k : nat) (s : string) : option outcome :=
         match k with
         | O => Some ("", s, [])
         | S k' =>
             match run r' s with
             | Some (c1, rest1, _) =>
                 match rep k' rest1 with
                 | Some (c2, rest2, _) => Some (c1 ++ c2, rest2, [])
                 | None => None
                 end
             | None => None
             end
         end) n s
  | Cat r1 r2 =>
      match run r1 s with
      | Some (c1, rest1, g1) =>
          match run r2 rest1 with
          | Some (c2, rest2, g2) => Some (c1 ++ c2, rest2, (g1 ++ g2)%list)
          | None => None
          end
      | None => None
      end
  | Group r' =>
      match run r' s with
      | Some (c, rest, g) => Some (c, rest, c :: g)
      | None => None
      end
  end.

(** [regexp.MustCompile("^" + r + "$").FindStringSubmatch(s)]:
    the whole match followed by the groups, or [nil]. *)
Definition FindStringSubmatch (r : re) (s : string) : list string :=
  match run r s with
  | Some (c, EmptyString, g) => c :: g
  | _ => []
  end.

(** [regexp.MustCompile("^" + r + "$").MatchString(s)]. *)
Definition MatchString (r : re) (s : string) : bool :=
  match run r s with
  | Some (_, EmptyString, _) => true
  | _ => false
  end.

(** Concatenation of a list of patterns. *)
Fixpoint seq (rs : list re) : re :=
  match rs with
  | [] => Rep 0 (Runes [])
  | [r] => r
  | r :: rs' => Cat r (seq rs')
  end.

(** ** Case folding, flag [(?i)]

    Under [(?i)] a literal rune stands for its orbit under Unicode
    simple case folding.  For an ASCII letter the orbit is the letter
    in both cases, and two letters have a third member: [s] has
    U+017F (bytes C5 BF) and [k] has U+212A (bytes E2 84 AA). *)

Definition long_s : string :=
  String (ascii_of_nat 197) (String (ascii_of_nat 191) EmptyString).
Definition kelvin : string :=
  String (ascii_of_nat 226)
    (String (ascii_of_nat 132) (String (ascii_of_nat 170) EmptyString)).

Definition is_lower (c : ascii) : bool := Str.between 97 122 c.
Definition is_upper (c : ascii) : bool := Str.between 65 90 c.
Definition to_lower (c : ascii) : ascii :=
  if is_upper c then ascii_of_nat (nat_of_ascii c + 32) else c.
Definition to_upper (c : ascii) : ascii :=
  if is_lower c then ascii_of_nat (nat_of_ascii c - 32) else c.

Definition fold_orbit (c : ascii) : list string :=
  if is_lower c || is_upper c then
    ([Str.byte (to_lower c); Str.byte (to_upper c)]
       ++ (if Ascii.eqb (to_lower c) "s" then [long_s] else [])
       ++ (if Ascii.eqb (to_lower c) "k" then [kelvin] else []))%list
  else [Str.byte c].

(** A literal text under [(?i)]. *)
Definition lit_i (s : string) : re :=
  seq (map (fun c => Runes (fold_orbit c)) (Str.bytes_of s)).

(** The class [[a-f\d]] under [(?i)]: [\d] is [0-9], and folding adds
    [A-F] to [a-f]. *)
Definition hex_i : re :=
  Runes (map Str.byte (Str.bytes_of "0123456789abcdefABCDEF")).

End Regexp.

(* ================================================================== *)
(** * Package [util]: the identifier codec *)

Module Util.
Import Regexp.

(** [ProviderIDPrefix]. *)
Definition ProviderIDPrefix : string := "vsphere://".

(** [[a-f\d]{8}-[a-f\d]{4}-[a-f\d]{4}-[a-f\d]{4}-[a-f\d]{12}] under
    [(?i)]. *)
Definition uuid_re : re :=
  seq [Rep 8 hex_i; lit_i "-"; Rep 4 hex_i; lit_i "-"; Rep 4 hex_i;
       lit_i "-"; Rep 4 hex_i; lit_i "-"; Rep 12 hex_i].

(** [ProviderIDPattern], between its anchors. *)
Definition ProviderIDPattern : re :=
  Cat (lit_i ProviderIDPrefix) (Group uuid_re).

(** [UUIDPattern], between its anchors. *)
Definition UUIDPattern : re := uuid_re.

(** [ConvertProviderIDToUUID]. *)
Definition ConvertProviderIDToUUID (providerID : option string) : string :=
  match providerID with
  | None => ""
  | Some p =>
      if String.eqb p "" then ""
      else
        let matches := FindStringSubmatch ProviderIDPattern p in
        if (List.length matches <? 2)%nat then ""
        else nth 1 matches ""
  end.

(** [ConvertUUIDToProviderID]. *)
Definition ConvertUUIDToProviderID (uuid : string) : string :=
  if String.eqb uuid "" then ""
  else if negb (MatchString UUIDPattern uuid) then ""
  else ProviderIDPrefix ++ uuid.

End Util.

(* ================================================================== *)
(** * The shape of identifiers, stated without patterns *)

Module Shape.

Definition is_hex (c : ascii) : bool :=
  Str.between 48 57 c || Str.between 97 102 c || Str.between 65 70 c.

Definition hyphen_at (i : nat) : bool :=
  ((i =? 8) || (i =? 13) || (i =? 18) || (i =? 23))%nat.

(** The text [s], read from position [i] of an identifier, completes a
    UUID: 36 bytes, hyphens at 8, 13, 18 and 23, hexadecimal digits of
    either case elsewhere. *)
Fixpoint uuid_from (i : nat) (s : string) : bool :=
  match s with
  | EmptyString => (i =? 36)%nat
  | String c s' =>
      (if hyphen_at i then Ascii.eqb c "-" else is_hex c)
      && uuid_from (S i) s'
  end.

Definition is_uuid (s : string) : bool := uuid_from 0 s.

(** [s] starts with a rune that equals [c] up to case; what follows. *)
Definition strip_rune_i (c : ascii) (s : string) : option string :=
  match find (fun e => Str.starts_with e s) (Regexp.fold_orbit c) with
  | Some e => Some (Str.skip (String.length e) s)
  | None => None
  end.

(** [s] starts with [p] up to case; what follows. *)
Fixpoint strip_prefix_i (p : string) (s : string) : option string :=
  match p with
  | EmptyString => Some s
  | String c p' =>
      match strip_rune_i c s with
      | Some s' => strip_prefix_i p' s'
      | None => None
      end
  end.

(** The scheme prefix, in any case, followed by a UUID. *)
Definition is_provider_id (s : string) : bool :=
  match strip_prefix_i Util.ProviderIDPrefix s with
  | Some u => is_uuid u
  | None => false
  end.

End Shape.

(* ================================================================== *)
(** * Errors

    The error values the modelled code builds, and the errors handed to
    it by the resource store and the provider. *)

Inductive error : Type :=
| ErrNoMachineIPAddr                              (* util.ErrNoMachineIPAddr *)
| ErrParsingCIDR                                  (* "error parsing preferred API server CIDR" *)
| ErrUnknownTaskState (state : string)            (* "unknown task state %q for %q" *)
| ErrInvalidNetworkCount (exp act : nat)          (* "invalid network count for %q: exp=%d act=%d" *)
| ErrInvalidBiosUUID (uuid : string)              (* "invalid BIOS UUID %s for %s" *)
| ErrNotObjectMetaAccessor                        (* "unable to assert object %T as metav1.ObjectMetaAccessor" *)
| ErrNotFound                                     (* an error for which apierrors.IsNotFound holds *)
| ErrExternal (msg : string)                      (* any other error of the store or the provider *)
| Wrapf (e : error) (msg : string).               (* errors.Wrap / errors.Wrapf *)

(** [apierrors.IsNotFound]. *)
Definition IsNotFound (e : error) : bool :=
  match e with ErrNotFound => true | _ => false end.

(* ================================================================== *)
(** * API types

    The declarations of [corev1], [metav1], [clusterv1] and
    [api/v1alpha2] are not among the sources.  The records below carry
    the fields the code reads or writes, under the names the code uses
    (prefixed with the name of the type where two types share a field
    name). *)

Module Corev1.
Definition NodeAddressType : Type := string.
Definition NodeInternalIP : NodeAddressType := "InternalIP".
Definition NodeExternalIP : NodeAddressType := "ExternalIP".
Record NodeAddress : Type :=
  { Type_ : NodeAddressType; Address : string }.
End Corev1.

Module Metav1.
(** [*metav1.Time]; an instant is a number, 0 the zero instant. *)
Definition Time : Type := option nat.
Definition IsZero (t : Time) : bool :=
  match t with
  | None => true
  | Some n => (n =? 0)%nat
  end.
Record GroupVersionKind : Type :=
  { Group : string; Version : string; Kind : string }.
End Metav1.

Module Clusterv1.
Record Cluster : Type :=
  { Cluster_Name : string;
    InfrastructureRef_Name : string;       (* Spec.InfrastructureRef.Name *)
    InfrastructureReady : bool }.          (* Status.InfrastructureReady  *)
Record Machine : Type :=
  { Machine_Name : string;
    UID : string;
    Bootstrap_Data : option string }.      (* Spec.Bootstrap.Data *)
End Clusterv1.

Module Infrav1.
Import Corev1 Metav1.

Definition VirtualMachineState : Type := string.

(** Modelled from the spec: the lifecycle states of a Provider Instance
    View (not-found / pending / ready), constants of [api/v1alpha2]
    whose declarations are missing. *)
Definition VirtualMachineStateNotFound : VirtualMachineState := "notfound".
Definition VirtualMachineStatePending : VirtualMachineState := "pending".
Definition VirtualMachineStateReady : VirtualMachineState := "ready".

(** Modelled from the spec: the lifecycle finalizer, a constant of
    [api/v1alpha2] whose declaration is missing. *)
Definition MachineFinalizer : string :=
  "vspheremachine.infrastructure.cluster.x-k8s.io".

Record NetworkDeviceSpec : Type :=
  { NetworkName : string;
    MACAddr : string;
    Nameservers : list string;
    SearchDomains : list string }.

Record NetworkSpec : Type :=
  { Devices : list NetworkDeviceSpec;
    PreferredAPIServerCIDR : string }.

Record NetworkStatus : Type :=
  { NetworkStatus_MACAddr : string;
    IPAddrs : list string }.

(** The Provider Instance View. *)
Record VirtualMachine : Type :=
  { State : VirtualMachineState;
    BiosUUID : string;
    VM_Network : list NetworkStatus }.

Record VSphereMachineSpec : Type :=
  { ProviderID : option string;
    Datacenter : string;
    Spec_Network : NetworkSpec }.

Record VSphereMachineStatus : Type :=
  { Ready : bool;
    Addresses : list NodeAddress;
    TaskRef : string;
    Status_Network : list NetworkStatus;
    ErrorReason : option string;
    ErrorMessage : option string }.

Record VSphereMachine : Type :=
  { TypeMeta : GroupVersionKind;
    Namespace : string;
    Name : string;
    ResourceVersion : string;
    DeletionTimestamp : Time;
    Finalizers : list string;
    Annotations : list (string * string);
    Spec : VSphereMachineSpec;
    Status : VSphereMachineStatus }.

Record VSphereCluster : Type :=
  { Server : string }.                      (* Spec.Server *)

(** ** Assignments to fields *)

Definition with_Spec (sp : VSphereMachineSpec) (m : VSphereMachine) :=
  {| TypeMeta := TypeMeta m; Namespace := Namespace m; Name := Name m;
     ResourceVersion := ResourceVersion m;
     DeletionTimestamp := DeletionTimestamp m;
     Finalizers := Finalizers m; Annotations := Annotations m;
     Spec := sp; Status := Status m |}.

Definition with_Status (st : VSphereMachineStatus) (m : VSphereMachine) :=
  {| TypeMeta := TypeMeta m; Namespace := Namespace m; Name := Name m;
     ResourceVersion := ResourceVersion m;
     DeletionTimestamp := DeletionTimestamp m;
     Finalizers := Finalizers m; Annotations := Annotations m;
     Spec := Spec m; Status := st |}.

Definition with_Finalizers (fs : list string) (m : VSphereMachine) :=
  {| TypeMeta := TypeMeta m; Namespace := Namespace m; Name := Name m;
     ResourceVersion := ResourceVersion m;
     DeletionTimestamp := DeletionTimestamp m;
     Finalizers := fs; Annotations := Annotations m;
     Spec := Spec m; Status := Status m |}.

Definition with_ProviderID (p : option string) (m : VSphereMachine) :=
  with_Spec {| ProviderID := p; Datacenter := Datacenter (Spec m);
               Spec_Network := Spec_Network (Spec m) |} m.

Definition with_Ready (b : bool) (m : VSphereMachine) :=
  let st := Status m in
  with_Status {| Ready := b; Addresses := Addresses st;
                 TaskRef := TaskRef st;
                 Status_Network := Status_Network st;
                 ErrorReason := ErrorReason st;
                 ErrorMessage := ErrorMessage st |} m.

Definition with_Addresses (a : list NodeAddress) (m : VSphereMachine) :=
  let st := Status m in
  with_Status {| Ready := Ready st; Addresses := a;
                 TaskRef := TaskRef st;
                 Status_Network := Status_Network st;
                 ErrorReason := ErrorReason st;
                 ErrorMessage := ErrorMessage st |} m.

Definition with_TaskRef (t : string) (m : VSphereMachine) :=
  let st := Status m in
  with_Status {| Ready := Ready st; Addresses := Addresses st;
                 TaskRef := t;
                 Status_Network := Status_Network st;
                 ErrorReason := ErrorReason st;
                 ErrorMessage := ErrorMessage st |} m.

Definition with_Status_Network (n : list NetworkStatus) (m : VSphereMachine) :=
  let st := Status m in
  with_Status {| Ready := Ready st; Addresses := Addresses st;
                 TaskRef := TaskRef st;
                 Status_Network := n;
                 ErrorReason := ErrorReason st;
                 ErrorMessage := ErrorMessage st |} m.

End Infrav1.

(* ================================================================== *)
(** * Package [util]: the preferred IP address *)

Module UtilNet.
Import Corev1 Infrav1.

Section Net.
(** Go's [net] package, as far as the function uses it. *)
Variables IPNet IP : Type.
(** The network of [net.ParseCIDR], [None] when it reports an error. *)
Variable ParseCIDR : string -> option IPNet.
(** [net.ParseIP]; a text that is no address gives the nil [IP]. *)
Variable ParseIP : string -> IP.
(** The method [Contains] of a network. *)
Variable Contains : IPNet -> IP -> bool.

(** The [for ... range machine.Status.Addresses] loop and the
    [return] that follows it. *)
Fixpoint preferred_among (cidr : option IPNet) (addrs : list NodeAddress)
  : string * option error :=
  match addrs with
  | [] => ("", Some ErrNoMachineIPAddr)
  | nodeAddr :: rest =>
      if negb (String.eqb (Type_ nodeAddr) NodeInternalIP) then
        preferred_among cidr rest
      else
        match cidr with
        | None => (Address nodeAddr, None)
        | Some c =>
            if Contains c (ParseIP (Address nodeAddr)) then
              (Address nodeAddr, None)
            else preferred_among cidr rest
        end
  end.

(** [GetMachinePreferredIPAddress]. *)
Definition GetMachinePreferredIPAddress (machine : VSphereMachine)
  : string * option error :=
  let cidrString := PreferredAPIServerCIDR (Spec_Network (Spec machine)) in
  if negb (String.eqb cidrString "") then
    match ParseCIDR cidrString with
    | None => ("", Some ErrParsingCIDR)
    | Some c => preferred_among (Some c) (Addresses (Status machine))
    end
  else preferred_among None (Addresses (Status machine)).

(** What the function is meant to select: an internal address, inside
    the preferred network when there is one. *)
Definition qualifies (cidr : option IPNet) (a : NodeAddress) : bool :=
  String.eqb (Type_ a) NodeInternalIP
  && match cidr with
     | None => true
     | Some c => Contains c (ParseIP (Address a))
     end.

End Net.

Arguments preferred_among {IPNet IP} ParseIP Contains cidr addrs.
Arguments GetMachinePreferredIPAddress {IPNet IP} ParseCIDR ParseIP Contains machine.
Arguments qualifies {IPNet IP} ParseIP Contains cidr a.
End UtilNet.

(* ================================================================== *)
(** * Results of calls that return a value and an error *)

Inductive result (A : Type) : Type :=
| Ok (a : A)
| Err (e : error).
Arguments Ok {A} a.
Arguments Err {A} e.

(* ================================================================== *)
(** * Provider types (govmomi [vim25]) *)

Module Vim25.
Definition TaskInfoState : Type := string.
Definition TaskInfoStateQueued : TaskInfoState := "queued".
Definition TaskInfoStateRunning : TaskInfoState := "running".
Definition TaskInfoStateSuccess : TaskInfoState := "success".
Definition TaskInfoStateError : TaskInfoState := "error".

Record ManagedObjectReference : Type :=
  { Type_ : string; Value : string }.

(** [mo.Task], with the fields of [Info] the code reads. *)
Record Task : Type :=
  { Self : ManagedObjectReference;
    Info_State : TaskInfoState;
    Info_DescriptionId : string }.

Definition morefTypeTask : string := "Task".
End Vim25.

(* ================================================================== *)
(** * Package [context]

    The package is not among the sources; a [MachineContext] is the
    aggregate the controller builds, with the fields it fills in.  The
    session and the patch helper are given by what their calls answer. *)

Module Context.
Import Infrav1 Clusterv1 Vim25.

Record Session : Type :=
  { (** [Session.RetrieveOne(ctx, moRef, []string{"info"}, &obj)]. *)
    RetrieveOne : ManagedObjectReference -> result Task }.

(** Modelled from the spec: the patch helper is bound to the resource
    as retrieved; [Patch] sends the resource's Status (and finalizers)
    to the Resource Store with the retrieved version as precondition,
    and answers with the store's error, if any. *)
Record PatchHelper : Type :=
  { Helper_Patch : VSphereMachine -> option error }.

Record MachineContext : Type :=
  { Cluster : Clusterv1.Cluster;
    VSphereCluster : Infrav1.VSphereCluster;
    Machine : Clusterv1.Machine;
    VSphereMachine : Infrav1.VSphereMachine;
    Session_ : Session;
    PatchHelper_ : PatchHelper }.

(** [*ctx.VSphereMachine = m]. *)
Definition with_VSphereMachine (m : Infrav1.VSphereMachine)
           (ctx : MachineContext) : MachineContext :=
  {| Cluster := Cluster ctx; VSphereCluster := VSphereCluster ctx;
     Machine := Machine ctx; VSphereMachine := m;
     Session_ := Session_ ctx; PatchHelper_ := PatchHelper_ ctx |}.

(** An assignment to a field of [ctx.VSphereMachine]. *)
Definition assign (f : Infrav1.VSphereMachine -> Infrav1.VSphereMachine)
           (ctx : MachineContext) : MachineContext :=
  with_VSphereMachine (f (VSphereMachine ctx)) ctx.

(** [machineContext.Patch()]. *)
Definition Patch (ctx : MachineContext) : option error :=
  Helper_Patch (PatchHelper_ ctx) (VSphereMachine ctx).

End Context.

(* ================================================================== *)
(** * Package [govmomi]: the task tracker *)

Module Govmomi.
Import Infrav1 Vim25 Context.

(** [getTask]. *)
Definition getTask (ctx : MachineContext) : option Task :=
  if String.eqb (TaskRef (Status (VSphereMachine ctx))) "" then None
  else
    let moRef := {| Type_ := morefTypeTask;
                    Value := TaskRef (Status (VSphereMachine ctx)) |} in
    match RetrieveOne (Session_ ctx) moRef with
    | Err _ => None
    | Ok obj => Some obj
    end.

(** The task reference held by Status. *)
Definition task_ref (ctx : MachineContext) : string :=
  TaskRef (Status (VSphereMachine ctx)).

(** The object reference [getTask] hands to the provider. *)
Definition task_moRef (ctx : MachineContext) : ManagedObjectReference :=
  {| Type_ := morefTypeTask; Value := task_ref ctx |}.

(** [reconcileInFlightTask]: the context as the call leaves it, and
    the two results. *)
Definition reconcileInFlightTask (ctx : MachineContext)
  : MachineContext * (bool * option error) :=
  match getTask ctx with
  | None => (assign (with_TaskRef "") ctx, (false, None))
  | Some task =>
      if String.eqb (Info_State task) TaskInfoStateQueued then
        (ctx, (true, None))
      else if String.eqb (Info_State task) TaskInfoStateRunning then
        (ctx, (true, None))
      else if String.eqb (Info_State task) TaskInfoStateSuccess then
        (assign (with_TaskRef "") ctx, (false, None))
      else if String.eqb (Info_State task) TaskInfoStateError then
        (assign (with_TaskRef "") ctx, (false, None))
      else
        (ctx, (false, Some (ErrUnknownTaskState (Info_State task))))
  end.

(** ** The completion notifier

    What a background unit does is recorded as the list of its
    effects, in order. *)

Inductive runtime_Object : Type :=
| MachineObject (m : Infrav1.VSphereMachine)   (* has object metadata *)
| BareObject (kind : Metav1.GroupVersionKind). (* has none            *)

(** [obj.GetObjectKind().GroupVersionKind()]. *)
Definition GroupVersionKind (obj : runtime_Object) : Metav1.GroupVersionKind :=
  match obj with
  | MachineObject m => TypeMeta m
  | BareObject k => k
  end.

(** [metav1.ObjectMeta], by namespace and name. *)
Definition ObjectMeta : Type := (string * string)%type.

(** [obj.(metav1.ObjectMetaAccessor)] and [GetObjectMeta()]. *)
Definition ObjectMetaAccessor (obj : runtime_Object) : option ObjectMeta :=
  match obj with
  | MachineObject m => Some (Namespace m, Name m)
  | BareObject _ => None
  end.

Record GenericEvent : Type :=
  { Meta : ObjectMeta; Object : runtime_Object }.

Inductive effect : Type :=
| LogError (e : error) (msg : string)
| LogInfo (msg : string) (keysAndValues : list string)
(** a send into [ctx.GetGenericEventChannelFor(kind)] *)
| Send (kind : Metav1.GroupVersionKind) (ev : GenericEvent).

(** What a call of [waitFn] returns. *)
Definition waited : Type := (list string * option error)%type.

(** The body of the [go func() { ... }()] statement, given what
    [waitFn()] returned. *)
Definition background (obj : runtime_Object) (meta : ObjectMeta)
           (w : waited) : list effect :=
  let '(loggerKeysAndValues, err) := w in
  match err with
  | Some e => [LogError e "failed to wait on func"]
  | None =>
      [LogInfo "triggering GenericEvent" loggerKeysAndValues;
       Send (GroupVersionKind obj) {| Meta := meta; Object := obj |}]
  end.

(** [reconcileObjectOnFuncCompletion]: the error returned, and the
    background unit started, if any. *)
Definition reconcileObjectOnFuncCompletion
           (ctx : MachineContext) (obj : runtime_Object)
  : option error * option (waited -> list effect) :=
  match ObjectMetaAccessor obj with
  | None => (Some ErrNotObjectMetaAccessor, None)
  | Some meta => (None, Some (background obj meta))
  end.

Definition is_send (e : effect) : bool :=
  match e with Send _ _ => true | _ => false end.

End Govmomi.

(* ================================================================== *)
(** * Package [services]: the virtual machine service

    [services.VirtualMachineService] is an interface; the implementation
    the controller selects ([govmomi.VMService]) is not among the
    sources.  A method receives the context by reference: it answers
    with the context as it leaves it, the instance view and the error. *)

Module Services.
Import Infrav1 Context.

Record VirtualMachineService : Type :=
  { ReconcileVM : MachineContext -> MachineContext * (VirtualMachine * option error);
    DestroyVM : MachineContext -> MachineContext * (VirtualMachine * option error) }.
End Services.

(* ================================================================== *)
(** * [cluster-api/util] *)

Module Clusterutilv1.
(** [Contains]. *)
Fixpoint Contains (list : Datatypes.list string) (strToSearch : string) : bool :=
  match list with
  | [] => false
  | item :: rest =>
      if String.eqb item strToSearch then true
      else Contains rest strToSearch
  end.

(** [Filter]: the strings of [list] other than [strToFilter]. *)
Fixpoint Filter (list : Datatypes.list string) (strToFilter : string)
  : Datatypes.list string :=
  match list with
  | [] => []
  | item :: rest =>
      if negb (String.eqb item strToFilter) then
        item :: Filter rest strToFilter
      else Filter rest strToFilter
  end.
End Clusterutilv1.

(* ================================================================== *)
(** * Package [controllers]: the machine reconciler

    Log records and the debug dumps ([sdump], [sdiff]) are not part of
    the model. *)

Module Controllers.
Import Corev1 Metav1 Clusterv1 Infrav1 Context Services.

(** [reconcile.Result]. *)
Record reconcile_Result : Type :=
  { Requeue : bool; RequeueAfter : nat }.
(** [reconcile.Result{}]. *)
Definition no_requeue : reconcile_Result :=
  {| Requeue := false; RequeueAfter := 0 |}.

Definition NamespacedName : Type := (string * string)%type.

(** The reconciler [r] and what its collaborators answer in the course
    of one request. *)
Record machineReconciler : Type :=
  { (** [r.Client.Get(r, key, &VSphereMachine{})]: the answer to the
        [n]-th such call of the request, counted from 0. *)
    Client_Get : NamespacedName -> nat -> result Infrav1.VSphereMachine;
    (** [clusterutilv1.GetOwnerMachine]. *)
    GetOwnerMachine : Infrav1.VSphereMachine -> result (option Clusterv1.Machine);
    (** [clusterutilv1.GetClusterFromMetadata]. *)
    GetClusterFromMetadata : Clusterv1.Machine -> result Clusterv1.Cluster;
    (** [r.Client.Get(r, key, &VSphereCluster{})]. *)
    Client_Get_VSphereCluster : NamespacedName -> result Infrav1.VSphereCluster;
    (** [session.GetOrCreate], by server and datacenter. *)
    GetOrCreate : string -> string -> result Session;
    (** [patch.NewHelper]. *)
    NewHelper : Infrav1.VSphereMachine -> result PatchHelper;
    (** The service both paths construct. *)
    vmService : VirtualMachineService }.

(** The append of a finalizer. *)
Definition add_finalizer (f : string) (m : Infrav1.VSphereMachine)
  : Infrav1.VSphereMachine :=
  with_Finalizers (Finalizers m ++ [f])%list m.

(** [reconcileDelete]. *)
Definition reconcileDelete (r : machineReconciler) (ctx : MachineContext)
  : MachineContext * (reconcile_Result * option error) :=
  let '(ctx, (vm, err)) := DestroyVM (vmService r) ctx in
  match err with
  | Some e => (ctx, (no_requeue, Some (Wrapf e "failed to destroy VM")))
  | None =>
      if negb (String.eqb (State vm) VirtualMachineStateNotFound) then
        (ctx, (no_requeue, None))
      else
        (assign (fun m =>
                   with_Finalizers
                     (Clusterutilv1.Filter (Finalizers m) MachineFinalizer) m)
                ctx,
         (no_requeue, None))
  end.

(** The two nested loops of [reconcileNetwork] that collect the
    addresses. *)
Definition collect_ipAddrs (network : list NetworkStatus) : list NodeAddress :=
  fold_left
    (fun ipAddrs netStatus =>
       fold_left
         (fun ipAddrs ip =>
            (ipAddrs ++ [{| Corev1.Type_ := NodeInternalIP; Address := ip |}])%list)
         (IPAddrs netStatus) ipAddrs)
    network [].

(** [reconcileNetwork]. *)
Definition reconcileNetwork (r : machineReconciler) (ctx : MachineContext)
           (vm : VirtualMachine)
  : MachineContext * (bool * option error) :=
  let expNetCount := List.length (Devices (Spec_Network (Spec (VSphereMachine ctx)))) in
  let actNetCount := List.length (VM_Network vm) in
  if negb (expNetCount =? actNetCount)%nat then
    (ctx, (false, Some (ErrInvalidNetworkCount expNetCount actNetCount)))
  else
    let ctx := assign (with_Status_Network (VM_Network vm)) ctx in
    let ipAddrs := collect_ipAddrs (Status_Network (Status (VSphereMachine ctx))) in
    if (List.length ipAddrs =? 0)%nat then (ctx, (false, None))
    else (assign (with_Addresses ipAddrs) ctx, (true, None)).

(** [reconcileProviderID]. *)
Definition reconcileProviderID (r : machineReconciler) (ctx : MachineContext)
           (vm : VirtualMachine)
  : MachineContext * option error :=
  let providerID := Util.ConvertUUIDToProviderID (BiosUUID vm) in
  if String.eqb providerID "" then
    (ctx, Some (ErrInvalidBiosUUID (BiosUUID vm)))
  else
    match ProviderID (Spec (VSphereMachine ctx)) with
    | None => (assign (with_ProviderID (Some providerID)) ctx, None)
    | Some p =>
        if negb (String.eqb p providerID) then
          (assign (with_ProviderID (Some providerID)) ctx, None)
        else (ctx, None)
    end.

(** The statement of [reconcileNormal] that adds the finalizer when the
    resource does not have it. *)
Definition ensure_finalizer (ctx : MachineContext) : MachineContext :=
  if negb (Clusterutilv1.Contains (Finalizers (VSphereMachine ctx))
                                   MachineFinalizer)
  then assign (add_finalizer MachineFinalizer) ctx
  else ctx.

(** [reconcileNormal]. *)
Definition reconcileNormal (r : machineReconciler) (ctx : MachineContext)
  : MachineContext * (reconcile_Result * option error) :=
  match ErrorReason (Status (VSphereMachine ctx)),
        ErrorMessage (Status (VSphereMachine ctx)) with
  | Some _, _ | _, Some _ => (ctx, (no_requeue, None))
  | None, None =>
      let ctx := ensure_finalizer ctx in
      if negb (InfrastructureReady (Cluster ctx)) then
        (ctx, (no_requeue, None))
      else
        match Bootstrap_Data (Machine ctx) with
        | None => (ctx, (no_requeue, None))
        | Some _ =>
            let '(ctx, (vm, err)) := ReconcileVM (vmService r) ctx in
            match err with
            | Some e =>
                (ctx, (no_requeue, Some (Wrapf e "failed to reconcile VM")))
            | None =>
                if negb (String.eqb (State vm) VirtualMachineStateReady) then
                  (ctx, (no_requeue, None))
                else
                  let '(ctx, (ok, err)) := reconcileNetwork r ctx vm in
                  if negb ok then
                    match err with
                    | Some e => (ctx, (no_requeue, Some e))
                    | None => (ctx, (no_requeue, None))
                    end
                  else
                    let '(ctx, err) := reconcileProviderID r ctx vm in
                    match err with
                    | Some e => (ctx, (no_requeue, Some e))
                    | None =>
                        (assign (with_Ready true) ctx, (no_requeue, None))
                    end
            end
        end
  end.

(** ** The entry point *)

(** [Reconcile], from its first statement to the construction of
    [machineContext]: either the function returns, or the context is
    built. *)
Definition prepare (r : machineReconciler) (req : NamespacedName)
  : (reconcile_Result * option error) + MachineContext :=
  match Client_Get r req 0 with
  | Err err =>
      if IsNotFound err then inl (no_requeue, None)
      else inl (no_requeue, Some err)
  | Ok vsphereMachine =>
      match GetOwnerMachine r vsphereMachine with
      | Err err => inl (no_requeue, Some err)
      | Ok None => inl (no_requeue, None)
      | Ok (Some machine) =>
          match GetClusterFromMetadata r machine with
          | Err _ => inl (no_requeue, None)
          | Ok cluster =>
              let vsphereClusterName :=
                (Namespace vsphereMachine, InfrastructureRef_Name cluster) in
              match Client_Get_VSphereCluster r vsphereClusterName with
              | Err _ => inl (no_requeue, None)
              | Ok vsphereCluster =>
                  match GetOrCreate r (Server vsphereCluster)
                                    (Datacenter (Spec vsphereMachine)) with
                  | Err err =>
                      inl (no_requeue,
                           Some (Wrapf err "failed to create vSphere session"))
                  | Ok authSession =>
                      match NewHelper r vsphereMachine with
                      | Err err =>
                          inl (no_requeue,
                               Some (Wrapf err "failed to init patch helper for %s %s/%s"))
                      | Ok patchHelper =>
                          inr {| Cluster := cluster;
                                 VSphereCluster := vsphereCluster;
                                 Machine := machine;
                                 VSphereMachine := vsphereMachine;
                                 Session_ := authSession;
                                 PatchHelper_ := patchHelper |}
                      end
                  end
              end
          end
      end
  end.

(** The last two statements of [Reconcile]. *)
Definition dispatch (r : machineReconciler) (ctx : MachineContext)
  : MachineContext * (reconcile_Result * option error) :=
  if negb (IsZero (DeletionTimestamp (VSphereMachine ctx))) then
    reconcileDelete r ctx
  else reconcileNormal r ctx.

(** The [for] loop of the deferred function: [n] calls of
    [r.Client.Get] have been made so far in the request; the result is
    the number made when the loop is left, [None] when [fuel] turns of
    the loop do not leave it. *)
Fixpoint poll (fuel : nat) (get : nat -> result Infrav1.VSphereMachine)
         (n : nat) (localResourceVersion : string) : option nat :=
  match fuel with
  | O => None
  | S fuel' =>
      match get n with
      | Err err =>
          if IsNotFound err then Some (S n)
          else poll fuel' get (S n) localResourceVersion
      | Ok remoteObj =>
          if negb (String.eqb localResourceVersion (ResourceVersion remoteObj))
          then Some (S n)
          else poll fuel' get (S n) localResourceVersion
      end
  end.

(** The answer [ans] of the store ends the loop: the resource is gone,
    or its version is no longer the local one. *)
Definition leaves_loop (localResourceVersion : string)
           (ans : result Infrav1.VSphereMachine) : bool :=
  match ans with
  | Err err => IsNotFound err
  | Ok remoteObj =>
      negb (String.eqb localResourceVersion (ResourceVersion remoteObj))
  end.

(** What a return of [Reconcile] leaves behind: the results, the
    objects handed to [machineContext.Patch()], and the number of
    reads of the store. *)
Record exit : Type :=
  { result_ : reconcile_Result;
    reterr : option error;
    patched : list Infrav1.VSphereMachine;
    reads : nat }.

(** The deferred function that patches: [reterr] on entry is the error
    of the body. *)
Definition deferred_patch (fuel : nat) (r : machineReconciler)
           (req : NamespacedName) (machineContext : MachineContext)
           (res : reconcile_Result) (reterr : option error) : option exit :=
  let reterr :=
    match Patch machineContext with
    | Some err => match reterr with None => Some err | Some _ => reterr end
    | None => reterr
    end in
  let localObj := VSphereMachine machineContext in
  match poll fuel (Client_Get r req) 1 (ResourceVersion localObj) with
  | None => None
  | Some n =>
      Some {| result_ := res; reterr := reterr;
              patched := [VSphereMachine machineContext]; reads := n |}
  end.

(** [Reconcile]; [None] when the deferred loop is not left within
    [fuel] turns. *)
Definition Reconcile (fuel : nat) (r : machineReconciler)
           (req : NamespacedName) : option exit :=
  match prepare r req with
  | inl (res, err) =>
      Some {| result_ := res; reterr := err; patched := [];
              reads := 1 |}
  | inr machineContext =>
      let '(machineContext, (res, reterr)) := dispatch r machineContext in
      deferred_patch fuel r req machineContext res reterr
  end.

End Controllers.

(* ================================================================== *)
(** * Properties of the identifier codec *)

Module Codec.
Import Regexp Util Shape.

(** The leading [n] hexadecimal digits of [s], and what follows. *)
Fixpoint take_hex (n : nat) (s : string) : option (string * string) :=
  match n with
  | O => Some ("", s)
  | S n' =>
      match s with
      | EmptyString => None
      | String c s' =>
          if is_hex c then
            match take_hex n' s' with
            | Some (a, rest) => Some (String c a, rest)
            | None => None
            end
          else None
      end
  end.

(** A leading hyphen of [s] removed. *)
Definition take_hyphen (s : string) : option string :=
  match s with
  | String c s' => if Ascii.eqb c "-" then Some s' else None
  | EmptyString => None
  end.

Notation "' p <- a ; b" :=
  (match a with Some p => b | None => None end)
    (at level 60, p pattern, a at next level, right associativity).

(** The leading UUID of [s], and what follows: five runs of 8, 4, 4,
    4 and 12 hexadecimal digits, a hyphen between two runs. *)
Definition scan_uuid (s : string) : option (string * string) :=
  ' (a1, s) <- take_hex 8 s ;
  ' s <- take_hyphen s ;
  ' (a2, s) <- take_hex 4 s ;
  ' s <- take_hyphen s ;
  ' (a3, s) <- take_hex 4 s ;
  ' s <- take_hyphen s ;
  ' (a4, s) <- take_hex 4 s ;
  ' s <- take_hyphen s ;
  ' (a5, s) <- take_hex 12 s ;
  Some (a1 ++ ("-" ++ (a2 ++ ("-" ++ (a3 ++ ("-" ++ (a4 ++ ("-" ++ a5))))))),
        s).

End Codec.

(* ================================================================== *)
(** * Concrete inputs *)

(** Dotted-decimal IPv4 addresses and networks, to run
    [GetMachinePreferredIPAddress] on concrete machines. *)
Module IPv4.

Fixpoint split_on (sep : ascii) (s : string) : list string :=
  match s with
  | EmptyString => [EmptyString]
  | String c s' =>
      if Ascii.eqb c sep then EmptyString :: split_on sep s'
      else
        match split_on sep s' with
        | [] => [Str.byte c]
        | w :: ws => String c w :: ws
        end
  end.

Fixpoint decimal_from (acc : N) (s : string) : option N :=
  match s with
  | EmptyString => Some acc
  | String c s' =>
      if Str.between 48 57 c then
        decimal_from (10 * acc + (N_of_ascii c - 48))%N s'
      else None
  end.

Definition decimal (s : string) : option N :=
  match s with
  | EmptyString => None
  | _ => decimal_from 0%N s
  end.

(** An address is a number below 2^32; [None] is the nil address. *)
Definition IP : Type := option N.
(** A network: its address and the length of its prefix. *)
Definition IPNet : Type := (N * N)%type.

Definition ParseIP (s : string) : IP :=
  match map decimal (split_on "." s) with
  | [Some a; Some b; Some c; Some d] =>
      if ((a <=? 255) && (b <=? 255) && (c <=? 255) && (d <=? 255))%N
      then Some (((a * 256 + b) * 256 + c) * 256 + d)%N
      else None
  | _ => None
  end.

Definition ParseCIDR (s : string) : option IPNet :=
  match split_on "/" s with
  | [addr; mask] =>
      match ParseIP addr, decimal mask with
      | Some ip, Some n =>
          if (n <=? 32)%N
          then Some (N.shiftl (N.shiftr ip (32 - n)) (32 - n), n)
          else None
      | _, _ => None
      end
  | _ => None
  end.

Definition Contains (n : IPNet) (ip : IP) : bool :=
  match ip with
  | None => false
  | Some x => (N.shiftr x (32 - snd n) =? N.shiftr (fst n) (32 - snd n))%N
  end.

End IPv4.

Module Sample.
Import Corev1 Metav1 Clusterv1 Infrav1 Vim25 Context Services Govmomi Controllers.

Definition uuid_1 : string := "421a6e0b-7f3c-4d2e-9a51-0c8b3F2D1e77".

Definition kind_VSphereMachine : Metav1.GroupVersionKind :=
  {| Group := "infrastructure.cluster.x-k8s.io";
     Version := "v1alpha2"; Kind := "VSphereMachine" |}.

Definition device (name : string) : NetworkDeviceSpec :=
  {| NetworkName := name; MACAddr := ""; Nameservers := [];
     SearchDomains := [] |}.

Definition internal (a : string) : NodeAddress :=
  {| Corev1.Type_ := NodeInternalIP; Address := a |}.
Definition external (a : string) : NodeAddress :=
  {| Corev1.Type_ := NodeExternalIP; Address := a |}.

(** A machine with one network device, the lifecycle finalizer, no
    provider id, no task and no error. *)
Definition machine_1 : Infrav1.VSphereMachine :=
  {| TypeMeta := kind_VSphereMachine;
     Namespace := "default"; Name := "m1"; ResourceVersion := "41";
     DeletionTimestamp := None;
     Finalizers := [MachineFinalizer];
     Annotations := [];
     Spec := {| ProviderID := None; Datacenter := "dc1";
                Spec_Network :=
                  {| Devices := [device "net0"];
                     PreferredAPIServerCIDR := "" |} |};
     Status := {| Ready := false; Addresses := []; TaskRef := "";
                  Status_Network := []; ErrorReason := None;
                  ErrorMessage := None |} |}.

(** [machine_1] with a second network device. *)
Definition machine_2 : Infrav1.VSphereMachine :=
  with_Spec {| ProviderID := None; Datacenter := "dc1";
               Spec_Network :=
                 {| Devices := [device "net0"; device "net1"];
                    PreferredAPIServerCIDR := "" |} |} machine_1.

(** [machine_1] with a task in flight. *)
Definition machine_3 : Infrav1.VSphereMachine :=
  with_TaskRef "task-17" machine_1.

(** [machine_1] being deleted, with a finalizer of another party. *)
Definition machine_4 : Infrav1.VSphereMachine :=
  {| TypeMeta := kind_VSphereMachine;
     Namespace := "default"; Name := "m1"; ResourceVersion := "41";
     DeletionTimestamp := Some 7;
     Finalizers := ["other.example.com"; MachineFinalizer];
     Annotations := [];
     Spec := Spec machine_1; Status := Status machine_1 |}.

(** A machine with observed addresses and a preferred network. *)
Definition machine_5 (cidr : string) : Infrav1.VSphereMachine :=
  with_Addresses
    [external "203.0.113.9"; internal "192.168.7.4"; internal "10.1.2.3";
     internal "10.9.9.9"]
    (with_Spec {| ProviderID := None; Datacenter := "dc1";
                  Spec_Network :=
                    {| Devices := [device "net0"];
                       PreferredAPIServerCIDR := cidr |} |} machine_1).

(** A session that reports every task in the state [st]. *)
Definition session_in (st : TaskInfoState) : Session :=
  {| RetrieveOne := fun moRef =>
       Ok {| Self := moRef; Info_State := st;
             Info_DescriptionId := "VirtualMachine.clone" |} |}.

(** A session that finds no task. *)
Definition session_lost : Session :=
  {| RetrieveOne := fun _ => Err (ErrExternal "object not found") |}.

(** A patch helper whose patch the store accepts. *)
Definition helper_ok : PatchHelper := {| Helper_Patch := fun _ => None |}.
(** A patch helper whose patch the store refuses. *)
Definition helper_conflict : PatchHelper :=
  {| Helper_Patch := fun _ => Some (ErrExternal "conflict") |}.

Definition context_of (m : Infrav1.VSphereMachine) (s : Session)
           (h : PatchHelper) : MachineContext :=
  {| Cluster := {| Cluster_Name := "c1"; InfrastructureRef_Name := "vc1";
                   InfrastructureReady := true |};
     VSphereCluster := {| Server := "vcenter.example.com" |};
     Machine := {| Machine_Name := "m1"; UID := "uid-1";
                   Bootstrap_Data := Some "#cloud-config" |};
     VSphereMachine := m; Session_ := s; PatchHelper_ := h |}.

Definition nic (ips : list string) : NetworkStatus :=
  {| NetworkStatus_MACAddr := "00:50:56:00:00:01"; IPAddrs := ips |}.

Definition vm_in (st : VirtualMachineState) (nics : list NetworkStatus)
  : VirtualMachine :=
  {| State := st; BiosUUID := uuid_1; VM_Network := nics |}.

(** A service that touches nothing and reports the view [vm]. *)
Definition service_of (vm : VirtualMachine) : VirtualMachineService :=
  {| ReconcileVM := fun ctx => (ctx, (vm, None));
     DestroyVM := fun ctx => (ctx, (vm, None)) |}.

(** A reconciler whose store holds [m], answers the reads after the
    first with [later], and hands out the helper [h]. *)
Definition reconciler_of (m : Infrav1.VSphereMachine)
           (later : nat -> result Infrav1.VSphereMachine)
           (h : PatchHelper) (vm : VirtualMachine) : machineReconciler :=
  {| Client_Get := fun _ n => match n with O => Ok m | S _ => later n end;
     GetOwnerMachine := fun _ =>
       Ok (Some {| Machine_Name := "m1"; UID := "uid-1";
                   Bootstrap_Data := Some "#cloud-config" |});
     GetClusterFromMetadata := fun _ =>
       Ok {| Cluster_Name := "c1"; InfrastructureRef_Name := "vc1";
             InfrastructureReady := true |};
     Client_Get_VSphereCluster := fun _ =>
       Ok {| Server := "vcenter.example.com" |};
     GetOrCreate := fun _ _ => Ok (session_in "success");
     NewHelper := fun _ => Ok h;
     vmService := service_of vm |}.

End Sample.

(* ================================================================== *)
(** * Go's [strings], as far as the code uses it *)

Module Strings.

(** [strings.Split(s, sep)] for a separator of one byte: the texts
    between the separators, one more than there are separators. *)
Fixpoint Split (s : string) (sep : ascii) : list string :=
match s with
| EmptyString => [EmptyString]
| String c s' =>
    if Ascii.eqb c sep then EmptyString :: Split s' sep
    else
      match Split s' sep with
      | [] => [Str.byte c]
      | w :: ws => String c w :: ws
      end
end.

(** [strings.Join(elems, sep)]. *)
Fixpoint Join (elems : list string) (sep : string) : string :=
match elems with
| [] => EmptyString
| [e] => e
| e :: rest => e ++ sep ++ Join rest sep
end.

(** The line feed. *)
Definition LF : ascii := ascii_of_nat 10.

End Strings.

(* ================================================================== *)
(** * Package [app]: a flag that may be given more than once *)

Module App.

(** [FlagStringSlice]. *)
Definition FlagStringSlice : Type := list string.

(** The method [String], on the value pointed to. *)
Definition String_ (s : FlagStringSlice) : string := Strings.Join s ",".

(** The method [Set]: the value pointed to after the call, and the
    error returned. *)
Definition Set_ (s : FlagStringSlice) (value : string)
  : FlagStringSlice * option error :=
((s ++ [value])%list, None).

(** The calls of [Set] the flag package makes for the occurrences
    [values] of the flag, in command line order. *)
Definition parse (values : list string) (s : FlagStringSlice) : FlagStringSlice :=
fold_left (fun s value => fst (Set_ s value)) values s.

End App.

(* ================================================================== *)
(** * Package [controllers]: helpers of the debug dumps *)

Module Dump.

(** [indentation]. *)
Definition indentation : string := "    ".

(** [indent]. *)
Definition indent (s : string) : string :=
let splitLines := Strings.Split s Strings.LF in
let indentedLines :=
  fold_left (fun indentedLines line =>
               let indented := indentation ++ line in
               (indentedLines ++ [indented])%list)
            splitLines [] in
Strings.Join indentedLines (Str.byte Strings.LF).

(** [hasDebugAnnotation]: the lookup in the map of annotations, a
    missing key reading as the empty text. *)
Fixpoint annotation (key : string) (annotations : list (string * string)) : string :=
match annotations with
| [] => EmptyString
| (k, v) :: rest => if String.eqb k key then v else annotation key rest
end.

Definition hasDebugAnnotation (obj : Infrav1.VSphereMachine) : bool :=
negb (String.eqb
        (annotation "vsphere.infrastructure.cluster.x-k8s.io/debug"
                    (Infrav1.Annotations obj))
        "").

End Dump.

(* ================================================================== *)
(** * Package [util]: the devices handed to the metadata template *)

Module UtilMetadata.
Import Infrav1.

(** [devices[i].MACAddr = m] on a copy of a device. *)
Definition with_MACAddr (m : string) (d : NetworkDeviceSpec) : NetworkDeviceSpec :=
{| NetworkName := NetworkName d; MACAddr := m;
   Nameservers := Nameservers d; SearchDomains := SearchDomains d |}.

(** The first loop of [GetMachineMetadata], from index [i] on: the
    copies of the devices, or [None] when [networkStatus[i]] is out of
    range (the function panics). *)
Fixpoint metadata_devices (i : nat) (specDevices : list NetworkDeviceSpec)
         (networkStatus : list NetworkStatus)
  : option (list NetworkDeviceSpec) :=
match specDevices with
| [] => Some []
| d :: rest =>
    let copied :=
      if (0 <? List.length networkStatus)%nat then
        match nth_error networkStatus i with
        | Some st => Some (with_MACAddr (NetworkStatus_MACAddr st) d)
        | None => None
        end
      else Some d in
    match copied with
    | None => None
    | Some d' =>
        match metadata_devices (S i) rest networkStatus with
        | Some ds => Some (d' :: ds)
        | None => None
        end
    end
end.

End UtilMetadata.

(* ================================================================== *)
(** * Package [govmomi]: finding the instance, waiting for it *)

Module GovmomiVM.
Import Infrav1 Clusterv1 Vim25 Context Govmomi.

(** The two searches of the session [findVM] uses; an answer without
    object is [Ok None]. *)
Record Finder : Type :=
  { FindByBIOSUUID : string -> result (option ManagedObjectReference);
    FindByInstanceUUID : string -> result (option ManagedObjectReference) }.

(** The errors [findVM] returns. *)
Inductive findVM_error : Type :=
| InvalidProviderID (providerID : string)       (* "invalid providerID %s" *)
| SearchError (e : error)                       (* the error of the search *)
| errNotFound (instanceUUID : bool) (uuid : string).

(** [types.ManagedObjectReference{}]. *)
Definition no_reference : ManagedObjectReference :=
  {| Type_ := ""; Value := "" |}.

(** The three statements that follow a search. *)
Definition found (instanceUUID : bool) (uuid : string)
           (answer : result (option ManagedObjectReference))
  : ManagedObjectReference * option findVM_error :=
match answer with
| Err err => (no_reference, Some (SearchError err))
| Ok None => (no_reference, Some (errNotFound instanceUUID uuid))
| Ok (Some objRef) => (objRef, None)
end.

(** [findVM]. *)
Definition findVM (finder : Finder) (ctx : MachineContext)
  : ManagedObjectReference * option findVM_error :=
let by_instance :=
  let uuid := UID (Machine ctx) in
  found true uuid (FindByInstanceUUID finder uuid) in
match ProviderID (Spec (VSphereMachine ctx)) with
| Some providerID =>
    if negb (String.eqb providerID "") then
      let uuid := Util.ConvertProviderIDToUUID (Some providerID) in
      if String.eqb uuid "" then
        (no_reference, Some (InvalidProviderID providerID))
      else found false uuid (FindByBIOSUUID finder uuid)
    else by_instance
| None => by_instance
end.

(** [sanitizeIPAddrs]; [ErrOnLocalOnlyIPAddr] is the check of package
    [net] of the services, which is not among the sources. *)
Definition sanitizeIPAddrs (ErrOnLocalOnlyIPAddr : string -> option error)
           (ipAddrs : list string) : list string :=
if (List.length ipAddrs =? 0)%nat then []
else
  fold_left
    (fun newIPAddrs addr =>
       match ErrOnLocalOnlyIPAddr addr with
       | Some _ => newIPAddrs
       | None => (newIPAddrs ++ [addr])%list
       end)
    ipAddrs [].

(** [types.TaskInfo], with the fields the code reads. *)
Record TaskInfo : Type :=
  { TaskInfo_State : TaskInfoState;
    TaskInfo_Name : string;
    TaskInfo_EntityName : string;
    TaskInfo_DescriptionId : string }.

(** The [waitFn] of [reconcileObjectOnTaskCompletion], given what
    [taskHelper.WaitForResult] returns. *)
Definition task_waitFn (taskRef : ManagedObjectReference)
           (WaitForResult : result TaskInfo) : waited :=
match WaitForResult with
| Err err => ([], Some err)
| Ok taskInfo =>
    (["reason"; "task";
      "task-ref"; Value taskRef;
      "task-name"; TaskInfo_Name taskInfo;
      "task-entity-name"; TaskInfo_EntityName taskInfo;
      "task-state"; TaskInfo_State taskInfo;
      "task-description-id"; TaskInfo_DescriptionId taskInfo],
     None)
end.

(** [reconcileObjectOnTaskCompletion]: the error returned and the
    background unit started, a function of what the wait returns. *)
Definition reconcileObjectOnTaskCompletion
           (ctx : MachineContext) (obj : runtime_Object)
           (taskRef : ManagedObjectReference)
  : option error * option (result TaskInfo -> list effect) :=
match reconcileObjectOnFuncCompletion ctx obj with
| (err, Some unit) => (err, Some (fun w => unit (task_waitFn taskRef w)))
| (err, None) => (err, None)
end.

(** [reconcileVSphereMachineOnTaskCompletion]; its log records are not
    part of the model. *)
Definition reconcileVSphereMachineOnTaskCompletion (ctx : MachineContext)
  : option error * option (result TaskInfo -> list effect) :=
match getTask ctx with
| None => (None, None)
| Some task =>
    let '(_, unit) :=
      reconcileObjectOnTaskCompletion
        ctx (MachineObject (VSphereMachine ctx)) (Self task) in
    (None, unit)
end.

(** The [waitFn] of [reconcileVSphereMachineWhenNetworkIsReady], given
    what [powerOnTask.WaitForResult] and [ctx.Obj.WaitForNetIP]
    return. *)
Definition network_waitFn (WaitForResult : result TaskInfo)
           (WaitForNetIP : option error) : waited :=
match WaitForResult with
| Err err => ([], Some (Wrapf err "failed to wait for power on op for vm %s"))
| Ok taskInfo =>
    if negb (String.eqb (TaskInfo_State taskInfo) TaskInfoStateSuccess) then
      ([], Some (ErrExternal
                   ("unexpected task state " ++ TaskInfo_State taskInfo
                      ++ " for power on op for vm %s")))
    else
      match WaitForNetIP with
      | Some err =>
          ([], Some (Wrapf err "failed to wait for networking for vm %s"))
      | None => (["reason"; "network"], None)
      end
end.

(** [reconcileVSphereMachineWhenNetworkIsReady]. *)
Definition reconcileVSphereMachineWhenNetworkIsReady (ctx : MachineContext)
  : option error * option (result TaskInfo -> option error -> list effect) :=
match reconcileObjectOnFuncCompletion
        ctx (MachineObject (VSphereMachine ctx)) with
| (err, Some unit) => (err, Some (fun w n => unit (network_waitFn w n)))
| (err, None) => (err, None)
end.

(** The signals among the effects of a unit. *)
Definition signals (es : list effect) : list effect := filter is_send es.

End GovmomiVM.

(* ================================================================== *)
(** * Package [controllers]: the normal path, in two parts *)

Module ControllersSteps.
Import Corev1 Clusterv1 Infrav1 Context Services Controllers.

(** The statements of [reconcileNormal] that follow the finalizer, on
    the context that carries it. *)
Definition after_finalizer (r : machineReconciler) (ctx : MachineContext)
  : MachineContext * (reconcile_Result * option error) :=
if negb (InfrastructureReady (Cluster ctx)) then
  (ctx, (no_requeue, None))
else
  match Bootstrap_Data (Machine ctx) with
  | None => (ctx, (no_requeue, None))
  | Some _ =>
      let '(ctx, (vm, err)) := ReconcileVM (vmService r) ctx in
      match err with
      | Some e =>
          (ctx, (no_requeue, Some (Wrapf e "failed to reconcile VM")))
      | None =>
          if negb (String.eqb (State vm) VirtualMachineStateReady) then
            (ctx, (no_requeue, None))
          else
            let '(ctx, (ok, err)) := reconcileNetwork r ctx vm in
            if negb ok then
              match err with
              | Some e => (ctx, (no_requeue, Some e))
              | None => (ctx, (no_requeue, None))
              end
            else
              let '(ctx, err) := reconcileProviderID r ctx vm in
              match err with
              | Some e => (ctx, (no_requeue, Some e))
              | None =>
                  (assign (with_Ready true) ctx, (no_requeue, None))
              end
      end
  end.

(** The resource is in the error state [reconcileNormal] skips. *)
Definition in_error_state (m : Infrav1.VSphereMachine) : bool :=
match ErrorReason (Status m), ErrorMessage (Status m) with
| None, None => false
| _, _ => true
end.

(** Two contexts differ at most in what Status observes (readiness,
    addresses, interfaces, task reference) and in the provider id. *)
Definition same_but_observed (c c' : MachineContext) : Prop :=
Cluster c' = Cluster c
/\ VSphereCluster c' = VSphereCluster c
/\ Machine c' = Machine c
/\ Session_ c' = Session_ c
/\ PatchHelper_ c' = PatchHelper_ c
/\ Finalizers (VSphereMachine c') = Finalizers (VSphereMachine c)
/\ Datacenter (Spec (VSphereMachine c')) = Datacenter (Spec (VSphereMachine c))
/\ Spec_Network (Spec (VSphereMachine c')) = Spec_Network (Spec (VSphereMachine c))
/\ ErrorReason (Status (VSphereMachine c')) = ErrorReason (Status (VSphereMachine c))
/\ ErrorMessage (Status (VSphereMachine c')) = ErrorMessage (Status (VSphereMachine c)).

End ControllersSteps.

(** More concrete inputs. *)
Module Sample2.
Import Infrav1 Vim25 Context GovmomiVM.

Definition vm_ref : ManagedObjectReference :=
  {| Type_ := "VirtualMachine"; Value := "vm-42" |}.

(** A session that knows one instance, by either identifier. *)
Definition finder_1 : Finder :=
  {| FindByBIOSUUID := fun uuid =>
       if String.eqb uuid Sample.uuid_1 then Ok (Some vm_ref) else Ok None;
     FindByInstanceUUID := fun uuid =>
       if String.eqb uuid "uid-1" then Ok (Some vm_ref) else Ok None |}.

(** [machine_1] with a provider id. *)
Definition machine_6 (p : string) : Infrav1.VSphereMachine :=
  with_ProviderID (Some p) Sample.machine_1.

Definition task_info (st : TaskInfoState) : TaskInfo :=
  {| TaskInfo_State := st; TaskInfo_Name := "PowerOnVM_Task";
     TaskInfo_EntityName := "m1";
     TaskInfo_DescriptionId := "VirtualMachine.powerOn" |}.


(** [machine_1] as the store holds it after a patch. *)
Definition machine_patched : Infrav1.VSphereMachine :=
  {| TypeMeta := TypeMeta Sample.machine_1;
     Namespace := "default"; Name := "m1"; ResourceVersion := "42";
     DeletionTimestamp := None;
     Finalizers := Finalizers Sample.machine_1;
     Annotations := [];
     Spec := Spec Sample.machine_1; Status := Status Sample.machine_1 |}.

(** A store that shows the patched resource from the fourth read on. *)
Definition reconciler_slow : Controllers.machineReconciler :=
  Sample.reconciler_of Sample.machine_1
    (fun n => if (n <? 3)%nat then Ok Sample.machine_1 else Ok machine_patched)
    Sample.helper_ok (Sample.vm_in "ready" [Sample.nic []]).

(** A reconciler whose service fails to destroy the instance. *)
Definition reconciler_stuck : Controllers.machineReconciler :=
  {| Controllers.Client_Get := fun _ _ => Ok Sample.machine_4;
     Controllers.GetOwnerMachine := fun _ => Ok None;
     Controllers.GetClusterFromMetadata := fun _ => Err ErrNotFound;
     Controllers.Client_Get_VSphereCluster := fun _ => Err ErrNotFound;
     Controllers.GetOrCreate := fun _ _ => Err ErrNotFound;
     Controllers.NewHelper := fun _ => Err ErrNotFound;
     Controllers.vmService :=
       {| Services.ReconcileVM := fun ctx =>
            (ctx, (Sample.vm_in "pending" [], None));
          Services.DestroyVM := fun ctx =>
            (ctx, (Sample.vm_in "" [], Some (ErrExternal "permission denied"))) |} |}.

(** A check that refuses the loopback address. *)
Definition local_only (addr : string) : option error :=
  if String.eqb addr "127.0.0.1" then Some (ErrExternal "loopback") else None.

End Sample2.

Section CodecLemmas.
Import Regexp Util Shape Codec.

Lemma skip_prefix (e s : string) :
  Str.starts_with e s = true -> s = e ++ Str.skip (String.length e) s.
Proof.
  revert s; induction e as [|a e IH]; intros s H; simpl in *.
  - reflexivity.
  - destruct s as [|b s]; [discriminate H|].
    apply andb_true_iff in H as [E H].
    apply Ascii.eqb_eq in E as ->.
    simpl. f_equal. now apply IH.
Qed.

Lemma append_empty_r (s : string) : s ++ "" = s.
Proof. induction s; simpl; congruence. Qed.

Lemma append_assoc' (a b c : string) : (a ++ b) ++ c = a ++ (b ++ c).
Proof. induction a; simpl; congruence. Qed.

(** A successful run splits the text into what it consumed and the
    rest. *)
Lemma run_consumes (r : re) :
  forall s c rest g, run r s = Some (c, rest, g) -> s = c ++ rest.
Proof.
  induction r as [encs | n r IH | r1 IH1 r2 IH2 | r IH]; intros s c rest g H.
  - simpl in H. unfold run_runes in H.
    destruct (find _ encs) as [e|] eqn:F; [|discriminate].
    injection H as <- <- <-.
    apply find_some in F. now apply skip_prefix.
  - revert s c rest g H. induction n as [|n IHn]; intros s c rest g H.
    + simpl in H. now injection H as <- <- <-.
    + simpl in H.
      destruct (run r s) as [[[c1 rest1] g1]|] eqn:R1; [|discriminate].
      match type of H with
      | match ?t with _ => _ end = _ =>
          destruct t as [[[c2 rest2] g2]|] eqn:R2; [|discriminate]
      end.
      injection H as <- <- <-.
      apply IH in R1. apply IHn in R2. subst.
      now rewrite append_assoc'.
  - simpl in H.
    destruct (run r1 s) as [[[c1 rest1] g1]|] eqn:R1; [|discriminate].
    destruct (run r2 rest1) as [[[c2 rest2] g2]|] eqn:R2; [|discriminate].
    injection H as <- <- <-.
    apply IH1 in R1. apply IH2 in R2. subst. now rewrite append_assoc'.
  - simpl in H.
    destruct (run r s) as [[[c1 rest1] g1]|] eqn:R1; [|discriminate].
    injection H as <- <- <-. eauto.
Qed.

Lemma run_hex_i (c : ascii) (s : string) :
  run hex_i (String c s)
  = if is_hex c then Some (Str.byte c, s, []) else None.
Proof.
  destruct c as [[] [] [] [] [] [] [] []]; reflexivity.
Qed.

Lemma run_hex_i_empty : run hex_i "" = None.
Proof. reflexivity. Qed.

Lemma run_rep_S (n : nat) (r : re) (s : string) :
  run (Rep (S n) r) s
  = match run r s with
    | Some (c1, rest1, g1) =>
        match run (Rep n r) rest1 with
        | Some (c2, rest2, g2) => Some (c1 ++ c2, rest2, [])
        | None => None
        end
    | None => None
    end.
Proof. reflexivity. Qed.

Lemma run_rep_hex (n : nat) :
  forall s,
    run (Rep n hex_i) s
    = match take_hex n s with
      | Some (a, rest) => Some (a, rest, [])
      | None => None
      end.
Proof.
  induction n as [|n IH]; intros s.
  - reflexivity.
  - rewrite run_rep_S.
    destruct s as [|c s].
    + reflexivity.
    + rewrite run_hex_i. simpl take_hex.
      destruct (is_hex c); [|reflexivity].
      rewrite IH. destruct (take_hex n s) as [[a rest]|]; reflexivity.
Qed.

Lemma run_hyphen (s : string) :
  run (lit_i "-") s
  = match take_hyphen s with
    | Some rest => Some ("-", rest, [])
    | None => None
    end.
Proof.
  destruct s as [|c s]; [reflexivity|].
  destruct c as [[] [] [] [] [] [] [] []]; reflexivity.
Qed.

Lemma run_cat (r1 r2 : re) (s : string) :
  run (Cat r1 r2) s
  = match run r1 s with
    | Some (c1, rest1, g1) =>
        match run r2 rest1 with
        | Some (c2, rest2, g2) => Some (c1 ++ c2, rest2, (g1 ++ g2)%list)
        | None => None
        end
    | None => None
    end.
Proof. reflexivity. Qed.

Ltac step_hex :=
  rewrite ?run_cat, run_rep_hex;
  match goal with
  | |- context [take_hex ?n ?s] =>
      destruct (take_hex n s) as [[? ?]|]; [|reflexivity]
  end.

Ltac step_hyphen :=
  rewrite ?run_cat, run_hyphen;
  match goal with
  | |- context [take_hyphen ?s] =>
      destruct (take_hyphen s) as [?|]; [|reflexivity]
  end.

(** The pattern of a UUID, run as a scan. *)
Lemma run_uuid_re (s : string) :
  run uuid_re s
  = match scan_uuid s with
    | Some (c, rest) => Some (c, rest, [])
    | None => None
    end.
Proof.
  unfold uuid_re, scan_uuid. cbn [seq].
  step_hex. step_hyphen. step_hex. step_hyphen. step_hex. step_hyphen.
  step_hex. step_hyphen.
  rewrite run_rep_hex.
  match goal with
  | |- context [take_hex ?n ?s] =>
      destruct (take_hex n s) as [[? ?]|]; reflexivity
  end.
Qed.

Lemma uuid_from_length (s : string) :
  forall i, uuid_from i s = true -> i + String.length s = 36.
Proof.
  induction s as [|c s IH]; intros i H; simpl in *.
  - apply Nat.eqb_eq in H. lia.
  - apply andb_true_iff in H as [_ H]. apply IH in H. lia.
Qed.

Lemma uuid_from_take_hex (n : nat) :
  forall i s,
    i + n <= 36 ->
    (forall j, i <= j < i + n -> hyphen_at j = false) ->
    uuid_from i s
    = match take_hex n s with
      | Some (_, rest) => uuid_from (i + n) rest
      | None => false
      end.
Proof.
  induction n as [|n IH]; intros i s Hle Hfree.
  - simpl. now rewrite Nat.add_0_r.
  - destruct s as [|c s]; simpl.
    + apply Nat.eqb_neq. lia.
    + rewrite (Hfree i) by lia.
      destruct (is_hex c); [|reflexivity]. simpl.
      rewrite (IH (S i) s) by (try lia; intros j Hj; apply Hfree; lia).
      replace (S i + n) with (i + S n) by lia.
      destruct (take_hex n s) as [[a rest]|]; reflexivity.
Qed.

Lemma uuid_from_take_hyphen (i : nat) (s : string) :
  hyphen_at i = true ->
  uuid_from i s
  = match take_hyphen s with
    | Some rest => uuid_from (S i) rest
    | None => false
    end.
Proof.
  intros Hi. destruct s as [|c s]; simpl.
  - apply Nat.eqb_neq. intros ->. discriminate Hi.
  - rewrite Hi. destruct (Ascii.eqb c "-"); reflexivity.
Qed.

Lemma uuid_from_end (s : string) :
  uuid_from 36 s = match s with EmptyString => true | _ => false end.
Proof.
  destruct s as [|c s]; [reflexivity|].
  destruct (uuid_from 36 (String c s)) eqn:E; [|reflexivity].
  apply uuid_from_length in E. simpl in E. lia.
Qed.

Ltac no_hyphen :=
  first [ lia
        | let j := fresh "j" in
          let Hj := fresh "Hj" in
          intros j Hj; unfold hyphen_at;
          repeat (apply orb_false_intro); apply Nat.eqb_neq; lia ].

Ltac shape_hex i n :=
  rewrite (uuid_from_take_hex n i) by no_hyphen;
  match goal with
  | |- context [take_hex n ?s] =>
      destruct (take_hex n s) as [[? ?]|]; [|reflexivity]
  end.

Ltac shape_hyphen i :=
  rewrite (uuid_from_take_hyphen i) by reflexivity;
  match goal with
  | |- context [take_hyphen ?s] =>
      destruct (take_hyphen s) as [?|]; [|reflexivity]
  end.

(** The shape of a UUID, checked as a scan. *)
Lemma is_uuid_scan (s : string) :
  is_uuid s
  = match scan_uuid s with
    | Some (_, EmptyString) => true
    | _ => false
    end.
Proof.
  unfold is_uuid, scan_uuid.
  shape_hex 0 8. shape_hyphen 8. shape_hex 9 4. shape_hyphen 13.
  shape_hex 14 4. shape_hyphen 18. shape_hex 19 4. shape_hyphen 23.
  shape_hex 24 12.
  apply uuid_from_end.
Qed.

(** [UUIDPattern] accepts exactly the texts of the shape of a UUID. *)
Lemma MatchString_UUIDPattern (s : string) :
  MatchString UUIDPattern s = is_uuid s.
Proof.
  unfold MatchString, UUIDPattern.
  rewrite run_uuid_re, is_uuid_scan.
  destruct (scan_uuid s) as [[c rest]|]; reflexivity.
Qed.

Lemma run_seq_cons (r : re) (rs : list re) (s : string) :
  run (seq (r :: rs)) s = run (Cat r (seq rs)) s.
Proof.
  destruct rs as [|r' rs]; [|reflexivity].
  rewrite run_cat. cbn [seq].
  destruct (run r s) as [[[c rest] g]|]; [|reflexivity].
  cbn. now rewrite append_empty_r, app_nil_r.
Qed.

(** A literal text under [(?i)] strips a prefix up to case. *)
Lemma run_lit_i (p : string) :
  forall s,
    match strip_prefix_i p s with
    | Some rest => exists c, run (lit_i p) s = Some (c, rest, [])
    | None => run (lit_i p) s = None
    end.
Proof.
  induction p as [|a p IH]; intros s.
  - simpl. exists "". reflexivity.
  - unfold lit_i. cbn [Str.bytes_of list_ascii_of_string map].
    rewrite run_seq_cons, run_cat.
    cbn [strip_prefix_i run]. unfold strip_rune_i, run_runes.
    destruct (find _ (fold_orbit a)) as [e|]; [|reflexivity].
    specialize (IH (Str.skip (String.length e) s)).
    fold (Str.bytes_of p). fold (lit_i p).
    destruct (strip_prefix_i p _) as [rest|].
    + destruct IH as [c ->]. eexists. reflexivity.
    + now rewrite IH.
Qed.

(** What [ProviderIDPattern] finds in a text. *)
Lemma FindStringSubmatch_ProviderIDPattern (p : string) :
  FindStringSubmatch ProviderIDPattern p
  = match strip_prefix_i ProviderIDPrefix p with
    | Some u => if is_uuid u then [p; u] else []
    | None => []
    end.
Proof.
  unfold FindStringSubmatch, ProviderIDPattern.
  rewrite run_cat.
  pose proof (run_lit_i ProviderIDPrefix p) as L.
  destruct (strip_prefix_i ProviderIDPrefix p) as [u|].
  - destruct L as [c L]. rewrite L.
    apply run_consumes in L.
    cbn [run]. rewrite is_uuid_scan.
    pose proof (run_consumes uuid_re u) as U.
    rewrite run_uuid_re in *.
    destruct (scan_uuid u) as [[c2 rest]|]; [|reflexivity].
    specialize (U c2 rest [] eq_refl).
    destruct rest; [|reflexivity].
    rewrite append_empty_r in U. subst. reflexivity.
  - now rewrite L.
Qed.

Lemma is_uuid_nonempty (u : string) : is_uuid u = true -> u <> "".
Proof. intros H ->. discriminate H. Qed.

Lemma encode_valid (u : string) :
  is_uuid u = true -> ConvertUUIDToProviderID u = ProviderIDPrefix ++ u.
Proof.
  intros H. unfold ConvertUUIDToProviderID.
  rewrite MatchString_UUIDPattern, H.
  destruct (String.eqb_spec u ""); [|reflexivity].
  now apply is_uuid_nonempty in H.
Qed.

Lemma encode_invalid (u : string) :
  is_uuid u = false -> ConvertUUIDToProviderID u = "".
Proof.
  intros H. unfold ConvertUUIDToProviderID.
  rewrite MatchString_UUIDPattern, H.
  destruct (String.eqb u ""); reflexivity.
Qed.

Lemma decode_invalid (p : string) :
  is_provider_id p = false -> ConvertProviderIDToUUID (Some p) = "".
Proof.
  unfold is_provider_id, ConvertProviderIDToUUID. intros H.
  rewrite FindStringSubmatch_ProviderIDPattern.
  destruct (String.eqb p ""); [reflexivity|].
  destruct (strip_prefix_i ProviderIDPrefix p) as [u|]; [|reflexivity].
  now rewrite H.
Qed.

Lemma decode_valid (p u : string) :
  strip_prefix_i ProviderIDPrefix p = Some u -> is_uuid u = true ->
  ConvertProviderIDToUUID (Some p) = u.
Proof.
  unfold ConvertProviderIDToUUID. intros S U.
  rewrite FindStringSubmatch_ProviderIDPattern, S, U.
  destruct (String.eqb_spec p "") as [->|]; [discriminate S|reflexivity].
Qed.

End CodecLemmas.

(** C3. For every text [u] of the shape of a UUID (hexadecimal digits of
    either case), decoding the encoding of [u] gives [u] back; for every
    text that does not have the shape of a UUID the encoder returns the
    empty string, and for every text that is not the scheme prefix (in
    any case) followed by a UUID the decoder returns the empty string,
    as it does for a nil pointer. *)
Theorem C3_codec_round_trip (u p : string) :
  (Shape.is_uuid u = true ->
   Util.ConvertProviderIDToUUID (Some (Util.ConvertUUIDToProviderID u)) = u)
  /\ (Shape.is_uuid u = false -> Util.ConvertUUIDToProviderID u = "")
  /\ (Shape.is_provider_id p = false ->
      Util.ConvertProviderIDToUUID (Some p) = "")
  /\ Util.ConvertProviderIDToUUID None = "".
Proof.
  repeat split.
  - intros H. rewrite (encode_valid u H).
    now apply decode_valid.
  - apply encode_invalid.
  - apply decode_invalid.
Qed.


(** The theorem at a UUID of mixed case and at two malformed texts. *)
Lemma C3_codec_round_trip_witness :
  Util.ConvertProviderIDToUUID
    (Some (Util.ConvertUUIDToProviderID Sample.uuid_1)) = Sample.uuid_1
  /\ Util.ConvertUUIDToProviderID "421a6e0b-7f3c-4d2e-9a51-0c8b3F2D1e7g" = ""
  /\ Util.ConvertProviderIDToUUID
       (Some "vsphere:/421a6e0b-7f3c-4d2e-9a51-0c8b3F2D1e77") = "".
Proof.
  split; [|split].
  - exact (proj1 (C3_codec_round_trip Sample.uuid_1 "") eq_refl).
  - exact (proj1 (proj2 (C3_codec_round_trip
                           "421a6e0b-7f3c-4d2e-9a51-0c8b3F2D1e7g" ""))
                 eq_refl).
  - exact (proj1 (proj2 (proj2 (C3_codec_round_trip
                           "" "vsphere:/421a6e0b-7f3c-4d2e-9a51-0c8b3F2D1e77")))
                 eq_refl).
Defined.

Example encode_1 :
  Util.ConvertUUIDToProviderID Sample.uuid_1
  = "vsphere://421a6e0b-7f3c-4d2e-9a51-0c8b3F2D1e77".
Proof. vm_compute. reflexivity. Qed.

(** The prefix is matched in any case, the UUID is returned as given. *)
Example decode_upper_prefix :
  Util.ConvertProviderIDToUUID
    (Some "VSphere://421a6e0b-7f3c-4d2e-9a51-0c8b3F2D1e77")
  = Sample.uuid_1.
Proof. vm_compute. reflexivity. Qed.

Example decode_short :
  Util.ConvertProviderIDToUUID
    (Some "vsphere://421a6e0b-7f3c-4d2e-9a51-0c8b3F2D1e7")
  = "".
Proof. vm_compute. reflexivity. Qed.

(** Nothing may follow the UUID: [$] is the end of the text. *)
Example decode_trailing_newline :
  Util.ConvertProviderIDToUUID
    (Some ("vsphere://421a6e0b-7f3c-4d2e-9a51-0c8b3F2D1e77"
             ++ String (ascii_of_nat 10) EmptyString))
  = "".
Proof. vm_compute. reflexivity. Qed.

(** Case folding is Unicode simple folding: U+017F folds to [s]. *)
Example decode_long_s :
  Util.ConvertProviderIDToUUID
    (Some ("v" ++ Regexp.long_s ++ "phere://421a6e0b-7f3c-4d2e-9a51-0c8b3F2D1e77"))
  = Sample.uuid_1.
Proof. vm_compute. reflexivity. Qed.

(* ================================================================== *)
(** * Properties of the preferred IP address *)

Section PreferredAddress.
Import Corev1 Infrav1 UtilNet.
Variables IPNet IP : Type.
Variable ParseCIDR : string -> option IPNet.
Variable ParseIP : string -> IP.
Variable Contains : IPNet -> IP -> bool.

(** The loop returns the first address that qualifies. *)
Lemma preferred_among_find (cidr : option IPNet) (addrs : list NodeAddress) :
preferred_among ParseIP Contains cidr addrs
= match find (qualifies ParseIP Contains cidr) addrs with
  | Some a => (Address a, None)
  | None => ("", Some ErrNoMachineIPAddr)
  end.
Proof.
  induction addrs as [|a addrs IH]; [reflexivity|].
  cbn [preferred_among find]. unfold qualifies at 1.
  destruct (String.eqb (Corev1.Type_ a) NodeInternalIP); cbn [negb andb].
  - destruct cidr as [c|]; [|reflexivity].
    destruct (Contains c (ParseIP (Address a))); [reflexivity|exact IH].
  - exact IH.
Qed.

(** An address the loop returns without error is the address of an
    internal entry of the list. *)
Lemma preferred_among_internal (cidr : option IPNet) (addrs : list NodeAddress) :
forall ip,
  preferred_among ParseIP Contains cidr addrs = (ip, None) ->
  exists a, In a addrs /\ Address a = ip /\ Corev1.Type_ a = NodeInternalIP.
Proof.
  intros ip H. rewrite preferred_among_find in H.
  destruct (find _ addrs) as [a|] eqn:F; [|discriminate H].
  injection H as <-. apply find_some in F as [HIn Hq].
  exists a. repeat split; [assumption|].
  unfold qualifies in Hq.
  apply andb_true_iff in Hq as [Hq _]. now apply String.eqb_eq.
Qed.

End PreferredAddress.

(** C10. [GetMachinePreferredIPAddress] reports a parse error when the
    preferred network is a non-empty text that is no CIDR; otherwise it
    returns the address of the first entry of [Status.Addresses], in
    list order, that is of type [NodeInternalIP] and, when a preferred
    network is given, lies inside it, and [ErrNoMachineIPAddr] when no
    entry is such; an address it returns without error belongs to an
    entry of type [NodeInternalIP]. *)
Theorem C10_preferred_ip_address
        {IPNet IP : Type} (ParseCIDR : string -> option IPNet)
        (ParseIP : string -> IP) (Contains : IPNet -> IP -> bool)
        (machine : Infrav1.VSphereMachine) :
  let cidrString :=
    Infrav1.PreferredAPIServerCIDR (Infrav1.Spec_Network (Infrav1.Spec machine)) in
  let addrs := Infrav1.Addresses (Infrav1.Status machine) in
  let get := UtilNet.GetMachinePreferredIPAddress ParseCIDR ParseIP Contains in
  let first_of cidr :=
    match find (UtilNet.qualifies ParseIP Contains cidr) addrs with
    | Some a => (Corev1.Address a, None)
    | None => ("", Some ErrNoMachineIPAddr)
    end in
  (cidrString <> "" -> ParseCIDR cidrString = None ->
   get machine = ("", Some ErrParsingCIDR))
  /\ (forall c, cidrString <> "" -> ParseCIDR cidrString = Some c ->
                get machine = first_of (Some c))
  /\ (cidrString = "" -> get machine = first_of None)
  /\ (forall ip, get machine = (ip, None) ->
                 exists a, In a addrs /\ Corev1.Address a = ip
                           /\ Corev1.Type_ a = Corev1.NodeInternalIP).
Proof.
  cbv zeta. unfold UtilNet.GetMachinePreferredIPAddress.
  repeat split.
  - intros Hne Hp. apply String.eqb_neq in Hne. now rewrite Hne, Hp.
  - intros c Hne Hp. apply String.eqb_neq in Hne. rewrite Hne, Hp.
    apply preferred_among_find.
  - intros ->. apply preferred_among_find.
  - intros ip.
    destruct (String.eqb _ ""); cbn [negb].
    + apply preferred_among_internal.
    + destruct (ParseCIDR _) as [c|]; [|discriminate].
      apply preferred_among_internal.
Qed.

(** The theorem at machines with four observed addresses: bad network
    text, a network that holds the third address, and no network. *)
Lemma C10_preferred_ip_address_witness :
  UtilNet.GetMachinePreferredIPAddress
    IPv4.ParseCIDR IPv4.ParseIP IPv4.Contains (Sample.machine_5 "10.0.0.0/33")
  = ("", Some ErrParsingCIDR)
  /\ UtilNet.GetMachinePreferredIPAddress
       IPv4.ParseCIDR IPv4.ParseIP IPv4.Contains (Sample.machine_5 "10.0.0.0/8")
     = ("10.1.2.3", None)
  /\ UtilNet.GetMachinePreferredIPAddress
       IPv4.ParseCIDR IPv4.ParseIP IPv4.Contains (Sample.machine_5 "")
     = ("192.168.7.4", None).
Proof.
  split; [|split].
  - apply (C10_preferred_ip_address IPv4.ParseCIDR IPv4.ParseIP IPv4.Contains
             (Sample.machine_5 "10.0.0.0/33")).
    + discriminate.
    + vm_compute. reflexivity.
  - apply (proj1 (proj2 (C10_preferred_ip_address
                           IPv4.ParseCIDR IPv4.ParseIP IPv4.Contains
                           (Sample.machine_5 "10.0.0.0/8")))
             (167772160%N, 8%N)).
    + discriminate.
    + vm_compute. reflexivity.
  - apply (proj1 (proj2 (proj2 (C10_preferred_ip_address
                                  IPv4.ParseCIDR IPv4.ParseIP IPv4.Contains
                                  (Sample.machine_5 ""))))).
    reflexivity.
Defined.

Example preferred_none_inside :
  UtilNet.GetMachinePreferredIPAddress
    IPv4.ParseCIDR IPv4.ParseIP IPv4.Contains (Sample.machine_5 "172.16.0.0/12")
  = ("", Some ErrNoMachineIPAddr).
Proof. vm_compute. reflexivity. Qed.

(* ================================================================== *)
(** * Properties of the task tracker *)

Section TaskTracker.
Import Infrav1 Vim25 Context Govmomi.

Lemma getTask_found (ctx : MachineContext) (task : Task) :
  task_ref ctx <> "" ->
  RetrieveOne (Session_ ctx) (Govmomi.task_moRef ctx) = Ok task ->
  getTask ctx = Some task.
Proof.
  unfold getTask, task_moRef, task_ref. intros Hne Hr.
  apply String.eqb_neq in Hne. now rewrite Hne, Hr.
Qed.

Lemma getTask_query_error (ctx : MachineContext) (e : error) :
  RetrieveOne (Session_ ctx) (Govmomi.task_moRef ctx) = Err e ->
  getTask ctx = None.
Proof.
  unfold getTask, task_moRef, task_ref. intros Hr. rewrite Hr.
  destruct (String.eqb _ ""); reflexivity.
Qed.

Lemma getTask_no_reference (ctx : MachineContext) :
  task_ref ctx = "" -> getTask ctx = None.
Proof. unfold getTask, task_ref. now intros ->. Qed.

Lemma task_ref_cleared (ctx : MachineContext) :
  task_ref (assign (with_TaskRef "") ctx) = "".
Proof. reflexivity. Qed.

End TaskTracker.

(** C2. For a resource whose Status holds a task reference: when the
    provider reports the task queued or running, [reconcileInFlightTask]
    answers "still running" without error and leaves the context as it
    was; when the provider reports success or error, or the query fails,
    it answers "not running" without error and the only change is that
    the task reference is empty. *)
Theorem C2_in_flight_task (ctx : Context.MachineContext) :
  Govmomi.task_ref ctx <> "" ->
  (forall task,
      Context.RetrieveOne (Context.Session_ ctx) (Govmomi.task_moRef ctx) = Ok task ->
      Vim25.Info_State task = Vim25.TaskInfoStateQueued
      \/ Vim25.Info_State task = Vim25.TaskInfoStateRunning ->
      Govmomi.reconcileInFlightTask ctx = (ctx, (true, None)))
  /\ (forall task,
         Context.RetrieveOne (Context.Session_ ctx) (Govmomi.task_moRef ctx) = Ok task ->
         Vim25.Info_State task = Vim25.TaskInfoStateSuccess
         \/ Vim25.Info_State task = Vim25.TaskInfoStateError ->
         Govmomi.reconcileInFlightTask ctx
         = (Context.assign (Infrav1.with_TaskRef "") ctx, (false, None)))
  /\ (forall e,
         Context.RetrieveOne (Context.Session_ ctx) (Govmomi.task_moRef ctx) = Err e ->
         Govmomi.reconcileInFlightTask ctx
         = (Context.assign (Infrav1.with_TaskRef "") ctx, (false, None)))
  /\ Govmomi.task_ref (Context.assign (Infrav1.with_TaskRef "") ctx) = "".
Proof.
  intros Hne. repeat split.
  - intros task Hr Hs. unfold Govmomi.reconcileInFlightTask.
    rewrite (getTask_found ctx task Hne Hr).
    destruct Hs as [-> | ->]; reflexivity.
  - intros task Hr Hs. unfold Govmomi.reconcileInFlightTask.
    rewrite (getTask_found ctx task Hne Hr).
    destruct Hs as [-> | ->]; reflexivity.
  - intros e Hr. unfold Govmomi.reconcileInFlightTask.
    now rewrite (getTask_query_error ctx e Hr).
Qed.

(** The theorem at a machine with the task reference [task-17]. *)
Lemma C2_in_flight_task_witness :
  Govmomi.reconcileInFlightTask
    (Sample.context_of Sample.machine_3 (Sample.session_in "running") Sample.helper_ok)
  = (Sample.context_of Sample.machine_3 (Sample.session_in "running") Sample.helper_ok,
     (true, None))
  /\ Govmomi.reconcileInFlightTask
       (Sample.context_of Sample.machine_3 (Sample.session_in "error") Sample.helper_ok)
     = (Sample.context_of Sample.machine_1 (Sample.session_in "error") Sample.helper_ok,
        (false, None))
  /\ Govmomi.reconcileInFlightTask
       (Sample.context_of Sample.machine_3 Sample.session_lost Sample.helper_ok)
     = (Sample.context_of Sample.machine_1 Sample.session_lost Sample.helper_ok,
        (false, None)).
Proof.
  split; [|split].
  - eapply (C2_in_flight_task
              (Sample.context_of Sample.machine_3 (Sample.session_in "running")
                                 Sample.helper_ok)).
    + discriminate.
    + reflexivity.
    + right. reflexivity.
  - eapply (proj1 (proj2 (C2_in_flight_task
              (Sample.context_of Sample.machine_3 (Sample.session_in "error")
                                 Sample.helper_ok) _))).
    + reflexivity.
    + right. reflexivity.
  - eapply (proj1 (proj2 (proj2 (C2_in_flight_task
              (Sample.context_of Sample.machine_3 Sample.session_lost
                                 Sample.helper_ok) _)))).
    reflexivity.
  Unshelve. all: discriminate.
Defined.

(** C9. For a resource whose Status holds a task reference and whose
    task is found in a state other than queued, running, success and
    error, [reconcileInFlightTask] returns the unknown-task-state error
    and leaves the context, the task reference included, as it was. *)
Theorem C9_unknown_task_state (ctx : Context.MachineContext) (task : Vim25.Task) :
  Govmomi.task_ref ctx <> "" ->
  Context.RetrieveOne (Context.Session_ ctx) (Govmomi.task_moRef ctx) = Ok task ->
  Vim25.Info_State task <> Vim25.TaskInfoStateQueued ->
  Vim25.Info_State task <> Vim25.TaskInfoStateRunning ->
  Vim25.Info_State task <> Vim25.TaskInfoStateSuccess ->
  Vim25.Info_State task <> Vim25.TaskInfoStateError ->
  Govmomi.reconcileInFlightTask ctx
  = (ctx, (false, Some (ErrUnknownTaskState (Vim25.Info_State task)))).
Proof.
  intros Hne Hr Hq Hrun Hs He. unfold Govmomi.reconcileInFlightTask.
  rewrite (getTask_found ctx task Hne Hr).
  apply String.eqb_neq in Hq, Hrun, Hs, He.
  now rewrite Hq, Hrun, Hs, He.
Qed.

(** The theorem at a task the provider reports as [cancelled]. *)
Lemma C9_unknown_task_state_witness :
  Govmomi.reconcileInFlightTask
    (Sample.context_of Sample.machine_3 (Sample.session_in "cancelled") Sample.helper_ok)
  = (Sample.context_of Sample.machine_3 (Sample.session_in "cancelled") Sample.helper_ok,
     (false, Some (ErrUnknownTaskState "cancelled"))).
Proof.
  apply (C9_unknown_task_state
           (Sample.context_of Sample.machine_3 (Sample.session_in "cancelled")
                              Sample.helper_ok)
           {| Vim25.Self := {| Vim25.Type_ := "Task"; Vim25.Value := "task-17" |};
              Vim25.Info_State := "cancelled";
              Vim25.Info_DescriptionId := "VirtualMachine.clone" |});
    [discriminate | reflexivity | discriminate ..].
Defined.

(* ================================================================== *)
(** * Properties of the completion notifier *)

(** C4, as stated, fails: when [waitFn] returns an error the background
    unit started for a machine logs the error and sends nothing. *)
Lemma C4_no_signal_on_wait_error :
  exists unit,
    Govmomi.reconcileObjectOnFuncCompletion
      (Sample.context_of Sample.machine_3 (Sample.session_in "running")
                         Sample.helper_ok)
      (Govmomi.MachineObject Sample.machine_3)
    = (None, Some unit)
    /\ unit (["reason"; "task"], Some (ErrExternal "connection reset"))
       = [Govmomi.LogError (ErrExternal "connection reset") "failed to wait on func"]
    /\ existsb Govmomi.is_send
         (unit (["reason"; "task"], Some (ErrExternal "connection reset")))
       = false.
Proof. eexists. repeat split. Qed.

(** C4, amended. For a machine resource [notifyOnCompletion] returns no
    error and starts one background unit; when [waitFn] returns without
    error the unit sends exactly one signal, for the resource, into the
    channel of the resource's group/kind; when [waitFn] returns an error
    the unit logs it and sends no signal.  For an object without
    metadata an error is returned and no unit is started. *)
Theorem C4_notify_on_completion
        (ctx : Context.MachineContext) (m : Infrav1.VSphereMachine) :
  exists unit,
    Govmomi.reconcileObjectOnFuncCompletion ctx (Govmomi.MachineObject m)
    = (None, Some unit)
    /\ (forall keysAndValues,
           unit (keysAndValues, None)
           = [Govmomi.LogInfo "triggering GenericEvent" keysAndValues;
              Govmomi.Send (Infrav1.TypeMeta m)
                {| Govmomi.Meta := (Infrav1.Namespace m, Infrav1.Name m);
                   Govmomi.Object := Govmomi.MachineObject m |}])
    /\ (forall keysAndValues e,
           unit (keysAndValues, Some e)
           = [Govmomi.LogError e "failed to wait on func"]
           /\ existsb Govmomi.is_send (unit (keysAndValues, Some e)) = false)
    /\ (forall kind,
           Govmomi.reconcileObjectOnFuncCompletion ctx (Govmomi.BareObject kind)
           = (Some ErrNotObjectMetaAccessor, None)).
Proof.
  eexists. split; [reflexivity|]. repeat split.
Qed.

(* ================================================================== *)
(** * Properties of the reconciler's steps *)

Section StepLemmas.
Import Corev1 Infrav1 Context Services Controllers.
Variable r : machineReconciler.

Lemma Filter_filter (l : list string) (x : string) :
  Clusterutilv1.Filter l x = filter (fun y => negb (String.eqb y x)) l.
Proof.
  induction l as [|y l IH]; [reflexivity|].
  simpl. destruct (String.eqb y x); simpl; now rewrite IH.
Qed.

Lemma Filter_absent (l : list string) (x : string) :
  ~ In x (Clusterutilv1.Filter l x).
Proof.
  rewrite Filter_filter. intros H. apply filter_In in H as [_ H].
  now rewrite String.eqb_refl in H.
Qed.

Lemma Filter_others (l : list string) (x y : string) :
  y <> x -> (In y (Clusterutilv1.Filter l x) <-> In y l).
Proof.
  intros Hne. rewrite Filter_filter, filter_In.
  apply String.eqb_neq in Hne. rewrite Hne. tauto.
Qed.

Lemma Contains_In (l : list string) (x : string) :
  Clusterutilv1.Contains l x = true <-> In x l.
Proof.
  induction l as [|y l IH]; simpl.
  - split; [discriminate | tauto].
  - destruct (String.eqb_spec y x) as [->|Hne].
    + tauto.
    + rewrite IH. split; [tauto|]. now intros [H|H].
Qed.

Lemma ensure_finalizer_present (ctx : MachineContext) :
  Clusterutilv1.Contains (Finalizers (VSphereMachine ctx)) MachineFinalizer = true ->
  ensure_finalizer ctx = ctx.
Proof. unfold ensure_finalizer. now intros ->. Qed.

Lemma ensure_finalizer_others (ctx : MachineContext) :
Cluster (ensure_finalizer ctx) = Cluster ctx
/\ Machine (ensure_finalizer ctx) = Machine ctx
/\ Status (VSphereMachine (ensure_finalizer ctx)) = Status (VSphereMachine ctx).
Proof. unfold ensure_finalizer. destruct (negb _); now repeat split. Qed.

Lemma ensure_finalizer_spec (ctx : MachineContext) :
  Spec (VSphereMachine (ensure_finalizer ctx)) = Spec (VSphereMachine ctx).
Proof. unfold ensure_finalizer. destruct (negb _); reflexivity. Qed.

(** The inner loop appends one internal address per IP address. *)
Lemma collect_inner (ips : list string) (acc : list NodeAddress) :
  fold_left
    (fun ipAddrs ip =>
       (ipAddrs ++ [{| Corev1.Type_ := NodeInternalIP; Address := ip |}])%list)
    ips acc
  = (acc ++ map (fun ip => {| Corev1.Type_ := NodeInternalIP; Address := ip |}) ips)%list.
Proof.
  revert acc. induction ips as [|ip ips IH]; intros acc; simpl.
  - now rewrite app_nil_r.
  - rewrite IH, <- app_assoc. reflexivity.
Qed.

(** The addresses collected are the IP addresses of the interfaces, in
    order, each of type [NodeInternalIP]. *)
Lemma collect_ipAddrs_flat_map (network : list NetworkStatus) :
  collect_ipAddrs network
  = map (fun ip => {| Corev1.Type_ := NodeInternalIP; Address := ip |})
        (flat_map IPAddrs network).
Proof.
  unfold collect_ipAddrs.
  enough (G : forall acc,
             fold_left
               (fun ipAddrs netStatus =>
                  fold_left
                    (fun ipAddrs ip =>
                       (ipAddrs ++ [{| Corev1.Type_ := NodeInternalIP;
                                       Address := ip |}])%list)
                    (IPAddrs netStatus) ipAddrs)
               network acc
             = (acc ++ map (fun ip => {| Corev1.Type_ := NodeInternalIP;
                                         Address := ip |})
                           (flat_map IPAddrs network))%list)
    by apply (G []).
  induction network as [|n network IH]; intros acc; simpl.
  - now rewrite app_nil_r.
  - rewrite IH, collect_inner, map_app, app_assoc. reflexivity.
Qed.

Lemma collect_ipAddrs_none (network : list NetworkStatus) :
  (forall n, In n network -> IPAddrs n = []) ->
  collect_ipAddrs network = [].
Proof.
  intros H. rewrite collect_ipAddrs_flat_map.
  replace (flat_map IPAddrs network) with (@nil string); [reflexivity|].
  induction network as [|n network IH]; [reflexivity|].
  simpl. rewrite (H n) by now left.
  apply IH. intros n' Hn'. apply H. now right.
Qed.

(** [reconcileNetwork] on a count mismatch. *)
Lemma reconcileNetwork_mismatch (ctx : MachineContext) (vm : VirtualMachine) :
  List.length (Devices (Spec_Network (Spec (VSphereMachine ctx))))
  <> List.length (VM_Network vm) ->
  reconcileNetwork r ctx vm
  = (ctx, (false,
           Some (ErrInvalidNetworkCount
                   (List.length (Devices (Spec_Network (Spec (VSphereMachine ctx)))))
                   (List.length (VM_Network vm))))).
Proof.
  intros H. unfold reconcileNetwork.
  apply Nat.eqb_neq in H. now rewrite H.
Qed.

(** [reconcileNetwork] when no address has been observed yet. *)
Lemma reconcileNetwork_waiting (ctx : MachineContext) (vm : VirtualMachine) :
  List.length (Devices (Spec_Network (Spec (VSphereMachine ctx))))
  = List.length (VM_Network vm) ->
  (forall n, In n (VM_Network vm) -> IPAddrs n = []) ->
  reconcileNetwork r ctx vm
  = (assign (with_Status_Network (VM_Network vm)) ctx, (false, None)).
Proof.
  intros Hc Hn. unfold reconcileNetwork.
  apply Nat.eqb_eq in Hc. rewrite Hc. cbn [negb].
  cbn [assign with_VSphereMachine VSphereMachine with_Status_Network
       with_Status Status Status_Network].
  now rewrite (collect_ipAddrs_none _ Hn).
Qed.

(** [reconcileNetwork] writes no Spec field and no finalizer. *)
Lemma reconcileNetwork_frame (ctx : MachineContext) (vm : VirtualMachine) :
  let ctx' := fst (reconcileNetwork r ctx vm) in
  Spec (VSphereMachine ctx') = Spec (VSphereMachine ctx)
  /\ Finalizers (VSphereMachine ctx') = Finalizers (VSphereMachine ctx)
  /\ Ready (Status (VSphereMachine ctx')) = Ready (Status (VSphereMachine ctx)).
Proof.
  unfold reconcileNetwork.
  destruct (negb _); [now repeat split|].
  destruct (_ =? 0)%nat; now repeat split.
Qed.

(** [reconcileProviderID] writes the provider id of Spec and nothing
    else. *)
Lemma reconcileProviderID_frame (ctx : MachineContext) (vm : VirtualMachine) :
  let ctx' := fst (reconcileProviderID r ctx vm) in
  Status (VSphereMachine ctx') = Status (VSphereMachine ctx)
  /\ Finalizers (VSphereMachine ctx') = Finalizers (VSphereMachine ctx)
  /\ Datacenter (Spec (VSphereMachine ctx')) = Datacenter (Spec (VSphereMachine ctx))
  /\ Spec_Network (Spec (VSphereMachine ctx'))
     = Spec_Network (Spec (VSphereMachine ctx)).
Proof.
  unfold reconcileProviderID.
  destruct (String.eqb _ ""); [now repeat split|].
  destruct (ProviderID _) as [p|]; [|now repeat split].
  destruct (negb _); now repeat split.
Qed.

Lemma reconcileProviderID_result (ctx : MachineContext) (vm : VirtualMachine) :
  let providerID := Util.ConvertUUIDToProviderID (BiosUUID vm) in
  (providerID = "" ->
   reconcileProviderID r ctx vm = (ctx, Some (ErrInvalidBiosUUID (BiosUUID vm))))
  /\ (providerID <> "" ->
      snd (reconcileProviderID r ctx vm) = None
      /\ ProviderID (Spec (VSphereMachine (fst (reconcileProviderID r ctx vm))))
         = Some providerID).
Proof.
  cbv zeta. unfold reconcileProviderID. split.
  - now intros ->.
  - intros Hne. apply String.eqb_neq in Hne. rewrite Hne.
    destruct (ProviderID _) as [p|] eqn:E; [|now split].
    destruct (String.eqb_spec p (Util.ConvertUUIDToProviderID (BiosUUID vm)));
      cbn [negb]; split; try reflexivity.
    cbn. now subst.
Qed.

End StepLemmas.

Section SpecFrame.
Import Corev1 Clusterv1 Infrav1 Context Services Controllers.
Variable r : machineReconciler.

(** The virtual machine service writes no Spec field. *)
Hypothesis ReconcileVM_Spec :
  forall c, Spec (VSphereMachine (fst (ReconcileVM (vmService r) c)))
            = Spec (VSphereMachine c).
Hypothesis DestroyVM_Spec :
  forall c, Spec (VSphereMachine (fst (DestroyVM (vmService r) c)))
            = Spec (VSphereMachine c).

Lemma reconcileDelete_Spec (ctx : MachineContext) :
  Spec (VSphereMachine (fst (reconcileDelete r ctx))) = Spec (VSphereMachine ctx).
Proof.
  unfold reconcileDelete. specialize (DestroyVM_Spec ctx).
  destruct (DestroyVM (vmService r) ctx) as [ctx1 [vm err]].
  cbn [fst] in DestroyVM_Spec.
  destruct err; [assumption|].
  destruct (negb _); assumption.
Qed.

Lemma reconcileNormal_Spec (ctx : MachineContext) :
  let ctx' := fst (reconcileNormal r ctx) in
  Datacenter (Spec (VSphereMachine ctx')) = Datacenter (Spec (VSphereMachine ctx))
  /\ Spec_Network (Spec (VSphereMachine ctx'))
     = Spec_Network (Spec (VSphereMachine ctx)).
Proof.
  cbv zeta. unfold reconcileNormal.
  destruct (ErrorReason _); [now split|].
  destruct (ErrorMessage _); [now split|].
  pose proof (ensure_finalizer_spec ctx) as H0.
  destruct (negb (InfrastructureReady _)); [cbn [fst]; now rewrite H0|].
  destruct (Bootstrap_Data _); [|cbn [fst]; now rewrite H0].
  pose proof (ReconcileVM_Spec (ensure_finalizer ctx)) as H1.
  destruct (ReconcileVM (vmService r) (ensure_finalizer ctx)) as [ctx1 [vm err]].
  cbn [fst] in H1. rewrite H0 in H1.
  destruct err; [cbn [fst]; now rewrite H1|].
  destruct (negb (String.eqb (State vm) _)); [cbn [fst]; now rewrite H1|].
  pose proof (reconcileNetwork_frame r ctx1 vm) as [H2 _].
  destruct (reconcileNetwork r ctx1 vm) as [ctx2 [ok err]].
  cbn [fst] in H2. rewrite H1 in H2.
  destruct ok; cbn [negb].
  - pose proof (reconcileProviderID_frame r ctx2 vm) as (_ & _ & H3 & H4).
    destruct (reconcileProviderID r ctx2 vm) as [ctx3 err3].
    cbn [fst] in H3, H4. rewrite H2 in H3, H4.
    destruct err3; cbn; now split.
  - destruct err; cbn [fst]; now rewrite H2.
Qed.

End SpecFrame.

(** C1, as stated, fails: on a machine without provider id, the
    provider-id step assigns [Spec.ProviderID] and leaves Status as it
    was. *)
Lemma C1_provider_id_written_to_spec :
  let ctx := Sample.context_of Sample.machine_1 (Sample.session_in "success")
                               Sample.helper_ok in
  let r := Sample.reconciler_of Sample.machine_1 (fun _ => Err ErrNotFound)
                                Sample.helper_ok
                                (Sample.vm_in "ready" [Sample.nic ["10.1.2.3"]]) in
  let ctx' := fst (Controllers.reconcileProviderID
                     r ctx (Sample.vm_in "ready" [Sample.nic ["10.1.2.3"]])) in
  Infrav1.Spec (Context.VSphereMachine ctx')
  <> Infrav1.Spec (Context.VSphereMachine ctx)
  /\ Infrav1.ProviderID (Infrav1.Spec (Context.VSphereMachine ctx'))
     = Some "vsphere://421a6e0b-7f3c-4d2e-9a51-0c8b3F2D1e77"
  /\ Infrav1.Status (Context.VSphereMachine ctx')
     = Infrav1.Status (Context.VSphereMachine ctx).
Proof.
  cbv zeta. repeat split.
  intros H. apply (f_equal Infrav1.ProviderID) in H. vm_compute in H.
  discriminate H.
Qed.

(** C1, amended. The provider-id step writes [Spec.ProviderID] and
    nothing else: Status, the finalizers and the other Spec fields are
    as before, and when the instance's identifier encodes to a provider
    id the step ends without error with that provider id in Spec.  With
    a virtual machine service that writes no Spec field, a reconcile
    (deletion path or normal path) leaves every Spec field other than
    the provider id as it was. *)
Theorem C1_spec_frame
        (r : Controllers.machineReconciler) (ctx : Context.MachineContext)
        (vm : Infrav1.VirtualMachine) :
  let spec c := Infrav1.Spec (Context.VSphereMachine c) in
  let after_id := fst (Controllers.reconcileProviderID r ctx vm) in
  let providerID := Util.ConvertUUIDToProviderID (Infrav1.BiosUUID vm) in
  (Infrav1.Status (Context.VSphereMachine after_id)
   = Infrav1.Status (Context.VSphereMachine ctx)
   /\ Infrav1.Finalizers (Context.VSphereMachine after_id)
      = Infrav1.Finalizers (Context.VSphereMachine ctx)
   /\ Infrav1.Datacenter (spec after_id) = Infrav1.Datacenter (spec ctx)
   /\ Infrav1.Spec_Network (spec after_id) = Infrav1.Spec_Network (spec ctx)
   /\ (providerID <> "" ->
       snd (Controllers.reconcileProviderID r ctx vm) = None
       /\ Infrav1.ProviderID (spec after_id) = Some providerID))
  /\ ((forall c, spec (fst (Services.ReconcileVM (Controllers.vmService r) c)) = spec c) ->
      (forall c, spec (fst (Services.DestroyVM (Controllers.vmService r) c)) = spec c) ->
      let after := fst (Controllers.dispatch r ctx) in
      Infrav1.Datacenter (spec after) = Infrav1.Datacenter (spec ctx)
      /\ Infrav1.Spec_Network (spec after) = Infrav1.Spec_Network (spec ctx)).
Proof.
  cbv zeta. split.
  - pose proof (reconcileProviderID_frame r ctx vm) as (H1 & H2 & H3 & H4).
    pose proof (reconcileProviderID_result r ctx vm) as [_ H5].
    repeat split; assumption || apply H5; assumption.
  - intros HR HD. unfold Controllers.dispatch.
    destruct (negb _).
    + now rewrite (reconcileDelete_Spec r HD ctx).
    + apply (reconcileNormal_Spec r HR ctx).
Qed.

(** The theorem at a ready instance with one address: the whole
    reconcile of [machine_1] leaves datacenter and network devices of
    Spec as they were. *)
Lemma C1_spec_frame_witness :
  let r := Sample.reconciler_of Sample.machine_1 (fun _ => Err ErrNotFound)
                                Sample.helper_ok
                                (Sample.vm_in "ready" [Sample.nic ["10.1.2.3"]]) in
  let ctx := Sample.context_of Sample.machine_1 (Sample.session_in "success")
                               Sample.helper_ok in
  let after := fst (Controllers.dispatch r ctx) in
  Infrav1.Datacenter (Infrav1.Spec (Context.VSphereMachine after)) = "dc1"
  /\ Infrav1.Spec_Network (Infrav1.Spec (Context.VSphereMachine after))
     = Infrav1.Spec_Network (Infrav1.Spec Sample.machine_1).
Proof.
  cbv zeta.
  apply (proj2 (C1_spec_frame
                  (Sample.reconciler_of Sample.machine_1 (fun _ => Err ErrNotFound)
                                        Sample.helper_ok
                                        (Sample.vm_in "ready" [Sample.nic ["10.1.2.3"]]))
                  (Sample.context_of Sample.machine_1 (Sample.session_in "success")
                                     Sample.helper_ok)
                  (Sample.vm_in "ready" [Sample.nic ["10.1.2.3"]]))).
  - intros c. reflexivity.
  - intros c. reflexivity.
Defined.

(* ================================================================== *)
(** * Properties of the two reconcile paths *)

(** C5. When Spec lists a number of network devices different from the
    number of interfaces of the instance view, the network step returns
    the invalid-network-count error and writes nothing; the normal path
    that reaches the step returns that error and ends with the context
    as the provider call left it, so [Status.Ready] is not set. *)
Theorem C5_network_count_mismatch
        (r : Controllers.machineReconciler) (ctx : Context.MachineContext)
        (vm : Infrav1.VirtualMachine) :
  let expNetCount :=
    List.length (Infrav1.Devices (Infrav1.Spec_Network
                   (Infrav1.Spec (Context.VSphereMachine ctx)))) in
  let actNetCount := List.length (Infrav1.VM_Network vm) in
  expNetCount <> actNetCount ->
  Controllers.reconcileNetwork r ctx vm
  = (ctx, (false, Some (ErrInvalidNetworkCount expNetCount actNetCount)))
  /\ (forall ctx0 data,
         Infrav1.ErrorReason (Infrav1.Status (Context.VSphereMachine ctx0)) = None ->
         Infrav1.ErrorMessage (Infrav1.Status (Context.VSphereMachine ctx0)) = None ->
         Clusterv1.InfrastructureReady (Context.Cluster ctx0) = true ->
         Clusterv1.Bootstrap_Data (Context.Machine ctx0) = Some data ->
         Services.ReconcileVM (Controllers.vmService r)
                              (Controllers.ensure_finalizer ctx0)
         = (ctx, (vm, None)) ->
         Infrav1.State vm = Infrav1.VirtualMachineStateReady ->
         Controllers.reconcileNormal r ctx0
         = (ctx, (Controllers.no_requeue,
                  Some (ErrInvalidNetworkCount expNetCount actNetCount)))
         /\ Infrav1.Ready (Infrav1.Status (Context.VSphereMachine
                             (fst (Controllers.reconcileNormal r ctx0))))
            = Infrav1.Ready (Infrav1.Status (Context.VSphereMachine ctx))).
Proof.
  cbv zeta. intros Hne.
  pose proof (reconcileNetwork_mismatch r ctx vm Hne) as HN.
  split; [exact HN|].
  intros ctx0 data HR HM HI HB HV HS.
  assert (E : Controllers.reconcileNormal r ctx0
              = (ctx, (Controllers.no_requeue,
                       Some (ErrInvalidNetworkCount
                               (List.length (Infrav1.Devices (Infrav1.Spec_Network
                                  (Infrav1.Spec (Context.VSphereMachine ctx)))))
                               (List.length (Infrav1.VM_Network vm)))))).
  { unfold Controllers.reconcileNormal.
    destruct (ensure_finalizer_others ctx0) as (EC & EM & _).
    rewrite HR, HM, EC, EM, HI, HB, HV, HS, HN. reflexivity. }
  now rewrite E.
Qed.

(** The theorem at two configured devices against one reported
    interface. *)
Lemma C5_network_count_mismatch_witness :
  let vm := Sample.vm_in "ready" [Sample.nic ["10.1.2.3"]] in
  let r := Sample.reconciler_of Sample.machine_2 (fun _ => Err ErrNotFound)
                                Sample.helper_ok vm in
  let ctx := Sample.context_of Sample.machine_2 (Sample.session_in "success")
                               Sample.helper_ok in
  Controllers.reconcileNetwork r ctx vm
  = (ctx, (false, Some (ErrInvalidNetworkCount 2 1)))
  /\ Controllers.reconcileNormal r ctx
     = (ctx, (Controllers.no_requeue, Some (ErrInvalidNetworkCount 2 1)))
  /\ Infrav1.Ready (Infrav1.Status (Context.VSphereMachine
                      (fst (Controllers.reconcileNormal r ctx)))) = false.
Proof.
  cbv zeta.
  pose proof (C5_network_count_mismatch
                (Sample.reconciler_of Sample.machine_2 (fun _ => Err ErrNotFound)
                   Sample.helper_ok (Sample.vm_in "ready" [Sample.nic ["10.1.2.3"]]))
                (Sample.context_of Sample.machine_2 (Sample.session_in "success")
                   Sample.helper_ok)
                (Sample.vm_in "ready" [Sample.nic ["10.1.2.3"]])) as H.
  cbv zeta in H.
  destruct H as [H1 H2]; [simpl; lia|].
  split; [exact H1|].
  apply (H2 (Sample.context_of Sample.machine_2 (Sample.session_in "success")
                               Sample.helper_ok) "#cloud-config");
    reflexivity.
Defined.

(** C6. On a resource with a deletion timestamp the reconcile takes the
    deletion path.  When the destroy call reports the state not-found,
    the path returns no error and the finalizer list becomes the list
    the call left without the lifecycle finalizer (the other finalizers
    stay, in order); when it reports any other state, the path returns
    no error and leaves the context, finalizers included, as the call
    left it. *)
Theorem C6_delete_removes_finalizer
        (r : Controllers.machineReconciler) (ctx ctx1 : Context.MachineContext)
        (vm : Infrav1.VirtualMachine) :
  Metav1.IsZero (Infrav1.DeletionTimestamp (Context.VSphereMachine ctx)) = false ->
  Services.DestroyVM (Controllers.vmService r) ctx = (ctx1, (vm, None)) ->
  let after := fst (Controllers.dispatch r ctx) in
  let kept :=
    filter (fun f => negb (String.eqb f Infrav1.MachineFinalizer))
           (Infrav1.Finalizers (Context.VSphereMachine ctx1)) in
  snd (Controllers.dispatch r ctx) = (Controllers.no_requeue, None)
  /\ (Infrav1.State vm = Infrav1.VirtualMachineStateNotFound ->
      after = Context.assign (Infrav1.with_Finalizers kept) ctx1
      /\ Infrav1.Finalizers (Context.VSphereMachine after) = kept
      /\ ~ In Infrav1.MachineFinalizer
              (Infrav1.Finalizers (Context.VSphereMachine after)))
  /\ (Infrav1.State vm <> Infrav1.VirtualMachineStateNotFound ->
      after = ctx1
      /\ Infrav1.Finalizers (Context.VSphereMachine after)
         = Infrav1.Finalizers (Context.VSphereMachine ctx1)).
Proof.
  intros HZ HD. cbv zeta.
  unfold Controllers.dispatch, Controllers.reconcileDelete.
  rewrite HZ, HD. cbn [negb].
  destruct (String.eqb_spec (Infrav1.State vm) Infrav1.VirtualMachineStateNotFound)
    as [E|E]; cbn [negb fst snd].
  - split; [reflexivity|]. split; [|intros Hne; now elim Hne].
    intros _. unfold Context.assign. rewrite Filter_filter.
    repeat split. cbn. rewrite <- Filter_filter. apply Filter_absent.
  - split; [reflexivity|]. split; [intros HE; now elim E|].
    intros _. now split.
Qed.

(** The theorem at a machine in deletion that carries the lifecycle
    finalizer and one of another party. *)
Lemma C6_delete_removes_finalizer_witness :
  let ctx := Sample.context_of Sample.machine_4 (Sample.session_in "success")
                               Sample.helper_ok in
  let gone := Sample.reconciler_of Sample.machine_4 (fun _ => Err ErrNotFound)
                Sample.helper_ok (Sample.vm_in "notfound" []) in
  let busy := Sample.reconciler_of Sample.machine_4 (fun _ => Err ErrNotFound)
                Sample.helper_ok (Sample.vm_in "pending" []) in
  Infrav1.Finalizers (Context.VSphereMachine (fst (Controllers.dispatch gone ctx)))
  = ["other.example.com"]
  /\ Infrav1.Finalizers (Context.VSphereMachine (fst (Controllers.dispatch busy ctx)))
     = ["other.example.com"; Infrav1.MachineFinalizer].
Proof.
  cbv zeta. split.
  - apply (C6_delete_removes_finalizer
             (Sample.reconciler_of Sample.machine_4 (fun _ => Err ErrNotFound)
                Sample.helper_ok (Sample.vm_in "notfound" []))
             (Sample.context_of Sample.machine_4 (Sample.session_in "success")
                Sample.helper_ok)
             (Sample.context_of Sample.machine_4 (Sample.session_in "success")
                Sample.helper_ok)
             (Sample.vm_in "notfound" [])); reflexivity.
  - apply (C6_delete_removes_finalizer
             (Sample.reconciler_of Sample.machine_4 (fun _ => Err ErrNotFound)
                Sample.helper_ok (Sample.vm_in "pending" []))
             (Sample.context_of Sample.machine_4 (Sample.session_in "success")
                Sample.helper_ok)
             (Sample.context_of Sample.machine_4 (Sample.session_in "success")
                Sample.helper_ok)
             (Sample.vm_in "pending" [])); [reflexivity | reflexivity | discriminate].
Defined.

(** C7. Take a machine with no error reason, not ready, that carries the
    lifecycle finalizer, with ready cluster infrastructure and available
    bootstrap data, and a provider call that reports an instance in
    state ready with as many interfaces as Spec has devices and no IP
    address, and that leaves readiness, finalizers and Spec as they
    were.  The normal path returns no error, [Status.Ready] is still
    false, and the finalizer list and the provider id are unchanged. *)
Theorem C7_wait_for_addresses
        (r : Controllers.machineReconciler) (ctx ctx1 : Context.MachineContext)
        (vm : Infrav1.VirtualMachine) (data : string) :
  let machine c := Context.VSphereMachine c in
  Infrav1.ErrorReason (Infrav1.Status (machine ctx)) = None ->
  Infrav1.Ready (Infrav1.Status (machine ctx)) = false ->
  Clusterutilv1.Contains (Infrav1.Finalizers (machine ctx))
                         Infrav1.MachineFinalizer = true ->
  Clusterv1.InfrastructureReady (Context.Cluster ctx) = true ->
  Clusterv1.Bootstrap_Data (Context.Machine ctx) = Some data ->
  Services.ReconcileVM (Controllers.vmService r) ctx = (ctx1, (vm, None)) ->
  Infrav1.Ready (Infrav1.Status (machine ctx1))
  = Infrav1.Ready (Infrav1.Status (machine ctx)) ->
  Infrav1.Finalizers (machine ctx1) = Infrav1.Finalizers (machine ctx) ->
  Infrav1.Spec (machine ctx1) = Infrav1.Spec (machine ctx) ->
  Infrav1.State vm = Infrav1.VirtualMachineStateReady ->
  List.length (Infrav1.Devices (Infrav1.Spec_Network (Infrav1.Spec (machine ctx))))
  = List.length (Infrav1.VM_Network vm) ->
  (forall n, In n (Infrav1.VM_Network vm) -> Infrav1.IPAddrs n = []) ->
  let after := fst (Controllers.reconcileNormal r ctx) in
  snd (Controllers.reconcileNormal r ctx) = (Controllers.no_requeue, None)
  /\ Infrav1.Ready (Infrav1.Status (machine after)) = false
  /\ Infrav1.Finalizers (machine after) = Infrav1.Finalizers (machine ctx)
  /\ Infrav1.ProviderID (Infrav1.Spec (machine after))
     = Infrav1.ProviderID (Infrav1.Spec (machine ctx)).
Proof.
  cbv zeta. intros HR Hready HF HI HB HV Fready Ffin Fspec HS Hcount Hips.
  unfold Controllers.reconcileNormal. rewrite HR.
  destruct (Infrav1.ErrorMessage _).
  - cbn [fst snd]. now repeat split.
  - rewrite (ensure_finalizer_present ctx HF), HI, HB, HV, HS.
    cbn [negb]. rewrite String.eqb_refl. cbn [negb].
    rewrite (reconcileNetwork_waiting r ctx1 vm)
      by (try rewrite Fspec; assumption).
    cbn [negb fst snd Context.assign Context.with_VSphereMachine
         Context.VSphereMachine].
    repeat split.
    + cbn. now rewrite Fready.
    + cbn. exact Ffin.
    + cbn. now rewrite Fspec.
Qed.

(** The theorem at an instance that is ready with one interface and no
    address yet. *)
Lemma C7_wait_for_addresses_witness :
  let vm := Sample.vm_in "ready" [Sample.nic []] in
  let r := Sample.reconciler_of Sample.machine_1 (fun _ => Err ErrNotFound)
                                Sample.helper_ok vm in
  let ctx := Sample.context_of Sample.machine_1 (Sample.session_in "success")
                               Sample.helper_ok in
  let after := Context.VSphereMachine (fst (Controllers.reconcileNormal r ctx)) in
  snd (Controllers.reconcileNormal r ctx) = (Controllers.no_requeue, None)
  /\ Infrav1.Ready (Infrav1.Status after) = false
  /\ Infrav1.Finalizers after = [Infrav1.MachineFinalizer]
  /\ Infrav1.ProviderID (Infrav1.Spec after) = None.
Proof.
  cbv zeta.
  apply (C7_wait_for_addresses
           (Sample.reconciler_of Sample.machine_1 (fun _ => Err ErrNotFound)
              Sample.helper_ok (Sample.vm_in "ready" [Sample.nic []]))
           (Sample.context_of Sample.machine_1 (Sample.session_in "success")
              Sample.helper_ok)
           (Sample.context_of Sample.machine_1 (Sample.session_in "success")
              Sample.helper_ok)
           (Sample.vm_in "ready" [Sample.nic []]) "#cloud-config");
    try reflexivity.
  intros n [<- | []]. reflexivity.
Defined.

(* ================================================================== *)
(** * Properties of the entry point *)

Section EntryPoint.
Import Infrav1 Context Controllers.

Lemma poll_step (fuel : nat) (get : nat -> result Infrav1.VSphereMachine)
      (n : nat) (rv : string) :
  poll (S fuel) get n rv
  = if leaves_loop rv (get n) then Some (S n) else poll fuel get (S n) rv.
Proof.
  cbn [poll]. unfold leaves_loop.
  destruct (get n) as [remoteObj|err]; reflexivity.
Qed.

(** The loop is left at the first answer that ends it. *)
Lemma poll_leaves (get : nat -> result Infrav1.VSphereMachine) (rv : string) :
  forall k n,
    leaves_loop rv (get (n + k)) = true ->
    exists m, poll (S k) get n rv = Some m.
Proof.
  induction k as [|k IH]; intros n H; rewrite poll_step.
  - rewrite Nat.add_0_r in H. rewrite H. eauto.
  - destruct (leaves_loop rv (get n)); [eauto|].
    apply IH. now replace (S n + k) with (n + S k) by lia.
Qed.

(** The loop is not left while the store answers with the local
    version or with errors other than not-found. *)
Lemma poll_spins (get : nat -> result Infrav1.VSphereMachine) (rv : string) :
  (forall n, leaves_loop rv (get n) = false) ->
  forall fuel n, poll fuel get n rv = None.
Proof.
  intros H. induction fuel as [|fuel IH]; intros n; [reflexivity|].
  now rewrite poll_step, H.
Qed.

(** A return before the context is built hands nothing to the
    store. *)
Lemma Reconcile_early_return (fuel : nat) (r : machineReconciler)
      (req : NamespacedName) (res : reconcile_Result) (err : option error) :
  prepare r req = inl (res, err) ->
  Reconcile fuel r req
  = Some {| result_ := res; reterr := err; patched := []; reads := 1 |}.
Proof. unfold Reconcile. now intros ->. Qed.

End EntryPoint.

(** C8. Once the context is built, every return of [Reconcile] has
    handed the resource, as the reconcile body left it, to the patch
    helper exactly once; the error reported is the error of the body
    when there is one, else the error of the patch, if any.  The
    function returns as soon as the store answers a read after the patch
    with not-found or with a version other than the local one. *)
Theorem C8_patch_on_exit
        (fuel : nat) (r : Controllers.machineReconciler)
        (req : Controllers.NamespacedName) (ctx : Context.MachineContext) :
  Controllers.prepare r req = inr ctx ->
  let final := fst (Controllers.dispatch r ctx) in
  let body_err := snd (snd (Controllers.dispatch r ctx)) in
  (forall out,
      Controllers.Reconcile fuel r req = Some out ->
      Controllers.patched out = [Context.VSphereMachine final]
      /\ (forall e, body_err = Some e -> Controllers.reterr out = Some e)
      /\ (body_err = None ->
          Controllers.reterr out = Context.Patch final)
      /\ (body_err = None -> forall e,
          Context.Patch final = Some e -> Controllers.reterr out = Some e))
  /\ (forall k,
         Controllers.leaves_loop
           (Infrav1.ResourceVersion (Context.VSphereMachine final))
           (Controllers.Client_Get r req (1 + k)) = true ->
         exists out, Controllers.Reconcile (S k) r req = Some out).
Proof.
  intros HP. cbv zeta. unfold Controllers.Reconcile. rewrite HP.
  destruct (Controllers.dispatch r ctx) as [final [res berr]].
  cbn [fst snd]. unfold Controllers.deferred_patch. split.
  - intros out H.
    destruct (Controllers.poll fuel _ 1 _) as [n|]; [|discriminate H].
    injection H as <-. cbn [Controllers.patched Controllers.reterr].
    split; [reflexivity|].
    split; [|split].
    + intros e ->. destruct (Context.Patch final); reflexivity.
    + intros ->. destruct (Context.Patch final); reflexivity.
    + intros -> e ->. reflexivity.
  - intros k H.
    destruct (poll_leaves (Controllers.Client_Get r req)
                (Infrav1.ResourceVersion (Context.VSphereMachine final)) k 1 H)
      as [m Hm].
    rewrite Hm. eauto.
Qed.

(** The theorem at a reconcile whose body ends without error, whose
    patch the store refuses, and after which the resource is gone. *)
Lemma C8_patch_on_exit_witness :
  let r := Sample.reconciler_of Sample.machine_1 (fun _ => Err ErrNotFound)
             Sample.helper_conflict (Sample.vm_in "ready" [Sample.nic []]) in
  exists out,
    Controllers.Reconcile 1 r ("default", "m1") = Some out
    /\ Controllers.reterr out = Some (ErrExternal "conflict").
Proof.
  cbv zeta.
  destruct (proj2 (C8_patch_on_exit 1
              (Sample.reconciler_of Sample.machine_1 (fun _ => Err ErrNotFound)
                 Sample.helper_conflict (Sample.vm_in "ready" [Sample.nic []]))
              ("default", "m1")
              (Sample.context_of Sample.machine_1 (Sample.session_in "success")
                 Sample.helper_conflict)
              eq_refl) 0 eq_refl) as [out Hout].
  exists out. split; [exact Hout|].
  apply (proj1 (C8_patch_on_exit 1
              (Sample.reconciler_of Sample.machine_1 (fun _ => Err ErrNotFound)
                 Sample.helper_conflict (Sample.vm_in "ready" [Sample.nic []]))
              ("default", "m1")
              (Sample.context_of Sample.machine_1 (Sample.session_in "success")
                 Sample.helper_conflict)
              eq_refl) out Hout);
    reflexivity.
Defined.

(** While the store keeps answering with the version read at entry,
    [Reconcile] does not return, whatever the number of turns of the
    loop. *)
Example Reconcile_waits_for_new_version (fuel : nat) :
  Controllers.Reconcile fuel
    (Sample.reconciler_of Sample.machine_1 (fun _ => Ok Sample.machine_1)
       Sample.helper_conflict (Sample.vm_in "ready" [Sample.nic []]))
    ("default", "m1")
  = None.
Proof.
  unfold Controllers.Reconcile.
  change (Controllers.prepare _ _)
    with (@inr (Controllers.reconcile_Result * option error) _
            (Sample.context_of Sample.machine_1 (Sample.session_in "success")
                               Sample.helper_conflict)).
  cbv iota beta.
  destruct (Controllers.dispatch _ _) as [final [res berr]] eqn:E.
  unfold Controllers.deferred_patch.
  rewrite poll_spins; [reflexivity|].
  intros n. vm_compute in E. injection E as <- _ _.
  destruct n; reflexivity.
Qed.

(* ================================================================== *)
(** * Further properties of the task tracker and the notifiers *)

(** X1. [reconcileInFlightTask] is idempotent: run on the context it
    leaves, against the same answers of the provider, it leaves that
    context and returns the same results. *)
Theorem X1_in_flight_task_idempotent (ctx : Context.MachineContext) :
  Govmomi.reconcileInFlightTask (fst (Govmomi.reconcileInFlightTask ctx))
  = Govmomi.reconcileInFlightTask ctx.
Proof.
  unfold Govmomi.reconcileInFlightTask at 2 3.
  destruct (Govmomi.getTask ctx) as [task|] eqn:G.
  - destruct (String.eqb _ Vim25.TaskInfoStateQueued) eqn:Q;
      [cbn [fst]; unfold Govmomi.reconcileInFlightTask; now rewrite G, Q|].
    destruct (String.eqb _ Vim25.TaskInfoStateRunning) eqn:R;
      [cbn [fst]; unfold Govmomi.reconcileInFlightTask; now rewrite G, Q, R|].
    destruct (String.eqb _ Vim25.TaskInfoStateSuccess) eqn:S;
      [reflexivity|].
    destruct (String.eqb _ Vim25.TaskInfoStateError) eqn:E;
      [reflexivity|].
    cbn [fst]. unfold Govmomi.reconcileInFlightTask. now rewrite G, Q, R, S, E.
  - reflexivity.
Qed.

(** X2. [reconcileInFlightTask] writes nothing but the task reference,
    and only to empty it.  It answers "running" only while a task
    reference is held, and then without error and without any write; an
    error leaves the context as it was; "not running" without error
    leaves the task reference empty. *)
Theorem X2_in_flight_task_frame (ctx : Context.MachineContext) :
  let after := fst (Govmomi.reconcileInFlightTask ctx) in
  let running := fst (snd (Govmomi.reconcileInFlightTask ctx)) in
  let err := snd (snd (Govmomi.reconcileInFlightTask ctx)) in
  (after = ctx \/ after = Context.assign (Infrav1.with_TaskRef "") ctx)
  /\ (running = true ->
      after = ctx /\ err = None /\ Govmomi.task_ref ctx <> "")
  /\ (err <> None -> after = ctx /\ running = false)
  /\ (running = false -> err = None -> Govmomi.task_ref after = "").
Proof.
  cbv zeta. unfold Govmomi.reconcileInFlightTask.
  destruct (Govmomi.getTask ctx) as [task|] eqn:G.
  - assert (Hne : Govmomi.task_ref ctx <> "").
    { intros H. now rewrite (getTask_no_reference ctx H) in G. }
    destruct (String.eqb _ Vim25.TaskInfoStateQueued);
      [cbn; repeat split; auto; discriminate || congruence|].
    destruct (String.eqb _ Vim25.TaskInfoStateRunning);
      [cbn; repeat split; auto; discriminate || congruence|].
    destruct (String.eqb _ Vim25.TaskInfoStateSuccess);
      [cbn; repeat split; auto; discriminate || congruence|].
    destruct (String.eqb _ Vim25.TaskInfoStateError);
      cbn; repeat split; auto; discriminate || congruence.
  - cbn. repeat split; auto; discriminate || congruence.
Qed.

(** The theorem at a task the provider reports as running. *)
Lemma X2_in_flight_task_frame_witness :
  let ctx := Sample.context_of Sample.machine_3 (Sample.session_in "running")
                               Sample.helper_ok in
  fst (Govmomi.reconcileInFlightTask ctx) = ctx
  /\ snd (snd (Govmomi.reconcileInFlightTask ctx)) = None
  /\ Govmomi.task_ref ctx <> "".
Proof.
  cbv zeta.
  exact (proj1 (proj2 (X2_in_flight_task_frame
                         (Sample.context_of Sample.machine_3
                            (Sample.session_in "running") Sample.helper_ok)))
               eq_refl).
Defined.

(** X3. [reconcileVSphereMachineOnTaskCompletion] never returns an
    error.  Without task reference it starts no background unit,
    whatever the session; with a task found it starts one unit, which
    sends exactly one signal for the machine when the wait returns the
    task's information (in any state) and none when the wait fails. *)
Theorem X3_notify_on_task_completion (ctx : Context.MachineContext) :
  let m := Context.VSphereMachine ctx in
  let signal :=
    Govmomi.Send (Infrav1.TypeMeta m)
      {| Govmomi.Meta := (Infrav1.Namespace m, Infrav1.Name m);
         Govmomi.Object := Govmomi.MachineObject m |} in
  fst (GovmomiVM.reconcileVSphereMachineOnTaskCompletion ctx) = None
  /\ (Govmomi.task_ref ctx = "" ->
      snd (GovmomiVM.reconcileVSphereMachineOnTaskCompletion ctx) = None)
  /\ (forall task,
         Govmomi.getTask ctx = Some task ->
         exists unit,
           snd (GovmomiVM.reconcileVSphereMachineOnTaskCompletion ctx) = Some unit
           /\ (forall info, GovmomiVM.signals (unit (Ok info)) = [signal])
           /\ (forall e, GovmomiVM.signals (unit (Err e)) = []
                         /\ unit (Err e)
                            = [Govmomi.LogError e "failed to wait on func"])).
Proof.
  cbv zeta. unfold GovmomiVM.reconcileVSphereMachineOnTaskCompletion.
  split; [|split].
  - destruct (Govmomi.getTask ctx); reflexivity.
  - intros H. now rewrite (getTask_no_reference ctx H).
  - intros task ->. cbn. eexists. split; [reflexivity|].
    split; [reflexivity|]. intros e. split; reflexivity.
Qed.

(** The theorem at a machine with the task reference [task-17]. *)
Lemma X3_notify_on_task_completion_witness :
  exists unit,
    snd (GovmomiVM.reconcileVSphereMachineOnTaskCompletion
           (Sample.context_of Sample.machine_3 (Sample.session_in "running")
                              Sample.helper_ok))
    = Some unit
    /\ List.length (GovmomiVM.signals (unit (Ok (Sample2.task_info "error")))) = 1
    /\ snd (GovmomiVM.reconcileVSphereMachineOnTaskCompletion
              (Sample.context_of Sample.machine_1 (Sample.session_in "running")
                                 Sample.helper_ok))
       = None.
Proof.
  destruct (proj2 (proj2 (X3_notify_on_task_completion
                            (Sample.context_of Sample.machine_3
                               (Sample.session_in "running") Sample.helper_ok)))
                  _ eq_refl) as (unit & Hu & Hs & _).
  exists unit. split; [exact Hu|]. split.
  - now rewrite Hs.
  - exact (proj1 (proj2 (X3_notify_on_task_completion
                           (Sample.context_of Sample.machine_1
                              (Sample.session_in "running") Sample.helper_ok)))
                 eq_refl).
Defined.

(** X4. [reconcileVSphereMachineWhenNetworkIsReady] returns no error and
    starts one background unit.  The unit sends a signal, exactly one
    and for the machine, if and only if the wait for the power-on task
    returns the state success and the wait for the network returns no
    error; in every other case it logs one error and sends nothing. *)
Theorem X4_notify_when_network_ready (ctx : Context.MachineContext) :
  let m := Context.VSphereMachine ctx in
  let signal :=
    Govmomi.Send (Infrav1.TypeMeta m)
      {| Govmomi.Meta := (Infrav1.Namespace m, Infrav1.Name m);
         Govmomi.Object := Govmomi.MachineObject m |} in
  exists unit,
    GovmomiVM.reconcileVSphereMachineWhenNetworkIsReady ctx = (None, Some unit)
    /\ (forall info,
           GovmomiVM.TaskInfo_State info = Vim25.TaskInfoStateSuccess ->
           GovmomiVM.signals (unit (Ok info) None) = [signal])
    /\ (forall w n,
           GovmomiVM.signals (unit w n) <> [] ->
           n = None
           /\ exists info,
               w = Ok info
               /\ GovmomiVM.TaskInfo_State info = Vim25.TaskInfoStateSuccess)
    /\ (forall w n,
           GovmomiVM.signals (unit w n) = [] ->
           exists e, unit w n = [Govmomi.LogError e "failed to wait on func"]).
Proof.
  cbv zeta. eexists. split; [reflexivity|].
  split; [|split].
  - intros info H. cbn. unfold GovmomiVM.network_waitFn. now rewrite H.
  - intros w n. cbn. unfold GovmomiVM.network_waitFn.
    destruct w as [info|e]; [|cbn; congruence].
    destruct (String.eqb_spec (GovmomiVM.TaskInfo_State info)
                              Vim25.TaskInfoStateSuccess) as [E|E];
      cbn [negb]; [|cbn; congruence].
    destruct n; [cbn; congruence|]. eauto.
  - intros w n. cbn. unfold GovmomiVM.network_waitFn.
    destruct w as [info|e]; [|cbn; eauto].
    destruct (String.eqb _ Vim25.TaskInfoStateSuccess);
      cbn [negb]; [|cbn; eauto].
    destruct n; cbn; [eauto|discriminate].
Qed.

(** The theorem at a power-on that succeeds and a network that comes
    up, and at a power-on that ends in error. *)
Lemma X4_notify_when_network_ready_witness :
  exists unit,
    GovmomiVM.reconcileVSphereMachineWhenNetworkIsReady
      (Sample.context_of Sample.machine_1 (Sample.session_in "success")
                         Sample.helper_ok)
    = (None, Some unit)
    /\ List.length
         (GovmomiVM.signals (unit (Ok (Sample2.task_info "success")) None)) = 1
    /\ GovmomiVM.signals (unit (Ok (Sample2.task_info "error")) None) = [].
Proof.
  destruct (X4_notify_when_network_ready
              (Sample.context_of Sample.machine_1 (Sample.session_in "success")
                                 Sample.helper_ok))
    as (unit & Hu & Hs & Hn & _).
  exists unit. split; [exact Hu|]. split.
  - now rewrite (Hs (Sample2.task_info "success") eq_refl).
  - destruct (GovmomiVM.signals (unit (Ok (Sample2.task_info "error")) None))
      as [|s l] eqn:E; [reflexivity|].
    destruct (Hn (Ok (Sample2.task_info "error")) None) as (_ & info & Hi & Hst).
    + rewrite E. discriminate.
    + injection Hi as <-. discriminate Hst.
Defined.

(* ================================================================== *)
(** * Properties of the search for the instance *)

Lemma is_provider_id_decodes (p : string) :
  Shape.is_provider_id p = true ->
  Shape.is_uuid (Util.ConvertProviderIDToUUID (Some p)) = true.
Proof.
  unfold Shape.is_provider_id. intros H.
  destruct (Shape.strip_prefix_i Util.ProviderIDPrefix p) as [u|] eqn:S;
    [|discriminate H].
  now rewrite (decode_valid p u S H).
Qed.

(** X5. Which search [findVM] makes.  With a provider id in Spec that is
    the scheme prefix and a UUID, it searches by BIOS UUID for the UUID
    of the provider id and never by instance UUID; with a non-empty
    provider id of any other form it returns the invalid-provider-id
    error whatever the session would answer; with no provider id, or an
    empty one, it searches by instance UUID for the UID of the owning
    Machine. *)
Theorem X5_findVM_search
        (finder : GovmomiVM.Finder) (ctx : Context.MachineContext) :
  let providerID := Infrav1.ProviderID (Infrav1.Spec (Context.VSphereMachine ctx)) in
  let uid := Clusterv1.UID (Context.Machine ctx) in
  (forall p, providerID = Some p -> Shape.is_provider_id p = true ->
             let uuid := Util.ConvertProviderIDToUUID (Some p) in
             Shape.is_uuid uuid = true
             /\ GovmomiVM.findVM finder ctx
                = GovmomiVM.found false uuid
                    (GovmomiVM.FindByBIOSUUID finder uuid))
  /\ (forall p, providerID = Some p -> p <> "" ->
                Shape.is_provider_id p = false ->
                GovmomiVM.findVM finder ctx
                = (GovmomiVM.no_reference,
                   Some (GovmomiVM.InvalidProviderID p)))
  /\ (providerID = None \/ providerID = Some "" ->
      GovmomiVM.findVM finder ctx
      = GovmomiVM.found true uid (GovmomiVM.FindByInstanceUUID finder uid)).
Proof.
  cbv zeta. unfold GovmomiVM.findVM. split; [|split].
  - intros p -> Hp. pose proof (is_provider_id_decodes p Hp) as Hu.
    split; [exact Hu|].
    destruct (String.eqb_spec p "") as [->|_]; [discriminate Hp|]. cbn [negb].
    destruct (String.eqb_spec (Util.ConvertProviderIDToUUID (Some p)) "")
      as [E|_]; [|reflexivity].
    rewrite E in Hu. discriminate Hu.
  - intros p -> Hne Hp. apply String.eqb_neq in Hne. rewrite Hne. cbn [negb].
    now rewrite (decode_invalid p Hp).
  - intros [-> | ->]; reflexivity.
Qed.

(** The theorem at a provider id in upper case, at a malformed one and
    at none. *)
Lemma X5_findVM_search_witness :
  let ctx p := Sample.context_of (Sample2.machine_6 p)
                 (Sample.session_in "success") Sample.helper_ok in
  GovmomiVM.findVM Sample2.finder_1
    (ctx "VSPHERE://421a6e0b-7f3c-4d2e-9a51-0c8b3F2D1e77")
  = (Sample2.vm_ref, None)
  /\ GovmomiVM.findVM Sample2.finder_1 (ctx "vsphere://42")
     = (GovmomiVM.no_reference, Some (GovmomiVM.InvalidProviderID "vsphere://42"))
  /\ GovmomiVM.findVM Sample2.finder_1 (ctx "")
     = (Sample2.vm_ref, None).
Proof.
  cbv zeta. split; [|split].
  - exact (proj2 (proj1 (X5_findVM_search Sample2.finder_1
             (Sample.context_of
                (Sample2.machine_6 "VSPHERE://421a6e0b-7f3c-4d2e-9a51-0c8b3F2D1e77")
                (Sample.session_in "success") Sample.helper_ok))
             _ eq_refl eq_refl)).
  - apply (proj1 (proj2 (X5_findVM_search Sample2.finder_1
             (Sample.context_of (Sample2.machine_6 "vsphere://42")
                (Sample.session_in "success") Sample.helper_ok)))
             "vsphere://42" eq_refl); [discriminate | reflexivity].
  - exact (proj2 (proj2 (X5_findVM_search Sample2.finder_1
             (Sample.context_of (Sample2.machine_6 "")
                (Sample.session_in "success") Sample.helper_ok)))
             (or_intror eq_refl)).
Defined.

(** X6. The provider id the provider-id step writes is the one [findVM]
    reads back: once [reconcileProviderID] has ended without error for
    an instance view, [findVM] on the context it leaves searches by BIOS
    UUID for exactly the BIOS UUID of that view. *)
Theorem X6_findVM_after_provider_id
        (r : Controllers.machineReconciler) (finder : GovmomiVM.Finder)
        (ctx : Context.MachineContext) (vm : Infrav1.VirtualMachine) :
  snd (Controllers.reconcileProviderID r ctx vm) = None ->
  GovmomiVM.findVM finder (fst (Controllers.reconcileProviderID r ctx vm))
  = GovmomiVM.found false (Infrav1.BiosUUID vm)
      (GovmomiVM.FindByBIOSUUID finder (Infrav1.BiosUUID vm)).
Proof.
  intros Hok.
  destruct (reconcileProviderID_result r ctx vm) as [Hbad Hgood].
  destruct (String.eqb_spec
              (Util.ConvertUUIDToProviderID (Infrav1.BiosUUID vm)) "") as [E|E].
  - rewrite (Hbad E) in Hok. discriminate Hok.
  - destruct (Hgood E) as [_ Hid].
    assert (Hu : Shape.is_uuid (Infrav1.BiosUUID vm) = true).
    { destruct (Shape.is_uuid (Infrav1.BiosUUID vm)) eqn:U; [reflexivity|].
      now rewrite (encode_invalid _ U) in E. }
    rewrite (encode_valid _ Hu) in Hid.
    assert (Hd : Util.ConvertProviderIDToUUID
                   (Some (Util.ProviderIDPrefix ++ Infrav1.BiosUUID vm))
                 = Infrav1.BiosUUID vm)
      by now apply decode_valid.
    unfold GovmomiVM.findVM. rewrite Hid, Hd. cbn [String.eqb negb Util.ProviderIDPrefix append].
    destruct (String.eqb_spec (Infrav1.BiosUUID vm) "") as [E0|_];
      [|reflexivity].
    rewrite E0 in Hu. discriminate Hu.
Qed.

(** The theorem at [machine_1] and an instance with a valid BIOS UUID. *)
Lemma X6_findVM_after_provider_id_witness :
  let vm := Sample.vm_in "ready" [Sample.nic ["10.1.2.3"]] in
  let r := Sample.reconciler_of Sample.machine_1 (fun _ => Err ErrNotFound)
                                Sample.helper_ok vm in
  let ctx := Sample.context_of Sample.machine_1 (Sample.session_in "success")
                               Sample.helper_ok in
  GovmomiVM.findVM Sample2.finder_1 (fst (Controllers.reconcileProviderID r ctx vm))
  = (Sample2.vm_ref, None).
Proof.
  cbv zeta.
  exact (X6_findVM_after_provider_id
           (Sample.reconciler_of Sample.machine_1 (fun _ => Err ErrNotFound)
              Sample.helper_ok (Sample.vm_in "ready" [Sample.nic ["10.1.2.3"]]))
           Sample2.finder_1
           (Sample.context_of Sample.machine_1 (Sample.session_in "success")
              Sample.helper_ok)
           (Sample.vm_in "ready" [Sample.nic ["10.1.2.3"]]) eq_refl).
Defined.

(** The loop of [sanitizeIPAddrs] keeps its accumulator and appends the
    addresses that pass the check. *)
Lemma sanitize_loop (check : string -> option error) (ipAddrs acc : list string) :
  fold_left
    (fun newIPAddrs addr =>
       match check addr with
       | Some _ => newIPAddrs
       | None => (newIPAddrs ++ [addr])%list
       end)
    ipAddrs acc
  = (acc ++ filter (fun a => match check a with None => true | Some _ => false end)
                   ipAddrs)%list.
Proof.
  revert acc. induction ipAddrs as [|a l IH]; intros acc; simpl.
  - now rewrite app_nil_r.
  - rewrite IH. destruct (check a); [reflexivity|].
    now rewrite <- app_assoc.
Qed.

(** X7. [sanitizeIPAddrs] returns the addresses for which the local-only
    check reports no error, in their order and with their repetitions;
    every address it returns passes the check, and sanitizing twice is
    sanitizing once. *)
Theorem X7_sanitizeIPAddrs
        (ErrOnLocalOnlyIPAddr : string -> option error) (ipAddrs : list string) :
  let passes a :=
    match ErrOnLocalOnlyIPAddr a with None => true | Some _ => false end in
  GovmomiVM.sanitizeIPAddrs ErrOnLocalOnlyIPAddr ipAddrs = filter passes ipAddrs
  /\ (forall a, In a (GovmomiVM.sanitizeIPAddrs ErrOnLocalOnlyIPAddr ipAddrs)
                <-> In a ipAddrs /\ ErrOnLocalOnlyIPAddr a = None)
  /\ GovmomiVM.sanitizeIPAddrs ErrOnLocalOnlyIPAddr
       (GovmomiVM.sanitizeIPAddrs ErrOnLocalOnlyIPAddr ipAddrs)
     = GovmomiVM.sanitizeIPAddrs ErrOnLocalOnlyIPAddr ipAddrs.
Proof.
  cbv zeta.
  assert (E : forall l,
             GovmomiVM.sanitizeIPAddrs ErrOnLocalOnlyIPAddr l
             = filter (fun a => match ErrOnLocalOnlyIPAddr a with
                                | None => true | Some _ => false end) l).
  { intros l. unfold GovmomiVM.sanitizeIPAddrs.
    destruct l as [|a l]; [reflexivity|].
    cbn [List.length Nat.eqb]. now rewrite sanitize_loop. }
  split; [apply E|]. split.
  - intros a. rewrite E, filter_In.
    destruct (ErrOnLocalOnlyIPAddr a); split; intros [H1 H2];
      (split; [assumption|]); congruence.
  - rewrite !E.
    induction ipAddrs as [|a l IH]; [reflexivity|]. simpl.
    destruct (ErrOnLocalOnlyIPAddr a) eqn:C; [exact IH|].
    simpl. now rewrite C, IH.
Qed.

(** The theorem at a loopback address followed by a routable one. *)
Lemma X7_sanitizeIPAddrs_witness :
  In "10.1.2.3"
     (GovmomiVM.sanitizeIPAddrs Sample2.local_only ["127.0.0.1"; "10.1.2.3"])
  /\ ~ In "127.0.0.1"
         (GovmomiVM.sanitizeIPAddrs Sample2.local_only ["127.0.0.1"; "10.1.2.3"]).
Proof.
  split.
  - apply (proj1 (proj2 (X7_sanitizeIPAddrs Sample2.local_only
                           ["127.0.0.1"; "10.1.2.3"]))).
    split; [right; left; reflexivity | reflexivity].
  - intros H.
    apply (proj1 (proj2 (X7_sanitizeIPAddrs Sample2.local_only
                           ["127.0.0.1"; "10.1.2.3"]))) in H.
    destruct H as [_ H]. discriminate H.
Defined.

(* ================================================================== *)
(** * Further properties of the reconcile steps *)

Lemma collect_ipAddrs_length (network : list Infrav1.NetworkStatus) :
  List.length (Controllers.collect_ipAddrs network)
  = List.length (flat_map Infrav1.IPAddrs network).
Proof. now rewrite collect_ipAddrs_flat_map, length_map. Qed.

(** The outcomes of [reconcileNetwork], by the counts and the addresses. *)
Lemma reconcileNetwork_outcomes
        (r : Controllers.machineReconciler) (ctx : Context.MachineContext)
        (vm : Infrav1.VirtualMachine) :
  let devices :=
    Infrav1.Devices (Infrav1.Spec_Network (Infrav1.Spec (Context.VSphereMachine ctx))) in
  let ips := flat_map Infrav1.IPAddrs (Infrav1.VM_Network vm) in
  let after := Context.VSphereMachine (fst (Controllers.reconcileNetwork r ctx vm)) in
  let ok := fst (snd (Controllers.reconcileNetwork r ctx vm)) in
  let err := snd (snd (Controllers.reconcileNetwork r ctx vm)) in
  (err <> None <-> List.length devices <> List.length (Infrav1.VM_Network vm))
  /\ (ok = true <->
      List.length devices = List.length (Infrav1.VM_Network vm) /\ ips <> [])
  /\ (err = None ->
      Infrav1.Status_Network (Infrav1.Status after) = Infrav1.VM_Network vm)
  /\ (ok = true ->
      Infrav1.Addresses (Infrav1.Status after)
      = map (fun ip => {| Corev1.Type_ := Corev1.NodeInternalIP;
                          Corev1.Address := ip |}) ips)
  /\ (ok = false ->
      Infrav1.Addresses (Infrav1.Status after)
      = Infrav1.Addresses (Infrav1.Status (Context.VSphereMachine ctx))).
Proof.
  cbv zeta. unfold Controllers.reconcileNetwork.
  destruct (Nat.eqb_spec
              (List.length (Infrav1.Devices (Infrav1.Spec_Network
                 (Infrav1.Spec (Context.VSphereMachine ctx)))))
              (List.length (Infrav1.VM_Network vm))) as [E|E]; cbn [negb].
  - cbn [Context.assign Context.with_VSphereMachine Context.VSphereMachine
         Infrav1.with_Status_Network Infrav1.with_Status Infrav1.Status
         Infrav1.Status_Network].
    pose proof (collect_ipAddrs_length (Infrav1.VM_Network vm)) as HL.
    rewrite collect_ipAddrs_flat_map in *.
    destruct (flat_map Infrav1.IPAddrs (Infrav1.VM_Network vm)) as [|ip ips];
      cbn; repeat split; intros; try tauto; try congruence;
      try discriminate.
  - cbn. repeat split; intros; try tauto; try congruence; try discriminate.
Qed.

(** X8. The three outcomes of the network step.  It fails exactly when
    the number of devices in Spec differs from the number of interfaces
    reported; otherwise it records the reported interfaces in Status
    and succeeds exactly when they carry at least one IP address, in
    which case [Status.Addresses] is the list of all reported IP
    addresses, interface by interface, each as an internal address. *)
Theorem X8_network_step_outcomes
        (r : Controllers.machineReconciler) (ctx : Context.MachineContext)
        (vm : Infrav1.VirtualMachine) :
  let devices :=
    Infrav1.Devices (Infrav1.Spec_Network (Infrav1.Spec (Context.VSphereMachine ctx))) in
  let ips := flat_map Infrav1.IPAddrs (Infrav1.VM_Network vm) in
  let after := Context.VSphereMachine (fst (Controllers.reconcileNetwork r ctx vm)) in
  let ok := fst (snd (Controllers.reconcileNetwork r ctx vm)) in
  let err := snd (snd (Controllers.reconcileNetwork r ctx vm)) in
  (err <> None <-> List.length devices <> List.length (Infrav1.VM_Network vm))
  /\ (ok = true <->
      List.length devices = List.length (Infrav1.VM_Network vm) /\ ips <> [])
  /\ (err = None ->
      Infrav1.Status_Network (Infrav1.Status after) = Infrav1.VM_Network vm)
  /\ (ok = true ->
      Infrav1.Addresses (Infrav1.Status after)
      = map (fun ip => {| Corev1.Type_ := Corev1.NodeInternalIP;
                          Corev1.Address := ip |}) ips)
  /\ (ok = false ->
      Infrav1.Addresses (Infrav1.Status after)
      = Infrav1.Addresses (Infrav1.Status (Context.VSphereMachine ctx))).
Proof. exact (reconcileNetwork_outcomes r ctx vm). Qed.

(** The theorem at two devices against one interface. *)
Lemma X8_network_step_outcomes_witness :
  let vm := Sample.vm_in "ready" [Sample.nic ["10.1.2.3"]] in
  let r := Sample.reconciler_of Sample.machine_2 (fun _ => Err ErrNotFound)
                                Sample.helper_ok vm in
  let ctx := Sample.context_of Sample.machine_2 (Sample.session_in "success")
                               Sample.helper_ok in
  snd (snd (Controllers.reconcileNetwork r ctx vm)) <> None.
Proof.
  cbv zeta.
  apply (proj2 (proj1 (X8_network_step_outcomes
                  (Sample.reconciler_of Sample.machine_2 (fun _ => Err ErrNotFound)
                     Sample.helper_ok
                     (Sample.vm_in "ready" [Sample.nic ["10.1.2.3"]]))
                  (Sample.context_of Sample.machine_2 (Sample.session_in "success")
                     Sample.helper_ok)
                  (Sample.vm_in "ready" [Sample.nic ["10.1.2.3"]])))).
  simpl. lia.
Defined.

(** X9. After a network step that succeeds on a machine without
    preferred network, [GetMachinePreferredIPAddress] returns the first
    IP address of the first reported interface that has one. *)
Theorem X9_preferred_after_network_step
        {IPNet IP : Type} (ParseCIDR : string -> option IPNet)
        (ParseIP : string -> IP) (Contains : IPNet -> IP -> bool)
        (r : Controllers.machineReconciler) (ctx : Context.MachineContext)
        (vm : Infrav1.VirtualMachine) (ip : string) (ips : list string) :
  Infrav1.PreferredAPIServerCIDR
    (Infrav1.Spec_Network (Infrav1.Spec (Context.VSphereMachine ctx))) = "" ->
  List.length (Infrav1.Devices
                 (Infrav1.Spec_Network (Infrav1.Spec (Context.VSphereMachine ctx))))
  = List.length (Infrav1.VM_Network vm) ->
  flat_map Infrav1.IPAddrs (Infrav1.VM_Network vm) = ip :: ips ->
  UtilNet.GetMachinePreferredIPAddress ParseCIDR ParseIP Contains
    (Context.VSphereMachine (fst (Controllers.reconcileNetwork r ctx vm)))
  = (ip, None).
Proof.
  intros Hcidr Hcount Hips.
  destruct (reconcileNetwork_outcomes r ctx vm) as (_ & Hok & _ & Haddr & _).
  cbv zeta in Hok, Haddr.
  assert (Ht : fst (snd (Controllers.reconcileNetwork r ctx vm)) = true).
  { apply Hok. split; [exact Hcount|]. rewrite Hips. discriminate. }
  specialize (Haddr Ht). rewrite Hips in Haddr.
  unfold UtilNet.GetMachinePreferredIPAddress.
  destruct (reconcileNetwork_frame r ctx vm) as (Hspec & _).
  cbv zeta in Hspec. rewrite Hspec, Hcidr, Haddr. reflexivity.
Qed.

(** The theorem at an instance whose first interface has no address and
    whose second has two. *)
Lemma X9_preferred_after_network_step_witness :
  let vm := Sample.vm_in "ready" [Sample.nic []; Sample.nic ["10.1.2.3"; "10.1.2.4"]] in
  let r := Sample.reconciler_of Sample.machine_2 (fun _ => Err ErrNotFound)
                                Sample.helper_ok vm in
  let ctx := Sample.context_of Sample.machine_2 (Sample.session_in "success")
                               Sample.helper_ok in
  UtilNet.GetMachinePreferredIPAddress IPv4.ParseCIDR IPv4.ParseIP IPv4.Contains
    (Context.VSphereMachine (fst (Controllers.reconcileNetwork r ctx vm)))
  = ("10.1.2.3", None).
Proof.
  cbv zeta.
  apply (X9_preferred_after_network_step
           IPv4.ParseCIDR IPv4.ParseIP IPv4.Contains
           (Sample.reconciler_of Sample.machine_2 (fun _ => Err ErrNotFound)
              Sample.helper_ok
              (Sample.vm_in "ready"
                 [Sample.nic []; Sample.nic ["10.1.2.3"; "10.1.2.4"]]))
           (Sample.context_of Sample.machine_2 (Sample.session_in "success")
              Sample.helper_ok)
           (Sample.vm_in "ready"
              [Sample.nic []; Sample.nic ["10.1.2.3"; "10.1.2.4"]])
           "10.1.2.3" ["10.1.2.4"]);
    reflexivity.
Defined.

Section NormalPath.
Import Corev1 Clusterv1 Infrav1 Context Services Controllers ControllersSteps.
Variable r : machineReconciler.

(** [reconcileNormal] is the check of the error state, the finalizer,
    and the steps that follow. *)
Lemma reconcileNormal_steps (ctx : MachineContext) :
  reconcileNormal r ctx
  = if in_error_state (VSphereMachine ctx) then (ctx, (no_requeue, None))
    else after_finalizer r (ensure_finalizer ctx).
Proof.
  unfold reconcileNormal, in_error_state, after_finalizer.
  destruct (ErrorReason (Status (VSphereMachine ctx)));
    destruct (ErrorMessage (Status (VSphereMachine ctx))); reflexivity.
Qed.

Lemma Contains_app_last (l : list string) (x : string) :
  Clusterutilv1.Contains (l ++ [x]) x = true.
Proof.
  induction l as [|y l IH]; simpl.
  - now rewrite String.eqb_refl.
  - destruct (String.eqb y x); [reflexivity|exact IH].
Qed.

Lemma ensure_finalizer_Contains (ctx : MachineContext) :
  Clusterutilv1.Contains (Finalizers (VSphereMachine (ensure_finalizer ctx)))
                         MachineFinalizer = true.
Proof.
  unfold ensure_finalizer.
  destruct (Clusterutilv1.Contains (Finalizers (VSphereMachine ctx))
                                   MachineFinalizer) eqn:C;
    cbn [negb]; [exact C|].
  cbn. apply Contains_app_last.
Qed.

Lemma Filter_app_last (l : list string) (x : string) :
  Clusterutilv1.Filter (l ++ [x]) x = Clusterutilv1.Filter l x.
Proof.
  induction l as [|y l IH]; simpl.
  - now rewrite String.eqb_refl.
  - destruct (String.eqb y x); cbn [negb]; now rewrite IH.
Qed.

Lemma Filter_not_contained (l : list string) (x : string) :
  Clusterutilv1.Contains l x = false -> Clusterutilv1.Filter l x = l.
Proof.
  induction l as [|y l IH]; simpl; [reflexivity|].
  destruct (String.eqb y x); [discriminate|].
  intros H. cbn [negb]. now rewrite IH.
Qed.

Lemma ensure_finalizer_Filter (ctx : MachineContext) :
  Clusterutilv1.Filter (Finalizers (VSphereMachine (ensure_finalizer ctx)))
                       MachineFinalizer
  = Clusterutilv1.Filter (Finalizers (VSphereMachine ctx)) MachineFinalizer.
Proof.
  unfold ensure_finalizer. destruct (negb _); [|reflexivity].
  cbn. apply Filter_app_last.
Qed.

Lemma same_but_observed_refl (c : MachineContext) : same_but_observed c c.
Proof. unfold same_but_observed. now repeat split. Qed.

Lemma same_but_observed_trans (a b c : MachineContext) :
  same_but_observed a b -> same_but_observed b c -> same_but_observed a c.
Proof.
  unfold same_but_observed. intros H1 H2.
  decompose [and] H1. decompose [and] H2. repeat split; congruence.
Qed.

Lemma reconcileNetwork_same (ctx : MachineContext) (vm : VirtualMachine) :
  same_but_observed ctx (fst (reconcileNetwork r ctx vm))
  /\ ProviderID (Spec (VSphereMachine (fst (reconcileNetwork r ctx vm))))
     = ProviderID (Spec (VSphereMachine ctx))
  /\ Ready (Status (VSphereMachine (fst (reconcileNetwork r ctx vm))))
     = Ready (Status (VSphereMachine ctx)).
Proof.
  unfold reconcileNetwork, same_but_observed.
  destruct (negb _); [now repeat split|].
  destruct (_ =? 0)%nat; now repeat split.
Qed.

Lemma reconcileProviderID_same (ctx : MachineContext) (vm : VirtualMachine) :
  same_but_observed ctx (fst (reconcileProviderID r ctx vm)).
Proof.
  unfold reconcileProviderID, same_but_observed.
  destruct (String.eqb _ ""); [now repeat split|].
  destruct (ProviderID _) as [p|]; [|now repeat split].
  destruct (negb _); now repeat split.
Qed.

(** The network step, run again on the context it leaves, leaves it and
    returns the same results. *)
Lemma reconcileNetwork_again (ctx : MachineContext) (vm : VirtualMachine) :
  reconcileNetwork r (fst (reconcileNetwork r ctx vm)) vm
  = reconcileNetwork r ctx vm.
Proof.
  unfold reconcileNetwork at 2 3.
  destruct (negb _) eqn:E.
  - cbn [fst]. unfold reconcileNetwork. now rewrite E.
  - cbn [assign with_VSphereMachine VSphereMachine with_Status_Network
         with_Status Status Status_Network].
    destruct (_ =? 0)%nat eqn:Z; cbn [fst]; unfold reconcileNetwork;
      cbn [assign with_VSphereMachine VSphereMachine with_Status_Network
           with_Addresses with_Status Status Status_Network Spec];
      rewrite E, Z; reflexivity.
Qed.

(** The same for the provider-id step. *)
Lemma reconcileProviderID_again (ctx : MachineContext) (vm : VirtualMachine) :
  reconcileProviderID r (fst (reconcileProviderID r ctx vm)) vm
  = (fst (reconcileProviderID r ctx vm), snd (reconcileProviderID r ctx vm)).
Proof.
  unfold reconcileProviderID at 2 3 4.
  destruct (String.eqb _ "") eqn:E.
  - cbn [fst snd]. unfold reconcileProviderID. now rewrite E.
  - destruct (ProviderID _) as [p|] eqn:P.
    + destruct (String.eqb p _) eqn:Q; cbn [negb fst snd];
        unfold reconcileProviderID; rewrite E.
      * now rewrite P, Q.
      * cbn. now rewrite String.eqb_refl.
    + cbn [fst snd]. unfold reconcileProviderID. rewrite E.
      cbn. now rewrite String.eqb_refl.
Qed.

End NormalPath.

(** X10. What readiness means.  When the normal path turns
    [Status.Ready] from false to true (the provider call not having set
    it), it returns no error, the instance view is in state ready with
    as many interfaces as Spec has devices, the BIOS UUID of the view
    is a UUID and Spec's provider id is its encoding, and
    [Status.Addresses] holds the view's IP addresses, at least one. *)
Theorem X10_ready_means
        (r : Controllers.machineReconciler) (ctx ctx1 : Context.MachineContext)
        (vm : Infrav1.VirtualMachine) (err : option error) :
  let machine c := Context.VSphereMachine c in
  let final := fst (Controllers.reconcileNormal r ctx) in
  Services.ReconcileVM (Controllers.vmService r) (Controllers.ensure_finalizer ctx)
  = (ctx1, (vm, err)) ->
  Infrav1.Ready (Infrav1.Status (machine ctx)) = false ->
  Infrav1.Ready (Infrav1.Status (machine ctx1)) = false ->
  Infrav1.Ready (Infrav1.Status (machine final)) = true ->
  snd (Controllers.reconcileNormal r ctx) = (Controllers.no_requeue, None)
  /\ err = None
  /\ Infrav1.State vm = Infrav1.VirtualMachineStateReady
  /\ List.length (Infrav1.Devices (Infrav1.Spec_Network (Infrav1.Spec (machine ctx1))))
     = List.length (Infrav1.VM_Network vm)
  /\ Shape.is_uuid (Infrav1.BiosUUID vm) = true
  /\ Infrav1.ProviderID (Infrav1.Spec (machine final))
     = Some (Util.ProviderIDPrefix ++ Infrav1.BiosUUID vm)
  /\ Infrav1.Addresses (Infrav1.Status (machine final))
     = map (fun ip => {| Corev1.Type_ := Corev1.NodeInternalIP;
                         Corev1.Address := ip |})
           (flat_map Infrav1.IPAddrs (Infrav1.VM_Network vm))
  /\ Infrav1.Addresses (Infrav1.Status (machine final)) <> [].
Proof.
  cbv zeta. intros HV Hr0 Hr1.
  rewrite reconcileNormal_steps.
  destruct (ControllersSteps.in_error_state _);
    [cbn [fst]; congruence|].
  destruct (ensure_finalizer_others ctx) as (_ & _ & ES).
  unfold ControllersSteps.after_finalizer.
  destruct (negb (Clusterv1.InfrastructureReady _));
    [cbn [fst]; rewrite ES; congruence|].
  destruct (Clusterv1.Bootstrap_Data _);
    [|cbn [fst]; rewrite ES; congruence].
  rewrite HV.
  destruct err as [e|]; [cbn [fst]; congruence|].
  destruct (String.eqb_spec (Infrav1.State vm) Infrav1.VirtualMachineStateReady)
    as [HS|HS]; cbn [negb]; [|cbn [fst]; congruence].
  destruct (reconcileNetwork_outcomes r ctx1 vm) as (_ & Hok & _ & Haddr & _).
  destruct (reconcileNetwork_same r ctx1 vm) as (_ & _ & Hr2).
  cbv zeta in Hok, Haddr.
  destruct (Controllers.reconcileNetwork r ctx1 vm) as [ctx2 [ok e2]].
  cbn [fst snd] in Hok, Haddr, Hr2.
  destruct ok; cbn [negb];
    [|destruct e2; cbn [fst]; congruence].
  destruct (proj1 Hok eq_refl) as [Hcount Hips]. specialize (Haddr eq_refl).
  destruct (reconcileProviderID_frame r ctx2 vm) as (Hst & _).
  destruct (reconcileProviderID_result r ctx2 vm) as [Hbad Hgood].
  cbv zeta in Hst, Hbad, Hgood.
  destruct (String.eqb_spec
              (Util.ConvertUUIDToProviderID (Infrav1.BiosUUID vm)) "") as [E|E].
  - rewrite (Hbad E). cbn [fst]. congruence.
  - destruct (Hgood E) as [Hnone Hid].
    destruct (Controllers.reconcileProviderID r ctx2 vm) as [ctx3 e3].
    cbn [fst snd] in Hst, Hnone, Hid. subst e3.
    assert (Hu : Shape.is_uuid (Infrav1.BiosUUID vm) = true).
    { destruct (Shape.is_uuid (Infrav1.BiosUUID vm)) eqn:U; [reflexivity|].
      now rewrite (encode_invalid _ U) in E. }
    rewrite (encode_valid _ Hu) in Hid.
    intros _. cbn [fst snd].
    repeat split; try assumption; try reflexivity.
    + cbn. now rewrite Hst.
    + cbn. rewrite Hst, Haddr.
      destruct (flat_map Infrav1.IPAddrs (Infrav1.VM_Network vm));
        [now elim Hips|discriminate].
Qed.

(** The theorem at a ready instance with one address. *)
Lemma X10_ready_means_witness :
  let vm := Sample.vm_in "ready" [Sample.nic ["10.1.2.3"]] in
  let r := Sample.reconciler_of Sample.machine_1 (fun _ => Err ErrNotFound)
                                Sample.helper_ok vm in
  let ctx := Sample.context_of Sample.machine_1 (Sample.session_in "success")
                               Sample.helper_ok in
  Infrav1.ProviderID (Infrav1.Spec (Context.VSphereMachine
                        (fst (Controllers.reconcileNormal r ctx))))
  = Some ("vsphere://" ++ Sample.uuid_1).
Proof.
  cbv zeta.
  apply (X10_ready_means
           (Sample.reconciler_of Sample.machine_1 (fun _ => Err ErrNotFound)
              Sample.helper_ok (Sample.vm_in "ready" [Sample.nic ["10.1.2.3"]]))
           (Sample.context_of Sample.machine_1 (Sample.session_in "success")
              Sample.helper_ok)
           (Sample.context_of Sample.machine_1 (Sample.session_in "success")
              Sample.helper_ok)
           (Sample.vm_in "ready" [Sample.nic ["10.1.2.3"]]) None);
    reflexivity.
Defined.

Section NormalPathAgain.
Import Corev1 Clusterv1 Infrav1 Context Services Controllers ControllersSteps.
Variable r : machineReconciler.

Lemma reconcileNetwork_with_ProviderID
      (p : option string) (ctx : MachineContext) (vm : VirtualMachine) :
  reconcileNetwork r (assign (with_ProviderID p) ctx) vm
  = (assign (with_ProviderID p) (fst (reconcileNetwork r ctx vm)),
     snd (reconcileNetwork r ctx vm)).
Proof.
  unfold reconcileNetwork.
  cbn [assign with_VSphereMachine VSphereMachine with_ProviderID with_Spec
       Spec Spec_Network with_Status_Network with_Status Status Status_Network].
  destruct (negb _); [reflexivity|].
  destruct (_ =? 0)%nat; reflexivity.
Qed.

Lemma reconcileNetwork_with_Ready
      (b : bool) (ctx : MachineContext) (vm : VirtualMachine) :
  reconcileNetwork r (assign (with_Ready b) ctx) vm
  = (assign (with_Ready b) (fst (reconcileNetwork r ctx vm)),
     snd (reconcileNetwork r ctx vm)).
Proof.
  unfold reconcileNetwork.
  cbn [assign with_VSphereMachine VSphereMachine with_Ready with_Spec
       Spec Spec_Network with_Status_Network with_Status Status Status_Network].
  destruct (negb _); [reflexivity|].
  destruct (_ =? 0)%nat; reflexivity.
Qed.

Lemma reconcileProviderID_with_Ready
      (b : bool) (ctx : MachineContext) (vm : VirtualMachine) :
  reconcileProviderID r (assign (with_Ready b) ctx) vm
  = (assign (with_Ready b) (fst (reconcileProviderID r ctx vm)),
     snd (reconcileProviderID r ctx vm)).
Proof.
  unfold reconcileProviderID.
  cbn [assign with_VSphereMachine VSphereMachine with_Ready with_Status Spec].
  destruct (String.eqb _ ""); [reflexivity|].
  destruct (ProviderID _); [|reflexivity].
  destruct (negb _); reflexivity.
Qed.

(** The network step and the provider-id step write different fields:
    the network step after the provider-id step is the provider-id step
    after the network step. *)
Lemma reconcileNetwork_after_ProviderID
      (ctx : MachineContext) (vm vm' : VirtualMachine) :
  reconcileNetwork r (fst (reconcileProviderID r ctx vm')) vm
  = (fst (reconcileProviderID r (fst (reconcileNetwork r ctx vm)) vm'),
     snd (reconcileNetwork r ctx vm)).
Proof.
  destruct (reconcileNetwork_same r ctx vm) as (_ & Hid & _).
  unfold reconcileProviderID. rewrite Hid.
  destruct (String.eqb _ ""); [cbn [fst]; now destruct (reconcileNetwork r ctx vm)|].
  destruct (ProviderID (Spec (VSphereMachine ctx))) as [p|].
  - destruct (negb _); cbn [fst].
    + apply reconcileNetwork_with_ProviderID.
    + now destruct (reconcileNetwork r ctx vm).
  - cbn [fst]. apply reconcileNetwork_with_ProviderID.
Qed.

(** The service reports the view [vm] (or the error [err]) and writes
    nothing. *)
Hypothesis ReconcileVM_constant :
  exists vm err, forall c, ReconcileVM (vmService r) c = (c, (vm, err)).

Lemma after_finalizer_again (ctx : MachineContext) :
  after_finalizer r (fst (after_finalizer r ctx)) = after_finalizer r ctx.
Proof.
  destruct ReconcileVM_constant as (vm & err & Hsvc).
  unfold after_finalizer at 2 3.
  destruct (negb (InfrastructureReady (Cluster ctx))) eqn:I;
    [cbn [fst]; unfold after_finalizer; now rewrite I|].
  destruct (Bootstrap_Data (Machine ctx)) as [data|] eqn:B;
    [|cbn [fst]; unfold after_finalizer; now rewrite I, B].
  rewrite Hsvc.
  destruct err as [e|];
    [cbn [fst]; unfold after_finalizer; now rewrite I, B, Hsvc|].
  destruct (negb (String.eqb (State vm) VirtualMachineStateReady)) eqn:S;
    [cbn [fst]; unfold after_finalizer; now rewrite I, B, Hsvc, S|].
  pose proof (reconcileNetwork_again r ctx vm) as Nagain.
  destruct (reconcileNetwork_same r ctx vm) as (Nsame & _).
  destruct (reconcileNetwork r ctx vm) as [ctx2 [ok e2]] eqn:N.
  cbn [fst] in Nagain, Nsame.
  destruct Nsame as (NC & _ & NM & _).
  destruct ok; cbn [negb].
  - pose proof (reconcileProviderID_again r ctx2 vm) as Pagain.
    pose proof (reconcileNetwork_after_ProviderID ctx2 vm vm) as NP.
    destruct (reconcileProviderID_same r ctx2 vm) as (PC & _ & PM & _).
    rewrite Nagain in NP. cbn [fst snd] in NP.
    destruct (reconcileProviderID r ctx2 vm) as [ctx3 e3] eqn:P.
    cbn [fst snd] in Pagain, NP, PC, PM.
    destruct e3 as [e|]; cbn [fst].
    + unfold after_finalizer.
      rewrite PC, NC, I, PM, NM, B, Hsvc, S, NP. cbn [negb].
      now rewrite Pagain.
    + unfold after_finalizer.
      cbn [assign with_VSphereMachine Cluster Machine].
      rewrite PC, NC, I, PM, NM, B, Hsvc, S.
      fold (assign (with_Ready true) ctx3).
      rewrite reconcileNetwork_with_Ready, NP. cbn [fst snd negb].
      rewrite reconcileProviderID_with_Ready, Pagain. cbn [fst snd].
      reflexivity.
  - assert (E : after_finalizer r ctx2
                = (ctx2, (no_requeue,
                          match e2 with Some e => Some e | None => None end))).
    { unfold after_finalizer.
      rewrite NC, I, NM, B, Hsvc, S, Nagain. cbn [negb].
      destruct e2; reflexivity. }
    destruct e2; cbn [fst]; rewrite E; reflexivity.
Qed.

End NormalPathAgain.

(** The normal path, past the error check, keeps the finalizers the
    provider call leaves. *)
Lemma after_finalizer_Finalizers
      (r : Controllers.machineReconciler) (ctx : Context.MachineContext) :
  Infrav1.Finalizers (Context.VSphereMachine
                        (fst (Services.ReconcileVM (Controllers.vmService r) ctx)))
  = Infrav1.Finalizers (Context.VSphereMachine ctx) ->
  Infrav1.Finalizers (Context.VSphereMachine
                        (fst (ControllersSteps.after_finalizer r ctx)))
  = Infrav1.Finalizers (Context.VSphereMachine ctx).
Proof.
  intros HF. unfold ControllersSteps.after_finalizer.
  destruct (negb (Clusterv1.InfrastructureReady _)); [reflexivity|].
  destruct (Clusterv1.Bootstrap_Data _); [|reflexivity].
  destruct (Services.ReconcileVM (Controllers.vmService r) ctx)
    as [ctx1 [vm err]].
  cbn [fst] in HF.
  destruct err; [exact HF|].
  destruct (negb (String.eqb _ _)); [exact HF|].
  destruct (reconcileNetwork_frame r ctx1 vm) as (_ & HN & _).
  destruct (Controllers.reconcileNetwork r ctx1 vm) as [ctx2 [ok e2]].
  cbn [fst] in HN.
  destruct ok; cbn [negb]; [|destruct e2; cbn [fst]; congruence].
  destruct (reconcileProviderID_frame r ctx2 vm) as (_ & HP & _).
  destruct (Controllers.reconcileProviderID r ctx2 vm) as [ctx3 e3].
  cbn [fst] in HP.
  destruct e3; cbn; congruence.
Qed.

(** X11. The lifecycle finalizer after the normal path.  On a resource
    in the error state (an error reason or an error message) the path
    returns the context untouched and no error.  On any other resource,
    with a provider call that leaves the finalizers alone, the resource
    carries the lifecycle finalizer when the path returns, whatever the
    outcome, and its other finalizers are the ones it had, in order. *)
Theorem X11_finalizer_after_normal_path
        (r : Controllers.machineReconciler) (ctx : Context.MachineContext) :
  let final := Context.VSphereMachine (fst (Controllers.reconcileNormal r ctx)) in
  (ControllersSteps.in_error_state (Context.VSphereMachine ctx) = true ->
   Controllers.reconcileNormal r ctx = (ctx, (Controllers.no_requeue, None)))
  /\ (ControllersSteps.in_error_state (Context.VSphereMachine ctx) = false ->
      (forall c,
          Infrav1.Finalizers (Context.VSphereMachine
             (fst (Services.ReconcileVM (Controllers.vmService r) c)))
          = Infrav1.Finalizers (Context.VSphereMachine c)) ->
      Clusterutilv1.Contains (Infrav1.Finalizers final)
                             Infrav1.MachineFinalizer = true
      /\ Clusterutilv1.Filter (Infrav1.Finalizers final) Infrav1.MachineFinalizer
         = Clusterutilv1.Filter (Infrav1.Finalizers (Context.VSphereMachine ctx))
                                Infrav1.MachineFinalizer).
Proof.
  cbv zeta. rewrite reconcileNormal_steps. split.
  - now intros ->.
  - intros -> HF.
    rewrite (after_finalizer_Finalizers r _ (HF _)).
    split; [apply ensure_finalizer_Contains|apply ensure_finalizer_Filter].
Qed.

(** The theorem at a machine without finalizers whose cluster
    infrastructure is ready and whose instance is still pending. *)
Lemma X11_finalizer_after_normal_path_witness :
  let m := Infrav1.with_Finalizers ["other.example.com"] Sample.machine_1 in
  let r := Sample.reconciler_of m (fun _ => Err ErrNotFound) Sample.helper_ok
                                (Sample.vm_in "pending" []) in
  let ctx := Sample.context_of m (Sample.session_in "success") Sample.helper_ok in
  Clusterutilv1.Contains
    (Infrav1.Finalizers (Context.VSphereMachine
                           (fst (Controllers.reconcileNormal r ctx))))
    Infrav1.MachineFinalizer = true.
Proof.
  cbv zeta.
  apply (proj2 (X11_finalizer_after_normal_path
                  (Sample.reconciler_of
                     (Infrav1.with_Finalizers ["other.example.com"] Sample.machine_1)
                     (fun _ => Err ErrNotFound) Sample.helper_ok
                     (Sample.vm_in "pending" []))
                  (Sample.context_of
                     (Infrav1.with_Finalizers ["other.example.com"] Sample.machine_1)
                     (Sample.session_in "success") Sample.helper_ok))).
  - reflexivity.
  - intros c. reflexivity.
Defined.

(** X12. Creation then deletion leaves no trace in the finalizers.  With
    a service that writes nothing and reports the instance not found
    when asked to destroy it, the deletion path run on the context the
    normal path leaves returns no error and ends with the finalizers the
    resource had at first, the lifecycle finalizer removed; when the
    resource did not carry it at first, with exactly the list it had. *)
Theorem X12_finalizer_round_trip
        (r : Controllers.machineReconciler) (ctx : Context.MachineContext)
        (gone : Infrav1.VirtualMachine) :
  let original := Infrav1.Finalizers (Context.VSphereMachine ctx) in
  let deleted :=
    Controllers.reconcileDelete r (fst (Controllers.reconcileNormal r ctx)) in
  ControllersSteps.in_error_state (Context.VSphereMachine ctx) = false ->
  (forall c, fst (Services.ReconcileVM (Controllers.vmService r) c) = c) ->
  (forall c, Services.DestroyVM (Controllers.vmService r) c = (c, (gone, None))) ->
  Infrav1.State gone = Infrav1.VirtualMachineStateNotFound ->
  snd deleted = (Controllers.no_requeue, None)
  /\ Infrav1.Finalizers (Context.VSphereMachine (fst deleted))
     = Clusterutilv1.Filter original Infrav1.MachineFinalizer
  /\ (Clusterutilv1.Contains original Infrav1.MachineFinalizer = false ->
      Infrav1.Finalizers (Context.VSphereMachine (fst deleted)) = original).
Proof.
  cbv zeta. intros HE HR HD HS.
  assert (HF : Infrav1.Finalizers
                 (Context.VSphereMachine
                    (fst (Controllers.reconcileDelete r
                            (fst (Controllers.reconcileNormal r ctx)))))
               = Clusterutilv1.Filter
                   (Infrav1.Finalizers (Context.VSphereMachine ctx))
                   Infrav1.MachineFinalizer).
  { unfold Controllers.reconcileDelete. rewrite HD, HS. cbn.
    rewrite reconcileNormal_steps, HE.
    rewrite after_finalizer_Finalizers by now rewrite HR.
    apply ensure_finalizer_Filter. }
  split; [|split].
  - unfold Controllers.reconcileDelete. rewrite HD, HS. reflexivity.
  - exact HF.
  - intros HC. rewrite HF. now apply Filter_not_contained.
Qed.

(** The theorem at a machine that carries only a finalizer of another
    party. *)
Lemma X12_finalizer_round_trip_witness :
  let m := Infrav1.with_Finalizers ["other.example.com"] Sample.machine_1 in
  let r := Sample.reconciler_of m (fun _ => Err ErrNotFound) Sample.helper_ok
                                (Sample.vm_in "notfound" []) in
  let ctx := Sample.context_of m (Sample.session_in "success") Sample.helper_ok in
  Infrav1.Finalizers
    (Context.VSphereMachine
       (fst (Controllers.reconcileDelete r (fst (Controllers.reconcileNormal r ctx)))))
  = ["other.example.com"].
Proof.
  cbv zeta.
  apply (X12_finalizer_round_trip
           (Sample.reconciler_of
              (Infrav1.with_Finalizers ["other.example.com"] Sample.machine_1)
              (fun _ => Err ErrNotFound) Sample.helper_ok
              (Sample.vm_in "notfound" []))
           (Sample.context_of
              (Infrav1.with_Finalizers ["other.example.com"] Sample.machine_1)
              (Sample.session_in "success") Sample.helper_ok)
           (Sample.vm_in "notfound" []));
    try reflexivity; intros c; reflexivity.
Defined.

(** X13. The deletion path writes nothing but the finalizer list, and
    never adds to it.  Status and Spec are as the destroy call left
    them; the error returned is the error of the destroy call, wrapped,
    and then the context is as the call left it; no requeue is
    asked. *)
Theorem X13_delete_path_frame
        (r : Controllers.machineReconciler) (ctx : Context.MachineContext) :
  let destroyed := Services.DestroyVM (Controllers.vmService r) ctx in
  let left := Context.VSphereMachine (fst destroyed) in
  let final := Context.VSphereMachine (fst (Controllers.reconcileDelete r ctx)) in
  Infrav1.Status final = Infrav1.Status left
  /\ Infrav1.Spec final = Infrav1.Spec left
  /\ (forall f, In f (Infrav1.Finalizers final) -> In f (Infrav1.Finalizers left))
  /\ snd (Controllers.reconcileDelete r ctx)
     = (Controllers.no_requeue,
        match snd (snd destroyed) with
        | Some e => Some (Wrapf e "failed to destroy VM")
        | None => None
        end)
  /\ (snd (snd destroyed) <> None ->
      fst (Controllers.reconcileDelete r ctx) = fst destroyed).
Proof.
  cbv zeta. unfold Controllers.reconcileDelete.
  destruct (Services.DestroyVM (Controllers.vmService r) ctx) as [ctx1 [vm err]].
  cbn [fst snd].
  destruct err as [e|]; [now repeat split|].
  destruct (negb _); cbn [fst snd].
  - repeat split; auto; try (intros H; now elim H).
  - repeat split; auto; try (intros H; now elim H).
    intros f. cbn. rewrite Filter_filter, filter_In. tauto.
Qed.

(** The theorem at a destroy call that is refused. *)
Lemma X13_delete_path_frame_witness :
  let ctx := Sample.context_of Sample.machine_4 (Sample.session_in "success")
                               Sample.helper_ok in
  fst (Controllers.reconcileDelete Sample2.reconciler_stuck ctx) = ctx.
Proof.
  cbv zeta.
  apply (proj2 (proj2 (proj2 (proj2
           (X13_delete_path_frame Sample2.reconciler_stuck
              (Sample.context_of Sample.machine_4 (Sample.session_in "success")
                 Sample.helper_ok)))))).
  discriminate.
Defined.

(** X14. The normal path is idempotent.  With a service that reports
    the same instance view (or the same error) and writes nothing, the
    path run on the context it leaves returns the same results and
    leaves that context: Status, finalizers and provider id have
    converged after one pass. *)
Theorem X14_normal_path_idempotent
        (r : Controllers.machineReconciler) (ctx : Context.MachineContext) :
  (exists vm err,
      forall c, Services.ReconcileVM (Controllers.vmService r) c = (c, (vm, err))) ->
  Controllers.reconcileNormal r (fst (Controllers.reconcileNormal r ctx))
  = Controllers.reconcileNormal r ctx.
Proof.
  intros Hsvc. rewrite (reconcileNormal_steps r ctx).
  destruct (ControllersSteps.in_error_state (Context.VSphereMachine ctx)) eqn:E.
  - cbn [fst]. now rewrite reconcileNormal_steps, E.
  - rewrite reconcileNormal_steps.
    assert (HS : ControllersSteps.same_but_observed
                   (Controllers.ensure_finalizer ctx)
                   (fst (ControllersSteps.after_finalizer
                           r (Controllers.ensure_finalizer ctx)))).
    { destruct Hsvc as (vm & err & Hsvc).
      unfold ControllersSteps.after_finalizer.
      destruct (negb (Clusterv1.InfrastructureReady _));
        [apply same_but_observed_refl|].
      destruct (Clusterv1.Bootstrap_Data _); [|apply same_but_observed_refl].
      rewrite Hsvc.
      destruct err; [apply same_but_observed_refl|].
      destruct (negb (String.eqb _ _)); [apply same_but_observed_refl|].
      destruct (reconcileNetwork_same r (Controllers.ensure_finalizer ctx) vm)
        as (HN & _).
      destruct (Controllers.reconcileNetwork r _ vm) as [ctx2 [ok e2]].
      cbn [fst] in HN.
      destruct ok; cbn [negb]; [|destruct e2; exact HN].
      pose proof (reconcileProviderID_same r ctx2 vm) as HP.
      destruct (Controllers.reconcileProviderID r ctx2 vm) as [ctx3 e3].
      cbn [fst] in HP.
      pose proof (same_but_observed_trans _ _ _ HN HP) as HT.
      destruct e3; [exact HT|].
      unfold ControllersSteps.same_but_observed in *. cbn.
      decompose [and] HT. now repeat split. }
    destruct (ensure_finalizer_others ctx) as (_ & _ & ES).
    pose proof (ensure_finalizer_Contains ctx) as HC.
    unfold ControllersSteps.same_but_observed in HS.
    destruct HS as (_ & _ & _ & _ & _ & HF & _ & _ & HR & HM).
    assert (E' : ControllersSteps.in_error_state
                   (Context.VSphereMachine
                      (fst (ControllersSteps.after_finalizer
                              r (Controllers.ensure_finalizer ctx)))) = false).
    { unfold ControllersSteps.in_error_state in *.
      now rewrite HR, HM, ES. }
    rewrite E'.
    rewrite ensure_finalizer_present by now rewrite HF.
    now apply after_finalizer_again.
Qed.

(** The theorem at a ready instance with one address: a second pass
    changes nothing. *)
Lemma X14_normal_path_idempotent_witness :
  let vm := Sample.vm_in "ready" [Sample.nic ["10.1.2.3"]] in
  let r := Sample.reconciler_of Sample.machine_1 (fun _ => Err ErrNotFound)
                                Sample.helper_ok vm in
  let ctx := Sample.context_of Sample.machine_1 (Sample.session_in "success")
                               Sample.helper_ok in
  Controllers.reconcileNormal r (fst (Controllers.reconcileNormal r ctx))
  = Controllers.reconcileNormal r ctx.
Proof.
  cbv zeta.
  apply (X14_normal_path_idempotent
           (Sample.reconciler_of Sample.machine_1 (fun _ => Err ErrNotFound)
              Sample.helper_ok (Sample.vm_in "ready" [Sample.nic ["10.1.2.3"]]))
           (Sample.context_of Sample.machine_1 (Sample.session_in "success")
              Sample.helper_ok)).
  exists (Sample.vm_in "ready" [Sample.nic ["10.1.2.3"]]), None.
  intros c. reflexivity.
Defined.

(* ================================================================== *)
(** * Further properties of the entry point *)

Section EntryPointMore.
Import Infrav1 Context Controllers ControllersSteps.

Lemma prepare_no_requeue (r : machineReconciler) (req : NamespacedName)
      (res : reconcile_Result) (err : option error) :
  prepare r req = inl (res, err) -> res = no_requeue.
Proof.
  unfold prepare.
  destruct (Client_Get r req 0) as [m|e];
    [|destruct (IsNotFound e); intros H; now injection H as <- _].
  destruct (GetOwnerMachine r m) as [[machine|]|e];
    [| intros H; now injection H as <- _ ..].
  destruct (GetClusterFromMetadata r machine) as [cluster|e];
    [| intros H; now injection H as <- _].
  destruct (Client_Get_VSphereCluster r _) as [vc|e];
    [| intros H; now injection H as <- _].
  destruct (GetOrCreate r _ _) as [s|e];
    [| intros H; now injection H as <- _].
  destruct (NewHelper r m) as [h|e];
    [discriminate | intros H; now injection H as <- _].
Qed.

Lemma dispatch_no_requeue (r : machineReconciler) (ctx : MachineContext) :
  fst (snd (dispatch r ctx)) = no_requeue.
Proof.
  unfold dispatch. destruct (negb _).
  - unfold reconcileDelete.
    destruct (Services.DestroyVM (vmService r) ctx) as [c [vm err]].
    destruct err; [reflexivity|]. destruct (negb _); reflexivity.
  - rewrite reconcileNormal_steps.
    destruct (in_error_state _); [reflexivity|].
    unfold after_finalizer.
    destruct (negb _); [reflexivity|].
    destruct (Clusterv1.Bootstrap_Data _); [|reflexivity].
    destruct (Services.ReconcileVM _ _) as [c [vm err]].
    destruct err; [reflexivity|]. destruct (negb _); [reflexivity|].
    destruct (reconcileNetwork r c vm) as [c2 [ok e2]].
    destruct ok; cbn [negb]; [|destruct e2; reflexivity].
    destruct (reconcileProviderID r c2 vm) as [c3 e3].
    destruct e3; reflexivity.
Qed.

(** More turns of the loop do not change what it returns. *)
Lemma poll_more_fuel (get : nat -> result Infrav1.VSphereMachine) (rv : string) :
  forall fuel n m d,
    poll fuel get n rv = Some m -> poll (fuel + d) get n rv = Some m.
Proof.
  induction fuel as [|fuel IH]; intros n m d H; [discriminate H|].
  change (S fuel + d) with (S (fuel + d)).
  rewrite poll_step in *.
  destruct (leaves_loop rv (get n)); [exact H|]. now apply IH.
Qed.

(** The loop is left at the first read whose answer ends it. *)
Lemma poll_first (get : nat -> result Infrav1.VSphereMachine) (rv : string) :
  forall fuel n m,
    poll fuel get n rv = Some m ->
    n < m
    /\ leaves_loop rv (get (m - 1)) = true
    /\ forall j, n <= j < m - 1 -> leaves_loop rv (get j) = false.
Proof.
  induction fuel as [|fuel IH]; intros n m H; [discriminate H|].
  rewrite poll_step in H.
  destruct (leaves_loop rv (get n)) eqn:L.
  - injection H as <-. replace (S n - 1) with n by lia.
    repeat split; [lia | exact L | intros j Hj; lia].
  - apply IH in H as (Hlt & Hm & Hj).
    repeat split; [lia | exact Hm |].
    intros j [Hj1 Hj2].
    destruct (Nat.eq_dec j n) as [->|Hne]; [exact L|].
    apply Hj. lia.
Qed.

Lemma poll_spins_from (get : nat -> result Infrav1.VSphereMachine) (rv : string) :
  forall fuel n,
    (forall j, n <= j -> leaves_loop rv (get j) = false) ->
    poll fuel get n rv = None.
Proof.
  induction fuel as [|fuel IH]; intros n H; [reflexivity|].
  rewrite poll_step, (H n) by lia. apply IH. intros j Hj. apply H. lia.
Qed.

End EntryPointMore.

(** X15. Every return of [Reconcile] carries the empty result (no
    requeue is ever asked), has read the store at least once, and has
    handed the resource to the patch helper at most once: not at all
    when it returned before the context was built, once otherwise. *)
Theorem X15_reconcile_returns
        (fuel : nat) (r : Controllers.machineReconciler)
        (req : Controllers.NamespacedName) (out : Controllers.exit) :
  Controllers.Reconcile fuel r req = Some out ->
  Controllers.result_ out = Controllers.no_requeue
  /\ 1 <= Controllers.reads out
  /\ (Controllers.patched out = []
      <-> exists early, Controllers.prepare r req = inl early)
  /\ (List.length (Controllers.patched out) = 1
      <-> exists ctx, Controllers.prepare r req = inr ctx).
Proof.
  unfold Controllers.Reconcile.
  destruct (Controllers.prepare r req) as [[res err]|ctx] eqn:P.
  - intros H. injection H as <-. cbn.
    split; [now apply (prepare_no_requeue r req res err)|].
    split; [lia|]. split; split.
    + intros _. eauto.
    + reflexivity.
    + intros H. discriminate H.
    + intros [c Hc]. discriminate Hc.
  - pose proof (dispatch_no_requeue r ctx) as HN.
    destruct (Controllers.dispatch r ctx) as [final [res berr]].
    cbn [fst snd] in HN. subst res.
    unfold Controllers.deferred_patch.
    destruct (Controllers.poll fuel _ 1 _) as [n|] eqn:Q; [|discriminate].
    intros H. injection H as <-. cbn.
    apply poll_first in Q as (Hn & _).
    split; [reflexivity|]. split; [lia|]. split; split.
    + intros H. discriminate H.
    + intros [e He]. discriminate He.
    + intros _. eauto.
    + reflexivity.
Qed.

(** The theorem at a reconcile whose resource is gone after the
    patch. *)
Lemma X15_reconcile_returns_witness :
  exists out,
    Controllers.Reconcile 1
      (Sample.reconciler_of Sample.machine_1 (fun _ => Err ErrNotFound)
         Sample.helper_ok (Sample.vm_in "ready" [Sample.nic []]))
      ("default", "m1") = Some out
    /\ Controllers.result_ out = Controllers.no_requeue.
Proof.
  eexists. split; [reflexivity|].
  apply (X15_reconcile_returns 1
           (Sample.reconciler_of Sample.machine_1 (fun _ => Err ErrNotFound)
              Sample.helper_ok (Sample.vm_in "ready" [Sample.nic []]))
           ("default", "m1")).
  reflexivity.
Defined.



(** X17. When [Reconcile] returns once the context is built.  The last
    read of the store is the first one after the patch that answers
    not-found or a version other than the local one; more turns of the
    loop give the same return; and while no read answers so, there is no
    return, however many turns are allowed. *)
Theorem X17_reconcile_returns_when
        (r : Controllers.machineReconciler)
        (req : Controllers.NamespacedName) (ctx : Context.MachineContext) :
  Controllers.prepare r req = inr ctx ->
  let rv :=
    Infrav1.ResourceVersion
      (Context.VSphereMachine (fst (Controllers.dispatch r ctx))) in
  let ends j := Controllers.leaves_loop rv (Controllers.Client_Get r req j) in
  (forall fuel out,
      Controllers.Reconcile fuel r req = Some out ->
      2 <= Controllers.reads out
      /\ ends (Controllers.reads out - 1) = true
      /\ (forall j, 1 <= j < Controllers.reads out - 1 -> ends j = false)
      /\ forall more, Controllers.Reconcile (fuel + more) r req = Some out)
  /\ ((forall j, 1 <= j -> ends j = false) ->
      forall fuel, Controllers.Reconcile fuel r req = None).
Proof.
  intros HP. cbv zeta. unfold Controllers.Reconcile. rewrite HP.
  destruct (Controllers.dispatch r ctx) as [final [res berr]].
  cbn [fst]. unfold Controllers.deferred_patch. split.
  - intros fuel out H.
    destruct (Controllers.poll fuel _ 1 _) as [n|] eqn:Q; [|discriminate H].
    injection H as <-. cbn [Controllers.reads].
    pose proof (fun d => poll_more_fuel _ _ _ _ _ d Q) as HM.
    apply poll_first in Q as (Hn & He & Hj).
    repeat split; [lia | exact He | exact Hj |].
    intros more. now rewrite HM.
  - intros H fuel. now rewrite poll_spins_from.
Qed.

(** The theorem at a store that shows a new version at the fourth
    read. *)
Lemma X17_reconcile_returns_when_witness :
  exists out,
    Controllers.Reconcile 3 Sample2.reconciler_slow ("default", "m1") = Some out
    /\ Controllers.reads out = 4
    /\ Controllers.Reconcile 10 Sample2.reconciler_slow ("default", "m1")
       = Some out.
Proof.
  eexists. split; [reflexivity|]. split; [reflexivity|].
  exact (proj2 (proj2 (proj2
           (proj1 (X17_reconcile_returns_when
                     Sample2.reconciler_slow ("default", "m1")
                     (Sample.context_of Sample.machine_1
                        (Sample.session_in "success") Sample.helper_ok)
                     eq_refl)
                  3 _ eq_refl))) 7).
Defined.

(* ================================================================== *)
(** * Properties of the text helpers *)

Section Texts.
Import Strings.

Lemma Split_nonempty (s : string) (sep : ascii) : Split s sep <> [].
Proof.
  destruct s as [|c s]; simpl; [discriminate|].
  destruct (Ascii.eqb c sep); [discriminate|].
  destruct (Split s sep); discriminate.
Qed.

(** A separator splits a text into the pieces of what precedes it and
    the pieces of what follows. *)
Lemma Split_at_separator (a b : string) (sep : ascii) :
  Split (a ++ String sep b) sep = (Split a sep ++ Split b sep)%list.
Proof.
  induction a as [|c a IH]; simpl.
  - now rewrite Ascii.eqb_refl.
  - destruct (Ascii.eqb c sep); [now rewrite IH|].
    rewrite IH.
    pose proof (Split_nonempty a sep) as HN.
    destruct (Split a sep) as [|w ws]; [now elim HN|reflexivity].
Qed.

Lemma Split_without_separator (s : string) (sep : ascii) :
  ~ In sep (list_ascii_of_string s) -> Split s sep = [s].
Proof.
  induction s as [|c s IH]; simpl; [reflexivity|].
  intros H. destruct (Ascii.eqb_spec c sep) as [->|_]; [elim H; now left|].
  rewrite IH by tauto. reflexivity.
Qed.

Lemma Join_app (l1 l2 : list string) (sep : string) :
  l1 <> [] -> l2 <> [] ->
  Join (l1 ++ l2) sep = Join l1 sep ++ sep ++ Join l2 sep.
Proof.
  intros H1 H2. induction l1 as [|x l1 IH]; [now elim H1|].
  destruct l1 as [|y l1].
  - destruct l2 as [|z l2]; [now elim H2|]. reflexivity.
  - change (Join ((x :: y :: l1) ++ l2) sep)
      with (x ++ sep ++ Join ((y :: l1) ++ l2) sep).
    rewrite IH by discriminate.
    change (Join (x :: y :: l1) sep) with (x ++ sep ++ Join (y :: l1) sep).
    now rewrite !append_assoc'.
Qed.

Lemma indent_loop (lines acc : list string) :
  fold_left (fun indentedLines line =>
               let indented := Dump.indentation ++ line in
               (indentedLines ++ [indented])%list)
            lines acc
  = (acc ++ map (fun line => (Dump.indentation ++ line)%string) lines)%list.
Proof.
  revert acc. induction lines as [|l lines IH]; intros acc; simpl.
  - now rewrite app_nil_r.
  - rewrite IH, <- app_assoc. reflexivity.
Qed.

Lemma indent_lines (s : string) :
  Dump.indent s
  = Join (map (fun line => Dump.indentation ++ line) (Split s LF)) (Str.byte LF).
Proof. unfold Dump.indent. cbv zeta. now rewrite indent_loop. Qed.

End Texts.

(** X18. [indent] works line by line: the indentation of two texts
    joined by a line feed is the indentations of the two joined by a
    line feed, and a text without line feed (the empty text included)
    is prefixed with four spaces.  So every line, the last and the empty
    ones too, gets the four spaces, and nothing else changes. *)
Theorem X18_indent_line_by_line (a b s : string) :
  Dump.indent (a ++ String Strings.LF b)
  = Dump.indent a ++ String Strings.LF (Dump.indent b)
  /\ (~ In Strings.LF (list_ascii_of_string s) -> Dump.indent s = "    " ++ s).
Proof.
  split.
  - rewrite !indent_lines, Split_at_separator, map_app.
    rewrite Join_app; [reflexivity| |].
    + intros H. apply map_eq_nil in H. now apply Split_nonempty in H.
    + intros H. apply map_eq_nil in H. now apply Split_nonempty in H.
  - intros H. rewrite indent_lines, (Split_without_separator s _ H).
    reflexivity.
Qed.

(** The theorem at the one-line text [a]. *)
Lemma X18_indent_line_by_line_witness : Dump.indent "a" = "    a".
Proof.
  apply (proj2 (X18_indent_line_by_line "" "" "a")).
  intros [H | []]. discriminate H.
Defined.

Example indent_two_lines :
  Dump.indent ("a" ++ String Strings.LF "")
  = "    a" ++ String Strings.LF "    ".
Proof. reflexivity. Qed.

(** X19. [FlagStringSlice] collects the occurrences of the flag in
    command line order: [Set] never fails and appends, so after the
    calls for the occurrences [values] the slice is what it was
    followed by [values]; [String] of a slice with one more value is
    the value alone when the slice was empty, else the former text, a
    comma and the value. *)
Theorem X19_flag_string_slice
        (s : App.FlagStringSlice) (values : list string) (value : string) :
  App.parse values s = (s ++ values)%list
  /\ snd (App.Set_ s value) = None
  /\ App.String_ (fst (App.Set_ s value))
     = match s with
       | [] => value
       | _ => App.String_ s ++ "," ++ value
       end.
Proof.
  split; [|split].
  - unfold App.parse. revert s.
    induction values as [|v values IH]; intros s; simpl.
    + now rewrite app_nil_r.
    + rewrite IH, <- app_assoc. reflexivity.
  - reflexivity.
  - unfold App.String_, App.Set_. cbn [fst].
    destruct s as [|x s]; [reflexivity|].
    rewrite Join_app by discriminate. reflexivity.
Qed.

(* ================================================================== *)
(** * Further properties of the identifier codec *)

Lemma is_uuid_length (u : string) :
  Shape.is_uuid u = true -> String.length u = 36.
Proof. intros H. apply uuid_from_length in H. exact H. Qed.

(** X20. What the codec returns.  [ConvertProviderIDToUUID] returns the
    empty text or a UUID of 36 bytes, and encoding then decoding what it
    returned gives it back.  [ConvertUUIDToProviderID] returns the empty
    text or the scheme prefix followed by its argument, which decodes;
    on UUIDs it is injective. *)
Theorem X20_codec_images (p : option string) (x y : string) :
  let u := Util.ConvertProviderIDToUUID p in
  (u = "" \/ (Shape.is_uuid u = true /\ String.length u = 36))
  /\ Util.ConvertProviderIDToUUID (Some (Util.ConvertUUIDToProviderID u)) = u
  /\ (Util.ConvertUUIDToProviderID x = ""
      \/ (Util.ConvertUUIDToProviderID x = "vsphere://" ++ x
          /\ Shape.is_provider_id (Util.ConvertUUIDToProviderID x) = true))
  /\ (Shape.is_uuid x = true ->
      Util.ConvertUUIDToProviderID x = Util.ConvertUUIDToProviderID y ->
      x = y).
Proof.
  cbv zeta.
  assert (Himg : Util.ConvertProviderIDToUUID p = ""
                 \/ Shape.is_uuid (Util.ConvertProviderIDToUUID p) = true).
  { destruct p as [q|]; [|now left].
    destruct (Shape.is_provider_id q) eqn:Q.
    - right. now apply is_provider_id_decodes.
    - left. now apply decode_invalid. }
  split; [|split; [|split]].
  - destruct Himg as [H|H]; [now left|right].
    split; [exact H|now apply is_uuid_length].
  - destruct Himg as [-> | H]; [reflexivity|].
    rewrite (encode_valid _ H). now apply decode_valid.
  - destruct (Shape.is_uuid x) eqn:U.
    + right. rewrite (encode_valid _ U). split; [reflexivity|].
      unfold Shape.is_provider_id.
      change (Shape.strip_prefix_i Util.ProviderIDPrefix (Util.ProviderIDPrefix ++ x))
        with (Some x).
      exact U.
    + left. now apply encode_invalid.
  - intros U H. rewrite (encode_valid _ U) in H.
    destruct (Shape.is_uuid y) eqn:V.
    + rewrite (encode_valid _ V) in H. cbn in H. now injection H.
    + rewrite (encode_invalid _ V) in H. discriminate H.
Qed.

(** The theorem at a provider id in upper case and at the same UUID
    encoded twice. *)
Lemma X20_codec_images_witness :
  Util.ConvertProviderIDToUUID
    (Some (Util.ConvertUUIDToProviderID
             (Util.ConvertProviderIDToUUID
                (Some "VSPHERE://421a6e0b-7f3c-4d2e-9a51-0c8b3F2D1e77"))))
  = Util.ConvertProviderIDToUUID
      (Some "VSPHERE://421a6e0b-7f3c-4d2e-9a51-0c8b3F2D1e77")
  /\ Sample.uuid_1 = Sample.uuid_1.
Proof.
  split.
  - exact (proj1 (proj2 (X20_codec_images
             (Some "VSPHERE://421a6e0b-7f3c-4d2e-9a51-0c8b3F2D1e77") "" ""))).
  - exact (proj2 (proj2 (proj2 (X20_codec_images
             None Sample.uuid_1 Sample.uuid_1))) eq_refl eq_refl).
Defined.

(* ================================================================== *)
(** * Properties of the devices of the metadata *)

Section MetadataDevices.
Import Infrav1 UtilMetadata.

Lemma nth_error_skipn {A : Type} (l : list A) :
  forall i x, nth_error l i = Some x -> skipn i l = x :: skipn (S i) l.
Proof.
  induction l as [|y l IH]; intros [|i] x H; try discriminate H.
  - now injection H as ->.
  - cbn in H. apply IH in H. exact H.
Qed.

Lemma metadata_devices_none (devices : list NetworkDeviceSpec) :
  forall i, metadata_devices i devices [] = Some devices.
Proof.
  induction devices as [|d devices IH]; intros i; [reflexivity|].
  cbn. now rewrite IH.
Qed.

Lemma metadata_devices_enough (devices : list NetworkDeviceSpec)
      (networkStatus : list NetworkStatus) :
  networkStatus <> [] ->
  forall i,
    i + List.length devices <= List.length networkStatus ->
    metadata_devices i devices networkStatus
    = Some (map (fun p => with_MACAddr (NetworkStatus_MACAddr (snd p)) (fst p))
                (combine devices (skipn i networkStatus))).
Proof.
  intros HN.
  assert (H0 : (0 <? List.length networkStatus)%nat = true).
  { destruct networkStatus; [now elim HN|reflexivity]. }
  induction devices as [|d devices IH]; intros i Hi; [reflexivity|].
  cbn [metadata_devices]. rewrite H0.
  cbn [List.length] in Hi.
  destruct (nth_error networkStatus i) as [st|] eqn:E.
  - rewrite (IH (S i)) by lia.
    rewrite (nth_error_skipn _ _ _ E). reflexivity.
  - apply nth_error_None in E. lia.
Qed.

Lemma metadata_devices_short (devices : list NetworkDeviceSpec)
      (networkStatus : list NetworkStatus) :
  networkStatus <> [] ->
  forall i,
    i <= List.length networkStatus ->
    List.length networkStatus < i + List.length devices ->
    metadata_devices i devices networkStatus = None.
Proof.
  intros HN.
  assert (H0 : (0 <? List.length networkStatus)%nat = true).
  { destruct networkStatus; [now elim HN|reflexivity]. }
  induction devices as [|d devices IH]; intros i Hi Hlt;
    [cbn in Hlt; lia|].
  cbn [metadata_devices]. rewrite H0.
  cbn [List.length] in Hlt.
  destruct (nth_error networkStatus i) as [st|] eqn:E; [|reflexivity].
  assert (i < List.length networkStatus)
    by (apply nth_error_Some; congruence).
  now rewrite (IH (S i)) by lia.
Qed.

End MetadataDevices.

(** X21. The devices [GetMachineMetadata] hands to its template.
    Without network status they are the devices of Spec.  With at least
    as many network statuses as devices, each device carries the MAC
    address of the status of its index and is otherwise as in Spec.
    With some network statuses but fewer than devices the function
    reads [networkStatus] out of range and panics. *)
Theorem X21_metadata_devices
        (devices : list Infrav1.NetworkDeviceSpec)
        (networkStatus : list Infrav1.NetworkStatus) :
  UtilMetadata.metadata_devices 0 devices [] = Some devices
  /\ (networkStatus <> [] ->
      List.length devices <= List.length networkStatus ->
      UtilMetadata.metadata_devices 0 devices networkStatus
      = Some (map (fun p =>
                     UtilMetadata.with_MACAddr
                       (Infrav1.NetworkStatus_MACAddr (snd p)) (fst p))
                  (combine devices networkStatus)))
  /\ (networkStatus <> [] ->
      List.length networkStatus < List.length devices ->
      UtilMetadata.metadata_devices 0 devices networkStatus = None).
Proof.
  split; [apply metadata_devices_none|]. split.
  - intros HN Hle.
    now rewrite (metadata_devices_enough devices networkStatus HN 0).
  - intros HN Hlt.
    apply (metadata_devices_short devices networkStatus HN 0); lia.
Qed.

(** The theorem at two devices, against two network statuses and
    against one. *)
Lemma X21_metadata_devices_witness :
  UtilMetadata.metadata_devices 0
    [Sample.device "net0"; Sample.device "net1"]
    [Sample.nic []; Sample.nic []]
  = Some [UtilMetadata.with_MACAddr "00:50:56:00:00:01" (Sample.device "net0");
          UtilMetadata.with_MACAddr "00:50:56:00:00:01" (Sample.device "net1")]
  /\ UtilMetadata.metadata_devices 0
       [Sample.device "net0"; Sample.device "net1"] [Sample.nic []]
     = None.
Proof.
  split.
  - apply (proj1 (proj2 (X21_metadata_devices
                           [Sample.device "net0"; Sample.device "net1"]
                           [Sample.nic []; Sample.nic []]))).
    + discriminate.
    + simpl. lia.
  - apply (proj2 (proj2 (X21_metadata_devices
                           [Sample.device "net0"; Sample.device "net1"]
                           [Sample.nic []]))).
    + discriminate.
    + simpl. lia.
Defined.
